(** * hangups.client: a shallow embedding of [Client] and its properties

    The Python class [hangups.client.Client] is embedded as a record of its
    fields and a small state-and-exception monad.  Everything the class calls
    but does not define (the clock, the random source, the JSON codecs, the
    pblite codec, the HTTP fetch primitive, the push channel, the subscribers
    of [on_state_update]) is a field of [Externals] or a method of a codec
    class; every call to one of them is recorded in a trace. *)

From Stdlib Require Import ZArith QArith Ascii String List Lia Lqa.
From stdpp Require Import base gmap strings list pretty.

Set Warnings "-register-all,-clear-no-such-hyp".
Local Open Scope Z_scope.
Local Open Scope string_scope.
Local Open Scope list_scope.

(** ** Python values *)

(** The values produced by [json.loads].  Python's [None] is [JNull]; a dict
    is a finite map from its string keys. *)
Inductive json : Type :=
| JNull
| JBool (b : bool)
| JInt (z : Z)
| JFloat (q : Q)
| JStr (s : string)
| JArr (xs : list json)
| JObj (m : gmap string json).

(** The exceptions that occur in the module.  [OtherError] stands for any
    exception class an external collaborator may raise besides these. *)
Inductive exn : Type :=
| KeyError (msg : string)
| IndexError
| TypeError
| ValueError
| NetworkError (msg : string)
| OtherError (name : string).

Inductive outcome (A : Type) : Type :=
| Ok (a : A)
| Raise (e : exn).
Arguments Ok {A} a.
Arguments Raise {A} e.

(** [v == s] for a string literal [s]. *)
Definition is_str (s : string) (v : json) : bool :=
  match v with
  | JStr s' => bool_decide (s' = s)
  | _ => false
  end.

(** [s1 in s2] on two strings. *)
Definition is_substring (s1 s2 : string) : bool :=
  match String.index 0 s1 s2 with
  | Some _ => true
  | None => false
  end.

(** [v is None]. *)
Definition is_none (v : json) : bool :=
  match v with
  | JNull => true
  | _ => false
  end.

(** [v[k]] for a string key [k]. *)
Definition getitem_str (v : json) (k : string) : outcome json :=
  match v with
  | JObj m =>
      match m !! k with
      | Some x => Ok x
      | None => Raise (KeyError k)
      end
  | _ => Raise TypeError
  end.

(** [v[0]]. *)
Definition getitem_0 (v : json) : outcome json :=
  match v with
  | JArr (x :: _) => Ok x
  | JArr [] => Raise IndexError
  | JStr (String a _) => Ok (JStr (String a EmptyString))
  | JStr EmptyString => Raise IndexError
  | JObj _ => Raise (KeyError "0")
  | _ => Raise TypeError
  end.

(** [k in v] for a string literal [k]. *)
Definition contains_str (k : string) (v : json) : outcome bool :=
  match v with
  | JObj m => Ok (bool_decide (is_Some (m !! k)))
  | JArr xs => Ok (existsb (is_str k) xs)
  | JStr s => Ok (is_substring k s)
  | _ => Raise TypeError
  end.

(** ** Protocol Buffer messages (the fields the module reads or writes) *)

Record ClientVersion := { major_version : string }.
Record ClientIdentifier := { resource : option string }.
Record RequestHeader := {
  client_version : ClientVersion;
  language_code : string;
  client_identifier : ClientIdentifier;
}.

Record ResponseHeader := {
  status : Z;
  error_description : string;
}.

Record StateUpdateHeader := { active_client_state : Z }.
Record StateUpdate := {
  state_update_header : StateUpdateHeader;
  state_update_body : json;
}.
Record BatchUpdate := { state_update : list StateUpdate }.

Record GetSelfInfoRequest := { gsi_request_header : RequestHeader }.
Record EntityProperties := { email : list string }.
Record Entity := { properties : EntityProperties }.
Record GetSelfInfoResponse := {
  gsi_response_header : ResponseHeader;
  self_entity : Entity;
}.

Record SetActiveClientRequest := {
  sac_request_header : RequestHeader;
  is_active : bool;
  full_jid : string;
  timeout_secs : Z;
}.
Record SetActiveClientResponse := { sac_response_header : ResponseHeader }.

(** ** The client object *)

(** The fields of [Client] written in [__init__] that the embedded methods
    use.  [_client_id] holds whatever [wrapper['3']['2']] was, so it is a
    [json]; [None] is [JNull].  Times in seconds are exact rationals: the
    rounding of the floats of [time.time()] is left out. *)
Record Client := {
  _cookies : gmap string string;
  _request_header : RequestHeader;
  _client_id : json;
  _email : option string;
  _last_active_secs : Q;
  _active_client_state : option Z;
}.

(** ** Calls to the outside, and the trace *)

(** The arguments of [http_utils.fetch], but for the connector, and the
    [FetchResponse] it returns. *)
Record FetchRequest := {
  fetch_method : string;
  fetch_url : string;
  fetch_headers : gmap string string;
  fetch_cookies : gmap string string;
  fetch_params : gmap string string;
  fetch_data : string;
}.

Record FetchResponse := {
  code : Z;
  cookies : gmap string string;
  body : list Byte.byte;
}.

Inductive level := Debug | Info | Warning.

Inductive log_arg :=
| ArgStr (s : string)
| ArgInt (z : Z)
| ArgJson (v : json)
| ArgExn (e : exn)
| ArgPb (pblite : json)
| ArgStateUpdate (su : StateUpdate).

(** The awaited calls: [http_utils.fetch], [Channel.send_maps], and the
    call of the [i]-th observer of [on_state_update]. *)
Inductive call :=
| CFetch (req : FetchRequest)
| CSendMaps (map_list : list (gmap string string))
| CObserver (i : nat) (su : StateUpdate).

(** One entry per interaction with the outside, oldest first.  [EvCall]
    records the client's fields at the moment of the call; [EvDone] records
    that the awaited call returned normally. *)
Inductive Event :=
| EvLog (lvl : level) (fmt : string) (args : list log_arg)
| EvTime (t : Q)
| EvRandint (a b v : Z)
| EvCall (c : call) (seen : Client)
| EvDone (c : call).

(** The state threaded through every method: the client object and the
    trace of its interactions so far. *)
Record World := {
  client : Client;
  trace : list Event;
}.

(** What the module imports and does not define.  The oracles that stand
    for the outside world answer from the trace so far, so two calls of the
    same function may answer differently.  Coroutines are run to completion
    one after the other: nothing else runs while a call is awaited. *)
Record Externals := {
  (** [time.time()] *)
  time_time : list Event -> Q;
  (** the random source behind [random.randint] *)
  random_source : list Event -> Z;
  (** the built-in [str()] on values that are neither [None] nor a [str] *)
  py_str : json -> string;
  json_loads : string -> outcome json;
  json_dumps : json -> string;
  (** [bytes.decode()] *)
  bytes_decode : list Byte.byte -> outcome string;
  javascript_loads : string -> outcome json;
  (** [channel.get_authorization_headers] *)
  get_authorization_headers : list Event -> string -> gmap string string;
  (** [http_utils.fetch] *)
  http_fetch : list Event -> FetchRequest -> outcome FetchResponse;
  (** [Channel.send_maps] *)
  send_maps : list Event -> list (gmap string string) -> outcome unit;
  (** the observers registered on [Client.on_state_update]; an observer holds
      a reference to the client, may write to it, and returns or raises *)
  observers : list (list Event -> StateUpdate -> Client -> outcome unit * Client);
}.

(** The constants of [hangouts_pb2] and of the package that the module
    reads; their values are not fixed here. *)
Class Constants := {
  ACTIVE_CLIENT_STATE_IS_ACTIVE : Z;
  RESPONSE_STATUS_OK : Z;
  __version__ : string;
}.

(** A Protocol Buffer message class as [pblite] and the module use it:
    [pb_new] is the freshly constructed message, [pblite_decode message
    pblite ignore_first_item] returns the message as [pblite.decode] leaves
    it. *)
Class PbMessage (A : Type) := {
  pb_new : A;
  pblite_encode : A -> json;
  pblite_decode : A -> json -> bool -> outcome A;
}.

(** A response message: it has a [response_header]. *)
Class PbResponse (A : Type) := {
  response_header : A -> ResponseHeader;
}.

#[export] Instance GetSelfInfoResponse_response : PbResponse GetSelfInfoResponse :=
  {| response_header := gsi_response_header |}.
#[export] Instance SetActiveClientResponse_response : PbResponse SetActiveClientResponse :=
  {| response_header := sac_response_header |}.

(** The message classes of [hangouts_pb2] the embedded methods use. *)
Class Pblite := {
  pb_GetSelfInfoRequest :: PbMessage GetSelfInfoRequest;
  pb_GetSelfInfoResponse :: PbMessage GetSelfInfoResponse;
  pb_SetActiveClientRequest :: PbMessage SetActiveClientRequest;
  pb_SetActiveClientResponse :: PbMessage SetActiveClientResponse;
  pb_BatchUpdate :: PbMessage BatchUpdate;
}.

(** ** The monad: state, trace and exceptions *)

Definition M (A : Type) : Type := World -> outcome A * World.

#[export] Instance M_ret : MRet M := λ A a w, (Ok a, w).
#[export] Instance M_bind : MBind M := λ A B f m w,
  match m w with
  | (Ok a, w') => f a w'
  | (Raise e, w') => (Raise e, w')
  end.

Definition raise {A} (e : exn) : M A := λ w, (Raise e, w).
Definition lift {A} (o : outcome A) : M A := λ w, (o, w).
Definition get_client : M Client := λ w, (Ok (client w), w).
Definition put_client (c : Client) : M unit :=
  λ w, (Ok tt, {| client := c; trace := trace w |}).
Definition get_trace : M (list Event) := λ w, (Ok (trace w), w).
Definition emit (ev : Event) : M unit :=
  λ w, (Ok tt, {| client := client w; trace := trace w ++ [ev] |}).

(** [logger.debug], [logger.info], [logger.warning]: the format string is
    kept as the source writes it, the arguments unrendered. *)
Definition log (lvl : level) (fmt : string) (args : list log_arg) : M unit :=
  emit (EvLog lvl fmt args).

(** [yield from] on an outside call: the call is recorded with the client as
    it is, the outside answers and may have written to the client, and a
    normal return is recorded. *)
Definition await {A} (c : call)
    (answer : list Event -> Client -> outcome A * Client) : M A :=
  cl ← get_client;
  emit (EvCall c cl);;
  tr ← get_trace;
  let '(r, cl') := answer tr cl in
  put_client cl';;
  a ← lift r;
  emit (EvDone c);;
  mret a.

(** [try: body / except exceptions.NetworkError as e: handler / else: orelse].
    Only the body is protected. *)
Definition try_except_NetworkError {A B}
    (body : M A) (handler : exn -> M B) (orelse : A -> M B) : M B :=
  λ w,
    match body w with
    | (Ok a, w') => orelse a w'
    | (Raise (NetworkError msg), w') => handler (NetworkError msg) w'
    | (Raise e, w') => (Raise e, w')
    end.

(** [for x in xs: body x]. *)
Fixpoint for_each {A} (xs : list A) (body : A -> M unit) : M unit :=
  match xs with
  | [] => mret tt
  | x :: rest => body x;; for_each rest body
  end.

(** Assignments to the attributes of [self]. *)
Definition set_client_id (v : json) (c : Client) : Client :=
  {| _cookies := _cookies c; _request_header := _request_header c;
     _client_id := v; _email := _email c;
     _last_active_secs := _last_active_secs c;
     _active_client_state := _active_client_state c |}.
Definition set_email (v : option string) (c : Client) : Client :=
  {| _cookies := _cookies c; _request_header := _request_header c;
     _client_id := _client_id c; _email := v;
     _last_active_secs := _last_active_secs c;
     _active_client_state := _active_client_state c |}.
Definition set_last_active_secs (v : Q) (c : Client) : Client :=
  {| _cookies := _cookies c; _request_header := _request_header c;
     _client_id := _client_id c; _email := _email c;
     _last_active_secs := v;
     _active_client_state := _active_client_state c |}.
Definition set_active_client_state (v : option Z) (c : Client) : Client :=
  {| _cookies := _cookies c; _request_header := _request_header c;
     _client_id := _client_id c; _email := _email c;
     _last_active_secs := _last_active_secs c;
     _active_client_state := v |}.
Definition set_request_header (h : RequestHeader) (c : Client) : Client :=
  {| _cookies := _cookies c; _request_header := h;
     _client_id := _client_id c; _email := _email c;
     _last_active_secs := _last_active_secs c;
     _active_client_state := _active_client_state c |}.
Definition set_resource (s : string) (h : RequestHeader) : RequestHeader :=
  {| client_version := client_version h; language_code := language_code h;
     client_identifier := {| resource := Some s |} |}.

Definition assign (f : Client -> Client) : M unit :=
  c ← get_client; put_client (f c).

(** [x > y] on clock readings. *)
Definition Qgtb (x y : Q) : bool := negb (Qle_bool x y).

(** Timeout to send for setactiveclient requests. *)
Definition ACTIVE_TIMEOUT_SECS : Z := 120.
(** Minimum timeout between subsequent setactiveclient requests. *)
Definition SETACTIVECLIENT_LIMIT_SECS : Q := 60.

Definition required_cookies : list string :=
  ["SAPISID"; "HSID"; "SSID"; "APISID"; "SID"].

(** ** The methods of [Client] *)

Section Client.
Context `{!Constants} `{!Pblite} (env : Externals).

(** [Client.__init__]. *)
Definition __init__ (cookies : gmap string string) : Client :=
  {| _cookies := cookies;
     _request_header :=
       {| client_version := {| major_version := "hangups-" +:+ __version__ |};
          language_code := "en";
          client_identifier := {| resource := None |} |};
     _client_id := JNull;
     _email := None;
     _last_active_secs := 0;
     _active_client_state := None |}.

Definition time_now : M Q :=
  tr ← get_trace;
  let t := time_time env tr in
  emit (EvTime t);;
  mret t.

(** [random.randint(a, b)]: an integer N with a <= N <= b. *)
Definition randint (a b : Z) : M Z :=
  tr ← get_trace;
  let v := a + random_source env tr `mod` (b - a + 1) in
  emit (EvRandint a b v);;
  mret v.

(** [json.loads(v)]: [v] has to be a string. *)
Definition loads (v : json) : M json :=
  match v with
  | JStr s => lift (json_loads env s)
  | _ => raise TypeError
  end.

(** [str(v)], as [str.format] renders an argument. *)
Definition str (v : json) : string :=
  match v with
  | JNull => "None"
  | JStr s => s
  | _ => py_str env v
  end.

(** [KeyError("Cookie '{}' is required".format(name))]. *)
Definition cookie_error (name : string) : exn :=
  KeyError ("Cookie '" +:+ name +:+ "' is required").

(** [Client._get_cookie]. *)
Definition _get_cookie (name : string) : M string :=
  c ← get_client;
  match _cookies c !! name with
  | Some v => mret v
  | None => raise (cookie_error name)
  end.

(** [{cookie: self._get_cookie(cookie) for cookie in names}]. *)
Fixpoint get_cookies (names : list string) (acc : gmap string string)
    : M (gmap string string) :=
  match names with
  | [] => mret acc
  | cookie :: rest =>
      v ← _get_cookie cookie;
      get_cookies rest (<[cookie := v]> acc)
  end.

(** [Client._base_request]. *)
Definition _base_request (url content_type response_type data : string)
    : M FetchResponse :=
  sapisid_cookie ← _get_cookie "SAPISID";
  tr ← get_trace;
  let headers := get_authorization_headers env tr sapisid_cookie in
  let headers := <["content-type" := content_type]> headers in
  cookies ← get_cookies required_cookies ∅;
  let params : gmap string string := {["alt" := response_type]} in
  res ← await (CFetch {| fetch_method := "post"; fetch_url := url;
                         fetch_headers := headers; fetch_cookies := cookies;
                         fetch_params := params; fetch_data := data |})
              (λ tr cl, (http_fetch env tr
                           {| fetch_method := "post"; fetch_url := url;
                              fetch_headers := headers;
                              fetch_cookies := cookies;
                              fetch_params := params;
                              fetch_data := data |}, cl));
  mret res.

(** [Client._pb_request].  The method fills [response_pb] in place; here
    the filled message is the result. *)
Definition _pb_request {Req Resp : Type}
    `{!PbMessage Req} `{!PbMessage Resp} `{!PbResponse Resp}
    (endpoint : string) (request_pb : Req) (response_pb : Resp) : M Resp :=
  log Debug "Sending Protocol Buffer request %s:\n%s"
      [ArgStr endpoint; ArgPb (pblite_encode request_pb)];;
  res ← _base_request
          ("https://clients6.google.com/chat/v1/" +:+ endpoint)
          "application/json+protobuf"
          "protojson"
          (json_dumps env (pblite_encode request_pb));
  text ← lift (bytes_decode env (body res));
  pblite ← lift (javascript_loads env text);
  response_pb ← lift (pblite_decode response_pb pblite true);
  log Debug "Received Protocol Buffer response:\n%s"
      [ArgPb (pblite_encode response_pb)];;
  let status := status (response_header response_pb) in
  if bool_decide (status ≠ RESPONSE_STATUS_OK) then
    let description := error_description (response_header response_pb) in
    raise (NetworkError ("Request failed with status " +:+ pretty status
                         +:+ ": '" +:+ description +:+ "'"))
  else mret response_pb.

(** [Client._get_request_header_pb].  [resource] is a string field: the
    assignment of anything that is not a string raises [TypeError]. *)
Definition _get_request_header_pb : M RequestHeader :=
  c ← get_client;
  match _client_id c with
  | JNull => mret (_request_header c)
  | JStr s =>
      assign (set_request_header (set_resource s (_request_header c)));;
      c ← get_client;
      mret (_request_header c)
  | _ => raise TypeError
  end.

(** [Client.get_client_generated_id]. *)
Definition get_client_generated_id : M Z := randint 0 (2 ^ 32).

(** [Client.getselfinfo]. *)
Definition getselfinfo : M GetSelfInfoResponse :=
  request_header ← _get_request_header_pb;
  let request := {| gsi_request_header := request_header |} in
  let response : GetSelfInfoResponse := pb_new in
  _pb_request "contacts/getselfinfo" request response.

(** [Client.setactiveclient]. *)
Definition setactiveclient (is_active : bool) (timeout_secs : Z)
    : M SetActiveClientResponse :=
  request_header ← _get_request_header_pb;
  c ← get_client;
  let request :=
    {| sac_request_header := request_header;
       is_active := is_active;
       full_jid := match _email c with Some e => e | None => "None" end
                   +:+ "/" +:+ str (_client_id c);
       timeout_secs := timeout_secs |} in
  let response : SetActiveClientResponse := pb_new in
  _pb_request "clients/setactiveclient" request response.

(** Lines 154 to 168 of [Client.set_active]: what follows the retrieval of
    the email address. *)
Definition set_active_client_part : M unit :=
  c ← get_client;
  if is_none (_client_id c) then
    log Info "Cannot set active client until client_id is received" []
  else
    try_except_NetworkError
      (setactiveclient true ACTIVE_TIMEOUT_SECS)
      (λ e, log Warning "Failed to set active client: {}" [ArgExn e])
      (λ _, log Info "Set active client for {} seconds"
                [ArgInt ACTIVE_TIMEOUT_SECS]).

(** Lines 141 to 168 of [Client.set_active]: the requests.  The two
    [return] statements end the method: the rest of the body is the
    continuation of the branch that goes on. *)
Definition set_active_requests : M unit :=
  c ← get_client;
  match _email c with
  | None =>
      try_except_NetworkError
        getselfinfo
        (λ e, log Warning "Failed to find email address: {}" [ArgExn e])
        (λ get_self_info_response,
           match email (properties (self_entity get_self_info_response)) with
           | [] => raise IndexError
           | e0 :: _ =>
               assign (set_email (Some e0));;
               set_active_client_part
           end)
  | Some _ => set_active_client_part
  end.

(** [Client.set_active]. *)
Definition set_active : M unit :=
  c ← get_client;
  let is_active :=
    bool_decide (_active_client_state c = Some ACTIVE_CLIENT_STATE_IS_ACTIVE) in
  now ← time_now;
  let timed_out :=
    Qgtb (now - _last_active_secs c) SETACTIVECLIENT_LIMIT_SECS in
  if negb is_active || timed_out then
    assign (set_active_client_state (Some ACTIVE_CLIENT_STATE_IS_ACTIVE));;
    now ← time_now;
    assign (set_last_active_secs now);;
    set_active_requests
  else mret tt.

(** Modelled from the spec: [event.Event.fire], which is not part of the
    module.  Publishing calls the subscribers one after the other and waits
    for each to finish before the next is called. *)
Fixpoint fire_from (i : nat)
    (obs : list (list Event -> StateUpdate -> Client -> outcome unit * Client))
    (su : StateUpdate) : M unit :=
  match obs with
  | [] => mret tt
  | observer :: rest =>
      await (CObserver i su) (λ tr cl, observer tr su cl);;
      fire_from (S i) rest su
  end.

Definition fire (su : StateUpdate) : M unit := fire_from 0 (observers env) su.

(** [Client._add_channel_services]. *)
Definition _add_channel_services : M unit :=
  log Info "Adding channel services..." [];;
  let map_list : list (gmap string string) :=
    [ {[ "p" := json_dumps env
                  (JObj {[ "3" := JObj {[ "1" :=
                                    JObj {[ "1" := JStr "babel" ]} ]} ]}) ]} ] in
  await (CSendMaps map_list) (λ tr cl, (send_maps env tr map_list, cl));;
  log Info "Channel services added" [].

(** The body of the loop over [batch_update.state_update]. *)
Definition on_state_update_record (state_update : StateUpdate) : M unit :=
  log Debug "Received StateUpdate:\n%s" [ArgStateUpdate state_update];;
  let header := state_update_header state_update in
  assign (set_active_client_state (Some (active_client_state header)));;
  fire state_update.

(** Lines 191 to 197 of [Client._on_receive_array]: the new client_id. *)
Definition new_client_id_part (wrapper : json) : M unit :=
  has3 ← lift (contains_str "3" wrapper);
  if has3 : bool then
    w3 ← lift (getitem_str wrapper "3");
    client_id ← lift (getitem_str w3 "2");
    assign (set_client_id client_id);;
    log Info "Received new client_id: %r" [ArgJson client_id];;
    _add_channel_services
  else mret tt.

(** Lines 198 to 212 of [Client._on_receive_array]: the state updates. *)
Definition state_update_part (wrapper : json) : M unit :=
  has2 ← lift (contains_str "2" wrapper);
  if has2 : bool then
    w2 ← lift (getitem_str wrapper "2");
    payload ← lift (getitem_str w2 "2");
    pblite_message ← loads payload;
    m0 ← lift (getitem_0 pblite_message);
    if is_str "cbu" m0 then
      batch_update ← lift (pblite_decode (pb_new : BatchUpdate)
                                         pblite_message true);
      for_each (state_update batch_update) on_state_update_record
    else
      m0 ← lift (getitem_0 pblite_message);
      log Info "Ignoring message: %r" [ArgJson m0]
  else mret tt.

(** [Client._on_receive_array]. *)
Definition _on_receive_array (array : json) : M unit :=
  a0 ← lift (getitem_0 array);
  if is_str "noop" a0 then
    mret tt
  else
    a0 ← lift (getitem_0 array);
    p ← lift (getitem_str a0 "p");
    wrapper ← loads p;
    new_client_id_part wrapper;;
    state_update_part wrapper.

(** Modelled from the spec: the receive loop of the push channel
    ([Channel.listen], not part of the module) hands the frames to the
    dispatcher one at a time, in the order of delivery, and waits for the
    dispatcher before it hands over the next. *)
Definition receive_frames (frames : list json) : M unit :=
  for_each frames _on_receive_array.

End Client.

(** ** Counting in traces *)

Definition is_fetch (ev : Event) : bool :=
  match ev with
  | EvCall (CFetch _) _ => true
  | _ => false
  end.

Definition is_fetch_of (url : string) (ev : Event) : bool :=
  match ev with
  | EvCall (CFetch req) _ => bool_decide (fetch_url req = url)
  | _ => false
  end.

Definition is_time (ev : Event) : bool :=
  match ev with
  | EvTime _ => true
  | _ => false
  end.

Definition is_send_maps (ev : Event) : bool :=
  match ev with
  | EvCall (CSendMaps _) _ => true
  | _ => false
  end.

(** The entry [_pb_request] writes when it is called for [endpoint]. *)
Definition is_rpc_of (endpoint : string) (ev : Event) : bool :=
  match ev with
  | EvLog Debug fmt (ArgStr e :: _) =>
      bool_decide (fmt = "Sending Protocol Buffer request %s:\n%s")
      && bool_decide (e = endpoint)
  | _ => false
  end.

Definition count (p : Event -> bool) (tr : list Event) : nat :=
  length (filter (λ ev, p ev = true) tr).

Definition chat_url (endpoint : string) : string :=
  "https://clients6.google.com/chat/v1/" +:+ endpoint.

(** What [_pb_request] makes of a fetched response before it looks at the
    status: the body decoded, parsed and read into [response_pb]. *)
Definition decode_response {Resp : Type} `{!PbMessage Resp}
    (env : Externals) (response_pb : Resp) (res : FetchResponse)
    : outcome Resp :=
  match bytes_decode env (body res) with
  | Ok text =>
      match javascript_loads env text with
      | Ok pblite => pblite_decode response_pb pblite true
      | Raise e => Raise e
      end
  | Raise e => Raise e
  end.

(** The exception [_pb_request] raises for a response whose status is not
    [RESPONSE_STATUS_OK]. *)
Definition status_error (h : ResponseHeader) : exn :=
  NetworkError ("Request failed with status " +:+ pretty (status h)
                +:+ ": '" +:+ error_description h +:+ "'").

(** The two entries [_pb_request] logs. *)
Definition sending (endpoint : string) (request : json) : Event :=
  EvLog Debug "Sending Protocol Buffer request %s:\n%s"
        [ArgStr endpoint; ArgPb request].
Definition received (response : json) : Event :=
  EvLog Debug "Received Protocol Buffer response:\n%s" [ArgPb response].

(** ** Frames and deliveries *)

(** [array] is a push frame: its first element is a dictionary whose ['p']
    is a text that [json.loads] reads as the dictionary [wrapper]. *)
Definition push_frame (env : Externals) (array : json)
    (wrapper : gmap string json) : Prop :=
  exists (a0 : gmap string json) (rest : list json) (text : string),
    array = JArr (JObj a0 :: rest)
    /\ a0 !! "p" = Some (JStr text)
    /\ json_loads env text = Ok (JObj wrapper).

(** The wrapper has an event payload, tag '2' and in it tag '2', a text
    that [json.loads] reads as [message]. *)
Definition event_payload (env : Externals) (wrapper : gmap string json)
    (message : json) : Prop :=
  exists (w2 : gmap string json) (payload : string),
    wrapper !! "2" = Some (JObj w2)
    /\ w2 !! "2" = Some (JStr payload)
    /\ json_loads env payload = Ok message.

(** The map list [_add_channel_services] sends. *)
Definition bootstrap_maps (env : Externals) : list (gmap string string) :=
  [ {[ "p" := json_dumps env
                (JObj {[ "3" := JObj {[ "1" :=
                                  JObj {[ "1" := JStr "babel" ]} ]} ]}) ]} ].

(** The entries the dispatcher writes for a new client_id up to the call of
    [send_maps], the client being [stored] at that moment. *)
Definition bootstrap_events (env : Externals) (client_id : json)
    (stored : Client) : list Event :=
  [ EvLog Info "Received new client_id: %r" [ArgJson client_id];
    EvLog Info "Adding channel services..." [];
    EvCall (CSendMaps (bootstrap_maps env)) stored ].

(** The active-client state a record reports in its header. *)
Definition reported (su : StateUpdate) : Z :=
  active_client_state (state_update_header su).

(** What the subscribers see of a trace: the [i]-th observer is called with
    a record, the client's active state being [state_seen] at that moment,
    and the [i]-th observer is done with a record. *)
Inductive delivery :=
| Called (i : nat) (su : StateUpdate) (state_seen : option Z)
| Finished (i : nat) (su : StateUpdate).

Definition delivery_of (ev : Event) : option delivery :=
  match ev with
  | EvCall (CObserver i su) seen => Some (Called i su (_active_client_state seen))
  | EvDone (CObserver i su) => Some (Finished i su)
  | _ => None
  end.

Definition deliveries (tr : list Event) : list delivery := omap delivery_of tr.

(** The deliveries of one record to the observers [first], [first + 1], ...,
    [n] of them: each is called, with the state the record reports already
    stored, and is done before the next is called. *)
Definition deliveries_of_record (first n : nat) (su : StateUpdate)
    : list delivery :=
  flat_map (λ i, [ Called i su (Some (reported su)); Finished i su ])
           (seq first n).

(** The deliveries of a batch: record after record. *)
Definition deliveries_of_batch (n : nat) (batch : list StateUpdate)
    : list delivery :=
  flat_map (deliveries_of_record 0 n) batch.

(** The observers return, and do not write the client's active state. *)
Definition observers_return (env : Externals) : Prop :=
  Forall (λ observer,
            forall tr su cl, exists cl',
              observer tr su cl = (Ok tt, cl')
              /\ _active_client_state cl' = _active_client_state cl)
         (observers env).

(** The kinds of events. *)
Inductive kind := KLog | KTime | KRandom | KFetch | KSendMaps | KObserver.

#[export] Instance kind_eq_dec : EqDecision kind.
Proof. solve_decision. Defined.

Definition kind_of (ev : Event) : kind :=
  match ev with
  | EvLog _ _ _ => KLog
  | EvTime _ => KTime
  | EvRandint _ _ _ => KRandom
  | EvCall (CFetch _) _ | EvDone (CFetch _) => KFetch
  | EvCall (CSendMaps _) _ | EvDone (CSendMaps _) => KSendMaps
  | EvCall (CObserver _ _) _ | EvDone (CObserver _ _) => KObserver
  end.

Definition of_kinds (ks : list kind) (ev : Event) : Prop := kind_of ev ∈ ks.

(** A computation only appends to the trace, and only events that
    satisfy [P]. *)
Definition emits {A} (P : Event -> Prop) (m : M A) : Prop :=
  forall w, exists evs, trace (snd (m w)) = trace w ++ evs /\ Forall P evs.

(** [n] invocations of a method, one after the other, whatever each of
    them returns or raises. *)
Fixpoint calls {A} (n : nat) (m : M A) (w : World) : World :=
  match n with
  | O => w
  | S k => calls k m (snd (m w))
  end.

(** What follows the first log entry of [_pb_request] in the trace: log
    entries that do not start with a string argument, and the call of the
    fetch primitive for [endpoint], made with the client [c], and its
    return. *)
Definition rpc_tail_event (endpoint : string) (c : Client) (ev : Event)
    : Prop :=
  match ev with
  | EvLog _ _ (ArgStr _ :: _) => False
  | EvLog _ _ _ => True
  | EvCall (CFetch req) seen => fetch_url req = chat_url endpoint /\ seen = c
  | EvDone (CFetch _) => True
  | _ => False
  end.

(** The fields of the client that the requests of [set_active] leave as
    they are: everything but the header template and the email address. *)
Definition same_session (c c' : Client) : Prop :=
  _cookies c' = _cookies c
  /\ _client_id c' = _client_id c
  /\ _last_active_secs c' = _last_active_secs c
  /\ _active_client_state c' = _active_client_state c.

(** The events of one call of [_pb_request] for [endpoint], and of what
    the caller logs about its outcome: the first log entry, then a tail
    with at most one call of the fetch primitive, made with a client that has
    the session of [c]. *)
Definition rpc_run (endpoint : string) (c : Client) (evs : list Event)
    : Prop :=
  exists request c' tail,
    evs = sending endpoint request :: tail
    /\ same_session c c'
    /\ (count is_fetch tail <= 1)%nat
    /\ (Forall (λ n, is_Some (_cookies c !! n)) required_cookies ->
        count is_fetch tail = 1%nat)
    /\ Forall (rpc_tail_event endpoint c') tail.

(** The outside calls of [ev], if any, are made with a client that has the
    session of [c]. *)
Definition session_seen (c : Client) (ev : Event) : Prop :=
  match ev with
  | EvCall _ seen => same_session c seen
  | _ => True
  end.

(** The outside calls of [ev], if any, are made with a client whose state
    is [state] and whose last activity is at [t]. *)
Definition optimistic_seen (state : Z) (t : Q) (ev : Event) : Prop :=
  match ev with
  | EvCall _ seen =>
      _active_client_state seen = Some state /\ _last_active_secs seen = t
  | _ => True
  end.

(** What lines 154 to 168 of [set_active] add to the trace when run with
    the client [c]: nothing when the header cannot be built, a log entry
    while there is no client_id, one request when there is one. *)
Definition assertion_shape (c : Client) (evs : list Event) : Prop :=
  evs = []
  \/ match _client_id c with
     | JNull =>
         evs = [EvLog Info
                  "Cannot set active client until client_id is received" []]
     | JStr _ => rpc_run "clients/setactiveclient" c evs
     | _ => False
     end.

(** The condition of line 133 of [set_active], at the clock reading that
    the method takes first. *)
Definition needs_call `{!Constants} (env : Externals) (w : World) : bool :=
  negb (bool_decide (_active_client_state (client w)
                     = Some ACTIVE_CLIENT_STATE_IS_ACTIVE))
  || Qgtb (time_time env (trace w) - _last_active_secs (client w))
          SETACTIVECLIENT_LIMIT_SECS.

(** The world after lines 136 to 139 of [set_active]: the clock has been read
    twice, the state is active and the second reading is the time of the
    last activity. *)
Definition optimistic `{!Constants} (env : Externals) (w : World) : World :=
  let t1 := time_time env (trace w) in
  let t2 := time_time env (trace w ++ [EvTime t1]) in
  {| client := set_last_active_secs t2
                 (set_active_client_state (Some ACTIVE_CLIENT_STATE_IS_ACTIVE)
                    (client w));
     trace := (trace w ++ [EvTime t1]) ++ [EvTime t2] |}.

(** ** Histories of the request header *)

(** What happens to the header template over the life of a client: the
    dispatcher stores a new client_id (line 193, with the string it
    received), or a request is built and asks for the header. *)
Inductive header_step :=
| NewClientId (s : string)
| BuildHeader.

(** A client_id as [_client_id] holds it. *)
Definition json_of_id (known : option string) : json :=
  match known with
  | Some s => JStr s
  | None => JNull
  end.

(** The headers handed out along a history, in order. *)
Fixpoint header_history (steps : list header_step) : M (list RequestHeader) :=
  match steps with
  | [] => mret []
  | NewClientId s :: rest =>
      assign (set_client_id (JStr s));;
      header_history rest
  | BuildHeader :: rest =>
      h ← _get_request_header_pb;
      hs ← header_history rest;
      mret (h :: hs)
  end.

(** The client_id current at each [BuildHeader] of a history, [known] being
    the one current at its start. *)
Fixpoint current_ids (known : option string) (steps : list header_step)
    : list (option string) :=
  match steps with
  | [] => []
  | NewClientId s :: rest => current_ids (Some s) rest
  | BuildHeader :: rest => known :: current_ids known rest
  end.

(** ** A stand-in for the outside, to run the methods on examples *)

Module Double.

#[export] Instance constants : Constants :=
  {| ACTIVE_CLIENT_STATE_IS_ACTIVE := 1;
     RESPONSE_STATUS_OK := 1;
     __version__ := "0" |}.

(** The double quote character, and a JSON string literal. *)
Definition dq : string := String "034"%char EmptyString.
Definition quoted (s : string) : string := dq +:+ s +:+ dq.

Definition header_of (v : json) : ResponseHeader :=
  match v with
  | JArr (JInt st :: JStr d :: _) => {| status := st; error_description := d |}
  | JArr (JInt st :: _) => {| status := st; error_description := "" |}
  | _ => {| status := 0; error_description := "" |}
  end.

Definition strings_of (v : json) : list string :=
  match v with
  | JArr xs =>
      flat_map (λ x, match x with JStr s => [s] | _ => [] end) xs
  | _ => []
  end.

Definition state_update_of (v : json) : list StateUpdate :=
  match v with
  | JArr (JArr (JInt st :: _) :: _) =>
      [ {| state_update_header := {| active_client_state := st |};
           state_update_body := v |} ]
  | _ => []
  end.

Definition encode_header (h : RequestHeader) : json :=
  JArr [ JStr (major_version (client_version h)); JStr (language_code h);
         match resource (client_identifier h) with
         | Some r => JStr r
         | None => JNull
         end ].

(** A positional codec in the manner of pblite: field [n] of a message is
    element [n] of the array, the first element being skipped. *)
#[export] Instance pblite : Pblite := {|
  pb_GetSelfInfoRequest :=
    {| pb_new := {| gsi_request_header :=
                      {| client_version := {| major_version := "" |};
                         language_code := "";
                         client_identifier := {| resource := None |} |} |};
       pblite_encode := λ r, JArr [encode_header (gsi_request_header r)];
       pblite_decode := λ r _ _, Ok r |};
  pb_GetSelfInfoResponse :=
    {| pb_new := {| gsi_response_header :=
                      {| status := 0; error_description := "" |};
                    self_entity := {| properties := {| email := [] |} |} |};
       pblite_encode := λ r,
         JArr [ JInt (status (gsi_response_header r));
                JArr (map JStr (email (properties (self_entity r)))) ];
       pblite_decode := λ r v _,
         match v with
         | JArr (_ :: h :: es :: _) =>
             Ok {| gsi_response_header := header_of h;
                   self_entity :=
                     {| properties := {| email := strings_of es |} |} |}
         | JArr (_ :: h :: _) =>
             Ok {| gsi_response_header := header_of h;
                   self_entity := self_entity r |}
         | _ => Ok r
         end |};
  pb_SetActiveClientRequest :=
    {| pb_new := {| sac_request_header :=
                      {| client_version := {| major_version := "" |};
                         language_code := "";
                         client_identifier := {| resource := None |} |};
                    is_active := false; full_jid := ""; timeout_secs := 0 |};
       pblite_encode := λ r,
         JArr [ encode_header (sac_request_header r); JBool (is_active r);
                JStr (full_jid r); JInt (timeout_secs r) ];
       pblite_decode := λ r _ _, Ok r |};
  pb_SetActiveClientResponse :=
    {| pb_new := {| sac_response_header :=
                      {| status := 0; error_description := "" |} |};
       pblite_encode := λ r, JArr [ JInt (status (sac_response_header r)) ];
       pblite_decode := λ r v _,
         match v with
         | JArr (_ :: h :: _) => Ok {| sac_response_header := header_of h |}
         | _ => Ok r
         end |};
  pb_BatchUpdate :=
    {| pb_new := {| state_update := [] |};
       pblite_encode := λ b,
         JArr [ JArr (map state_update_body (state_update b)) ];
       pblite_decode := λ b v _,
         match v with
         | JArr (_ :: JArr sus :: _) =>
             Ok {| state_update :=
                     state_update b ++ flat_map state_update_of sus |}
         | _ => Ok b
         end |};
|}.

(** The wire texts of the examples with what [json.loads] returns for
    them; any other text is refused. *)
Definition wrapper_new_id : string :=
  "{" +:+ quoted "3" +:+ ":{" +:+ quoted "2" +:+ ":" +:+ quoted "sess-42"
  +:+ "}}".
Definition wrapper_events (payload : string) : string :=
  "{" +:+ quoted "2" +:+ ":{" +:+ quoted "2" +:+ ":" +:+ quoted payload
  +:+ "}}".
Definition wrapper_both (payload : string) : string :=
  "{" +:+ quoted "3" +:+ ":{" +:+ quoted "2" +:+ ":" +:+ quoted "sess-42"
  +:+ "}," +:+ quoted "2" +:+ ":{" +:+ quoted "2" +:+ ":" +:+ quoted payload
  +:+ "}}".

(** The payload texts, as they read once the wrapper is decoded. *)
Definition payload_cbu : string :=
  "[" +:+ quoted "cbu" +:+ ",[[[1]],[[2]]]]".
Definition payload_other : string := "[" +:+ quoted "xyz" +:+ "]".
Definition payload_empty : string := "[]".

Definition texts : list (string * json) :=
  [ (wrapper_new_id,
     JObj {[ "3" := JObj {[ "2" := JStr "sess-42" ]} ]});
    (wrapper_events payload_cbu,
     JObj {[ "2" := JObj {[ "2" := JStr payload_cbu ]} ]});
    (wrapper_events payload_other,
     JObj {[ "2" := JObj {[ "2" := JStr payload_other ]} ]});
    (wrapper_events payload_empty,
     JObj {[ "2" := JObj {[ "2" := JStr payload_empty ]} ]});
    (wrapper_both payload_cbu,
     JObj (<[ "3" := JObj {[ "2" := JStr "sess-42" ]} ]>
             {[ "2" := JObj {[ "2" := JStr payload_cbu ]} ]}));
    (payload_cbu,
     JArr [ JStr "cbu";
            JArr [ JArr [JArr [JInt 1]]; JArr [JArr [JInt 2]] ] ]);
    (payload_other, JArr [JStr "xyz"]);
    (payload_empty, JArr []);
    ("[[],[1],[]]", JArr [JArr []; JArr [JInt 1]; JArr []]);
    ("[[],[1]]", JArr [JArr []; JArr [JInt 1]]);
    ("[[],[1],[" +:+ quoted "user@example.com" +:+ "]]",
     JArr [JArr []; JArr [JInt 1]; JArr [JStr "user@example.com"]]);
    ("[[],[3," +:+ quoted "denied" +:+ "]]",
     JArr [JArr []; JArr [JInt 3; JStr "denied"]])
  ].

Fixpoint lookup_text (s : string) (table : list (string * json))
    : outcome json :=
  match table with
  | [] => Raise ValueError
  | (t, v) :: rest => if bool_decide (t = s) then Ok v else lookup_text s rest
  end.

(** The outside: the clock reads [clock n] at its [n]-th reading, the server
    answers a request to [url] with the body [server url] or fails as it
    says, the channel accepts every map, and [obs] are the subscribers. *)
Definition externals (clock : nat -> Q) (server : string -> outcome string)
    (obs : list (list Event -> StateUpdate -> Client -> outcome unit * Client))
    (entropy : Z) : Externals :=
  {| time_time := λ tr, clock (count is_time tr);
     random_source := λ _, entropy;
     py_str := λ _, "?";
     json_loads := λ s, lookup_text s texts;
     json_dumps := λ _, "{}";
     bytes_decode := λ b, Ok (string_of_list_byte b);
     javascript_loads := λ s, lookup_text s texts;
     get_authorization_headers := λ _ sapisid, {[ "authorization" := sapisid ]};
     http_fetch := λ _ req,
       match server (fetch_url req) with
       | Ok text =>
           Ok {| code := 200; cookies := ∅; body := list_byte_of_string text |}
       | Raise e => Raise e
       end;
     send_maps := λ _ _, Ok tt;
     observers := obs |}.

(** A server that is not reached. *)
Definition offline : string -> outcome string :=
  λ _, Raise (NetworkError "offline").

(** The bodies of the examples. *)
Definition body_denied : string := "[[],[3," +:+ quoted "denied" +:+ "]]".
Definition body_self : string :=
  "[[],[1],[" +:+ quoted "user@example.com" +:+ "]]".

(** A subscriber that returns and leaves the client as it is. *)
Definition quiet : list Event -> StateUpdate -> Client -> outcome unit * Client :=
  λ _ _ cl, (Ok tt, cl).

Definition all_cookies : gmap string string :=
  list_to_map [ ("SAPISID", "a"); ("HSID", "b"); ("SSID", "c");
                ("APISID", "d"); ("SID", "e") ].

Definition start (c : Client) : World := {| client := c; trace := [] |}.

(** A frame with the wire text [text], a fresh client, and the values of
    the example texts. *)
Definition frame (text : string) : json := JArr [JObj {[ "p" := JStr text ]}].
Definition fresh : World := start (__init__ all_cookies).

(** A server that answers every request with [body_self], which both
    response classes read as a response with status OK. *)
Definition server_ok : string -> outcome string := λ _, Ok body_self.

(** Clients: with a client_id; with a client_id and the email address; with
    a client_id and the state active as a state update reports it. *)
Definition with_id : World :=
  start (set_client_id (JStr "sess-42") (__init__ all_cookies)).
Definition with_id_and_email : World :=
  start (set_email (Some "user@example.com")
           (set_client_id (JStr "sess-42") (__init__ all_cookies))).
Definition active_with_id : World :=
  start (set_active_client_state (Some 1)
           (set_client_id (JStr "sess-42") (__init__ all_cookies))).

Definition wrapper_both_value : gmap string json :=
  <[ "3" := JObj {[ "2" := JStr "sess-42" ]} ]>
    {[ "2" := JObj {[ "2" := JStr payload_cbu ]} ]}.
Definition message_cbu : json :=
  JArr [ JStr "cbu"; JArr [ JArr [JArr [JInt 1]]; JArr [JArr [JInt 2]] ] ].
Definition record (st : Z) : StateUpdate :=
  {| state_update_header := {| active_client_state := st |};
     state_update_body := JArr [JArr [JInt st]] |}.

End Double.

(** ** Keep-alive frames, and what a method leaves of the client *)

(** The frame is a keep-alive: its first element is the string 'noop'. *)
Definition is_keepalive (array : json) : bool :=
  match getitem_0 array with
  | Ok a0 => is_str "noop" a0
  | Raise _ => false
  end.

(** The frames that are not keep-alives, in their order. *)
Definition payload_frames (frames : list json) : list json :=
  filter (λ array, is_keepalive array = false) frames.

(** A computation keeps the property [I] of the client, however it ends. *)
Definition keeps {A} (I : Client -> Prop) (m : M A) : Prop :=
  forall w, I (client w) -> I (client (snd (m w))).

(** The fields the dispatcher does not assign: all but the client_id and
    the active state. *)
Definition same_account (c c' : Client) : Prop :=
  _cookies c' = _cookies c
  /\ _request_header c' = _request_header c
  /\ _email c' = _email c
  /\ _last_active_secs c' = _last_active_secs c.

(** The fields no method assigns after [__init__] but the dispatcher: the
    cookies, the client_id, and the version and the language of the header
    template. *)
Definition same_identity (c c' : Client) : Prop :=
  _cookies c' = _cookies c
  /\ _client_id c' = _client_id c
  /\ client_version (_request_header c') = client_version (_request_header c)
  /\ language_code (_request_header c') = language_code (_request_header c).

(** The client after [_get_request_header_pb]: with a client_id that is a
    string, the header template carries it as its resource. *)
Definition built (c : Client) : Client :=
  match _client_id c with
  | JStr s => set_request_header (set_resource s (_request_header c)) c
  | _ => c
  end.

(** The client_id is unset or a string: the header can be built. *)
Definition header_ok (c : Client) : bool :=
  match _client_id c with
  | JNull | JStr _ => true
  | _ => false
  end.

(** A subscriber that returns for the record [su], and one that raises [e]
    for it; neither writes the client's active state. *)
Definition returns_on (su : StateUpdate)
    (observer : list Event -> StateUpdate -> Client -> outcome unit * Client)
    : Prop :=
  forall tr cl, exists cl',
    observer tr su cl = (Ok tt, cl')
    /\ _active_client_state cl' = _active_client_state cl.

Definition raises_on (e : exn) (su : StateUpdate)
    (observer : list Event -> StateUpdate -> Client -> outcome unit * Client)
    : Prop :=
  forall tr cl, exists cl',
    observer tr su cl = (Raise e, cl')
    /\ _active_client_state cl' = _active_client_state cl.

(** ** More request methods *)

(** The messages of [sendchatmessage], [setpresence] and
    [createconversation], with the fields the methods set.  [segment_rest]
    stands for the fields of a segment besides its type and its text. *)
Record Segment := {
  segment_type : Z;
  text : string;
  segment_rest : json;
}.
Record MessageContent := { segment : list Segment }.
Record ConversationId := { conv_id : string }.
Record DeliveryMedium := { medium_type : Z }.
Record EventRequestHeader := {
  conversation_id : ConversationId;
  client_generated_id : Z;
  expected_otr : Z;
  delivery_medium : option DeliveryMedium;
  event_type : option Z;
}.
Record Photo := { photo_id : string }.
Record ExistingMedia := { photo : Photo }.
Record SendChatMessageRequest := {
  scm_request_header : RequestHeader;
  message_content : MessageContent;
  event_request_header : EventRequestHeader;
  existing_media : option ExistingMedia;
}.
Record SendChatMessageResponse := { scm_response_header : ResponseHeader }.

Record PresenceStateSetting := {
  pss_timeout_secs : Z;
  presence_type : Z;
}.
Record MoodContent := { mood_segment : list Segment }.
Record MoodMessage := { mood_content : MoodContent }.
Record MoodSetting := { mood_message : MoodMessage }.
Record SetPresenceRequest := {
  sp_request_header : RequestHeader;
  presence_state_setting : PresenceStateSetting;
  mood_setting : option MoodSetting;
}.
Record SetPresenceResponse := { sp_response_header : ResponseHeader }.

Record InviteeID := { gaia_id : string }.
Record CreateConversationRequest := {
  cc_request_header : RequestHeader;
  conversation_type : Z;
  cc_client_generated_id : Z;
  invitee_id : list InviteeID;
}.
Record CreateConversationResponse := { cc_response_header : ResponseHeader }.

#[export] Instance SendChatMessageResponse_response
    : PbResponse SendChatMessageResponse :=
  {| response_header := scm_response_header |}.
#[export] Instance SetPresenceResponse_response
    : PbResponse SetPresenceResponse :=
  {| response_header := sp_response_header |}.
#[export] Instance CreateConversationResponse_response
    : PbResponse CreateConversationResponse :=
  {| response_header := cc_response_header |}.

(** The enum values of [hangouts_pb2] these methods read; their values are
    not fixed here. *)
Class RequestConstants := {
  OFF_THE_RECORD_STATUS_ON_THE_RECORD : Z;
  DELIVERY_MEDIUM_BABEL : Z;
  EVENT_TYPE_REGULAR_CHAT_MESSAGE : Z;
  CLIENT_PRESENCE_STATE_DESKTOP_ACTIVE : Z;
  CLIENT_PRESENCE_STATE_DESKTOP_IDLE : Z;
  SEGMENT_TYPE_TEXT : Z;
  CONVERSATION_TYPE_GROUP : Z;
  CONVERSATION_TYPE_ONE_TO_ONE : Z;
}.

(** The message classes of [hangouts_pb2] these methods use. *)
Class RequestMessages := {
  pb_Segment :: PbMessage Segment;
  pb_SendChatMessageRequest :: PbMessage SendChatMessageRequest;
  pb_SendChatMessageResponse :: PbMessage SendChatMessageResponse;
  pb_SetPresenceRequest :: PbMessage SetPresenceRequest;
  pb_SetPresenceResponse :: PbMessage SetPresenceResponse;
  pb_CreateConversationRequest :: PbMessage CreateConversationRequest;
  pb_CreateConversationResponse :: PbMessage CreateConversationResponse;
}.

(** A file-like object: its [name], and the bytes [read()] returns. *)
Record ImageFile := {
  name : string;
  content : list Byte.byte;
}.

(** What [upload_image] uses of the outside besides [Externals]:
    [os.path.basename], and what [http_utils.fetch] does when it is handed a
    URL that is not a string. *)
Record FileExternals := {
  os_path_basename : string -> string;
  fetch_other_url : list Event -> json -> outcome FetchResponse;
}.

Definition IMAGE_UPLOAD_URL : string :=
  "http://docs.google.com/upload/photos/resumable".

Section RequestMethods.
Context `{!Constants} `{!RequestConstants} `{!RequestMessages}
        (env : Externals) (files : FileExternals).

(** Lines 360 to 364 of [Client.sendchatmessage]: every segment is decoded
    into a new [Segment], in the order of the list.  [pblite.decode] is
    called with two arguments: its third is left at [False]. *)
Fixpoint decode_segments (segments : list json) : M (list Segment) :=
  match segments with
  | [] => mret []
  | segment_pblite :: rest =>
      segment_pb ← lift (pblite_decode (pb_new : Segment) segment_pblite false);
      segments_pb ← decode_segments rest;
      mret (segment_pb :: segments_pb)
  end.

(** [Client.sendchatmessage].  [otr_status] is explicit: left out, it is
    [OFF_THE_RECORD_STATUS_ON_THE_RECORD].  The request is constructed
    without [existing_media]; with an image ID, lines 386 to 389 then
    assign a new [ExistingMedia] to that field of the request, and the
    assignment of a message to a message field is refused by the Protocol
    Buffer runtime with [AttributeError]. *)
Definition sendchatmessage (conversation_id : string) (segments : list json)
    (image_id : option string) (otr_status : Z)
    (delivery_medium : option DeliveryMedium) : M SendChatMessageResponse :=
  segments_pb ← decode_segments segments;
  let delivery_medium :=
    match delivery_medium with
    | None => {| medium_type := DELIVERY_MEDIUM_BABEL |}
    | Some medium => medium
    end in
  request_header ← _get_request_header_pb;
  client_generated_id ← get_client_generated_id env;
  let request :=
    {| scm_request_header := request_header;
       message_content := {| segment := segments_pb |};
       event_request_header :=
         {| conversation_id := {| conv_id := conversation_id |};
            client_generated_id := client_generated_id;
            expected_otr := otr_status;
            delivery_medium := Some delivery_medium;
            event_type := Some EVENT_TYPE_REGULAR_CHAT_MESSAGE |};
       existing_media := None |} in
  match image_id with
  | Some image_id =>
      let media := {| photo := {| photo_id := image_id |} |} in
      raise (OtherError "AttributeError")
  | None =>
      let response : SendChatMessageResponse := pb_new in
      _pb_request env "conversations/sendchatmessage" request response
  end.

(** [Client.setpresence].  [online] is taken by its truth value; [mood]
    left out is [None]. *)
Definition setpresence (online : bool) (mood : option string)
    : M SetPresenceResponse :=
  let type_ :=
    if online then CLIENT_PRESENCE_STATE_DESKTOP_ACTIVE
    else CLIENT_PRESENCE_STATE_DESKTOP_IDLE in
  request_header ← _get_request_header_pb;
  let request :=
    {| sp_request_header := request_header;
       presence_state_setting :=
         {| pss_timeout_secs := 720; presence_type := type_ |};
       mood_setting :=
         match mood with
         | Some mood =>
             Some {| mood_message := {| mood_content := {| mood_segment :=
               [ {| segment_type := SEGMENT_TYPE_TEXT;
                    text := mood;
                    segment_rest := segment_rest pb_new |} ] |} |} |}
         | None => None
         end |} in
  let response : SetPresenceResponse := pb_new in
  _pb_request env "presence/setpresence" request response.

(** [Client.createconversation].  [force_group] is taken by its truth
    value. *)
Definition createconversation (chat_id_list : list string) (force_group : bool)
    : M CreateConversationResponse :=
  let is_group := (1 <? length chat_id_list)%nat || force_group in
  request_header ← _get_request_header_pb;
  client_generated_id ← get_client_generated_id env;
  let request :=
    {| cc_request_header := request_header;
       conversation_type :=
         if is_group then CONVERSATION_TYPE_GROUP
         else CONVERSATION_TYPE_ONE_TO_ONE;
       cc_client_generated_id := client_generated_id;
       invitee_id := map (λ chat_id, {| gaia_id := chat_id |}) chat_id_list |} in
  let response : CreateConversationResponse := pb_new in
  _pb_request env "conversations/createconversation" request response.

(** [json.loads(res.body.decode())]. *)
Definition body_json (res : FetchResponse) : M json :=
  text ← lift (bytes_decode env (body res));
  lift (json_loads env text).

(** [_base_request] called with a URL out of a JSON document.  For a URL
    that is not a string the cookies are read as for any other, and what
    the fetch primitive does then is left to [fetch_other_url]. *)
Definition _base_request_to (url : json)
    (content_type response_type data : string) : M FetchResponse :=
  match url with
  | JStr url => _base_request env url content_type response_type data
  | _ =>
      _get_cookie "SAPISID";;
      get_cookies required_cookies ∅;;
      tr ← get_trace;
      lift (fetch_other_url files tr url)
  end.

(** The session request [upload_image] sends first. *)
Definition create_session_request (image_filename : string) (size : nat)
    : json :=
  JObj {[ "protocolVersion" := JStr "0.8";
          "createSessionRequest" :=
            JObj {[ "fields" :=
              JArr [ JObj {[ "external" :=
                JObj {[ "name" := JStr "file";
                        "filename" := JStr image_filename;
                        "put" := JObj ∅;
                        "size" := JInt (Z.of_nat size) ]} ]} ] ]} ]}.

(** [Client.upload_image].  [filename] left out is [None]; the bytes of the
    image are handed to the fetch primitive as they are. *)
Definition upload_image (image_file : ImageFile) (filename : option string)
    : M json :=
  let image_filename :=
    match filename with
    | Some (String a s) => String a s
    | _ => os_path_basename files (name image_file)
    end in
  let image_data := content image_file in
  res1 ← _base_request env IMAGE_UPLOAD_URL
           "application/x-www-form-urlencoded;charset=UTF-8" "json"
           (json_dumps env
              (create_session_request image_filename (length image_data)));
  v ← body_json res1;
  v ← lift (getitem_str v "sessionStatus");
  v ← lift (getitem_str v "externalFieldTransfers");
  v ← lift (getitem_0 v);
  v ← lift (getitem_str v "putInfo");
  upload_url ← lift (getitem_str v "url");
  res2 ← _base_request_to upload_url "application/octet-stream" "json"
           (string_of_list_byte image_data);
  v ← body_json res2;
  v ← lift (getitem_str v "sessionStatus");
  v ← lift (getitem_str v "additionalInfo");
  v ← lift (getitem_str v "uploader_service.GoogleRupioAdditionalInfo");
  v ← lift (getitem_str v "completionInfo");
  v ← lift (getitem_str v "customerSpecificInfo");
  lift (getitem_str v "photoid").

End RequestMethods.

(** The path of the upload URL in the answer to the session request, and
    the path of the image ID in the answer to the upload. *)
Definition upload_url_of (session : json) : outcome json :=
  match getitem_str session "sessionStatus" with
  | Ok v =>
      match getitem_str v "externalFieldTransfers" with
      | Ok v =>
          match getitem_0 v with
          | Ok v =>
              match getitem_str v "putInfo" with
              | Ok v => getitem_str v "url"
              | Raise e => Raise e
              end
          | Raise e => Raise e
          end
      | Raise e => Raise e
      end
  | Raise e => Raise e
  end.

Fixpoint getitem_path (v : json) (keys : list string) : outcome json :=
  match keys with
  | [] => Ok v
  | k :: rest =>
      match getitem_str v k with
      | Ok x => getitem_path x rest
      | Raise e => Raise e
      end
  end.

Definition photoid_path : list string :=
  [ "sessionStatus"; "additionalInfo";
    "uploader_service.GoogleRupioAdditionalInfo"; "completionInfo";
    "customerSpecificInfo"; "photoid" ].

(** The body of a response read as JSON. *)
Definition body_value (env : Externals) (res : FetchResponse) : outcome json :=
  match bytes_decode env (body res) with
  | Ok text => json_loads env text
  | Raise e => Raise e
  end.

(** ** A stand-in for the messages and the outside of these methods *)

Module DoubleRequests.
Import Double.

#[export] Instance request_constants : RequestConstants :=
  {| OFF_THE_RECORD_STATUS_ON_THE_RECORD := 2;
     DELIVERY_MEDIUM_BABEL := 1;
     EVENT_TYPE_REGULAR_CHAT_MESSAGE := 1;
     CLIENT_PRESENCE_STATE_DESKTOP_ACTIVE := 40;
     CLIENT_PRESENCE_STATE_DESKTOP_IDLE := 30;
     SEGMENT_TYPE_TEXT := 0;
     CONVERSATION_TYPE_GROUP := 2;
     CONVERSATION_TYPE_ONE_TO_ONE := 1 |}.

Definition blank_header : RequestHeader :=
  {| client_version := {| major_version := "" |};
     language_code := "";
     client_identifier := {| resource := None |} |}.

Definition blank_response : ResponseHeader :=
  {| status := 0; error_description := "" |}.

Definition encode_segment (s : Segment) : json :=
  JArr [ JInt (segment_type s); JStr (text s) ].

(** The same positional codec for the messages of these methods; a segment
    is read from an array and nothing else. *)
#[export] Instance request_messages : RequestMessages := {|
  pb_Segment :=
    {| pb_new := {| segment_type := 0; text := ""; segment_rest := JNull |};
       pblite_encode := encode_segment;
       pblite_decode := λ s v _,
         match v with
         | JArr (JInt t :: JStr x :: _) =>
             Ok {| segment_type := t; text := x;
                   segment_rest := segment_rest s |}
         | JArr _ => Ok s
         | _ => Raise TypeError
         end |};
  pb_SendChatMessageRequest :=
    {| pb_new :=
         {| scm_request_header := blank_header;
            message_content := {| segment := [] |};
            event_request_header :=
              {| conversation_id := {| conv_id := "" |};
                 client_generated_id := 0; expected_otr := 0;
                 delivery_medium := None; event_type := None |};
            existing_media := None |};
       pblite_encode := λ r,
         JArr [ encode_header (scm_request_header r);
                JArr (map encode_segment (segment (message_content r)));
                JStr (conv_id (conversation_id (event_request_header r)));
                JInt (client_generated_id (event_request_header r));
                match existing_media r with
                | Some m => JStr (photo_id (photo m))
                | None => JNull
                end ];
       pblite_decode := λ r _ _, Ok r |};
  pb_SendChatMessageResponse :=
    {| pb_new := {| scm_response_header := blank_response |};
       pblite_encode := λ r, JArr [ JInt (status (scm_response_header r)) ];
       pblite_decode := λ r v _,
         match v with
         | JArr (_ :: h :: _) => Ok {| scm_response_header := header_of h |}
         | _ => Ok r
         end |};
  pb_SetPresenceRequest :=
    {| pb_new :=
         {| sp_request_header := blank_header;
            presence_state_setting :=
              {| pss_timeout_secs := 0; presence_type := 0 |};
            mood_setting := None |};
       pblite_encode := λ r,
         JArr [ encode_header (sp_request_header r);
                JInt (pss_timeout_secs (presence_state_setting r));
                JInt (presence_type (presence_state_setting r));
                match mood_setting r with
                | Some m =>
                    JArr (map encode_segment
                            (mood_segment (mood_content (mood_message m))))
                | None => JNull
                end ];
       pblite_decode := λ r _ _, Ok r |};
  pb_SetPresenceResponse :=
    {| pb_new := {| sp_response_header := blank_response |};
       pblite_encode := λ r, JArr [ JInt (status (sp_response_header r)) ];
       pblite_decode := λ r v _,
         match v with
         | JArr (_ :: h :: _) => Ok {| sp_response_header := header_of h |}
         | _ => Ok r
         end |};
  pb_CreateConversationRequest :=
    {| pb_new :=
         {| cc_request_header := blank_header; conversation_type := 0;
            cc_client_generated_id := 0; invitee_id := [] |};
       pblite_encode := λ r,
         JArr [ encode_header (cc_request_header r);
                JInt (conversation_type r);
                JInt (cc_client_generated_id r);
                JArr (map (λ i, JStr (gaia_id i)) (invitee_id r)) ];
       pblite_decode := λ r _ _, Ok r |};
  pb_CreateConversationResponse :=
    {| pb_new := {| cc_response_header := blank_response |};
       pblite_encode := λ r, JArr [ JInt (status (cc_response_header r)) ];
       pblite_decode := λ r v _,
         match v with
         | JArr (_ :: h :: _) => Ok {| cc_response_header := header_of h |}
         | _ => Ok r
         end |};
|}.

(** The answers of the upload server: a session with the URL to put the
    image to, a session without one, and the receipt with the image ID. *)
Definition put_url : string := "http://upload.example/put".

Definition session_text : string :=
  "{" +:+ quoted "sessionStatus" +:+ ":{" +:+ quoted "externalFieldTransfers"
  +:+ ":[{" +:+ quoted "putInfo" +:+ ":{" +:+ quoted "url" +:+ ":"
  +:+ quoted put_url +:+ "}}]}}".
Definition session_value : json :=
  JObj {[ "sessionStatus" :=
    JObj {[ "externalFieldTransfers" :=
      JArr [ JObj {[ "putInfo" := JObj {[ "url" := JStr put_url ]} ]} ] ]} ]}.

Definition refused_text : string :=
  "{" +:+ quoted "sessionStatus" +:+ ":{" +:+ quoted "externalFieldTransfers"
  +:+ ":[]}}".
Definition refused_value : json :=
  JObj {[ "sessionStatus" := JObj {[ "externalFieldTransfers" := JArr [] ]} ]}.

Definition receipt_text : string :=
  "{" +:+ quoted "sessionStatus" +:+ ":{" +:+ quoted "additionalInfo" +:+ ":{"
  +:+ quoted "uploader_service.GoogleRupioAdditionalInfo" +:+ ":{"
  +:+ quoted "completionInfo" +:+ ":{" +:+ quoted "customerSpecificInfo"
  +:+ ":{" +:+ quoted "photoid" +:+ ":" +:+ quoted "photo-7" +:+ "}}}}}}".
Definition receipt_value : json :=
  JObj {[ "sessionStatus" :=
    JObj {[ "additionalInfo" :=
      JObj {[ "uploader_service.GoogleRupioAdditionalInfo" :=
        JObj {[ "completionInfo" :=
          JObj {[ "customerSpecificInfo" :=
            JObj {[ "photoid" := JStr "photo-7" ]} ]} ]} ]} ]} ]}.

(** A wrapper whose tag '3' is a string instead of a dictionary. *)
Definition wrapper_bad_id : string :=
  "{" +:+ quoted "3" +:+ ":" +:+ quoted "sess-42" +:+ "," +:+ quoted "2"
  +:+ ":{" +:+ quoted "2" +:+ ":" +:+ quoted payload_cbu +:+ "}}".
Definition wrapper_bad_id_value : gmap string json :=
  <[ "3" := JStr "sess-42" ]> {[ "2" := JObj {[ "2" := JStr payload_cbu ]} ]}.

Definition more_texts : list (string * json) :=
  [ (session_text, session_value);
    (refused_text, refused_value);
    (receipt_text, receipt_value);
    (wrapper_bad_id, JObj wrapper_bad_id_value) ].

(** The outside of [Double], with these texts added to those [json.loads]
    reads. *)
Definition externals (server : string -> outcome string) (entropy : Z)
    : Externals :=
  let base := Double.externals (λ _, 0%Q) server [] entropy in
  {| time_time := time_time base;
     random_source := random_source base;
     py_str := py_str base;
     json_loads := λ s, lookup_text s (more_texts ++ texts);
     json_dumps := json_dumps base;
     bytes_decode := bytes_decode base;
     javascript_loads := javascript_loads base;
     get_authorization_headers := get_authorization_headers base;
     http_fetch := http_fetch base;
     send_maps := send_maps base;
     observers := observers base |}.

(** An upload server that opens a session with [first] and answers the
    upload itself with the receipt. *)
Definition upload_server (first : string) : string -> outcome string :=
  λ url,
    if bool_decide (url = IMAGE_UPLOAD_URL) then Ok first
    else if bool_decide (url = put_url) then Ok receipt_text
    else Raise (NetworkError "offline").

Definition has_slash (s : string) : bool := is_substring "/" s.

(** The part of a path after its last slash. *)
Fixpoint basename (s : string) : string :=
  match s with
  | EmptyString => EmptyString
  | String a rest => if has_slash (String a rest) then basename rest else s
  end.

Definition files : FileExternals :=
  {| os_path_basename := basename;
     fetch_other_url := λ _ _, Raise TypeError |}.

Definition cat_png : ImageFile :=
  {| name := "/home/user/cat.png";
     content := list_byte_of_string "PNG" |}.

End DoubleRequests.

(** * Properties *)

(** ** Running the monad *)

Ltac run_monad :=
  repeat (unfold mbind, M_bind, mret, M_ret, emit, log, lift, raise,
            get_client, put_client, get_trace, assign; simpl).

Lemma run_bind {A B} (m : M A) (f : A -> M B) (w : World) :
  (m ≫= f) w =
  match m w with
  | (Ok a, w') => f a w'
  | (Raise e, w') => (Raise e, w')
  end.
Proof. reflexivity. Qed.

Lemma run_bind_ok {A B} (m : M A) (f : A -> M B) (w w' : World) (a : A) :
  m w = (Ok a, w') -> (m ≫= f) w = f a w'.
Proof. intros E. rewrite run_bind, E. reflexivity. Qed.

Lemma run_bind_raise {A B} (m : M A) (f : A -> M B) (w w' : World) (e : exn) :
  m w = (Raise e, w') -> (m ≫= f) w = (Raise e, w').
Proof. intros E. rewrite run_bind, E. reflexivity. Qed.

Lemma run_log (lvl : level) (fmt : string) (args : list log_arg) (w : World) :
  log lvl fmt args w
  = (Ok tt, {| client := client w; trace := trace w ++ [EvLog lvl fmt args] |}).
Proof. reflexivity. Qed.

Lemma run_assign (f : Client -> Client) (w : World) :
  assign f w = (Ok tt, {| client := f (client w); trace := trace w |}).
Proof. reflexivity. Qed.

Lemma world_eta (w : World) : {| client := client w; trace := trace w |} = w.
Proof. destruct w; reflexivity. Qed.

Lemma count_app (p : Event -> bool) (xs ys : list Event) :
  count p (xs ++ ys) = (count p xs + count p ys)%nat.
Proof. unfold count. rewrite filter_app, length_app. reflexivity. Qed.

Lemma count_cons (p : Event -> bool) (x : Event) (xs : list Event) :
  count p (x :: xs) = ((if p x then 1 else 0) + count p xs)%nat.
Proof.
  unfold count. rewrite filter_cons.
  destruct (p x); destruct (decide _); simpl; congruence.
Qed.

Lemma count_nil (p : Event -> bool) : count p [] = 0%nat.
Proof. reflexivity. Qed.

(** An awaited call that does not write to the client. *)
Lemma await_pure {A} (c : call) (f : list Event -> outcome A) (w : World) :
  await c (λ tr cl, (f tr, cl)) w =
  let called := trace w ++ [EvCall c (client w)] in
  match f called with
  | Ok a => (Ok a, {| client := client w; trace := called ++ [EvDone c] |})
  | Raise e => (Raise e, {| client := client w; trace := called |})
  end.
Proof.
  unfold await. run_monad.
  destruct (f _) as [a|e]; reflexivity.
Qed.

(** ** Cookies *)

Section Cookies.
Context (env : Externals).

Lemma _get_cookie_present (name v : string) (w : World) :
  _cookies (client w) !! name = Some v ->
  _get_cookie name w = (Ok v, w).
Proof.
  intros E. unfold _get_cookie. rewrite run_bind. simpl. rewrite E. reflexivity.
Qed.

Lemma _get_cookie_absent (name : string) (w : World) :
  _cookies (client w) !! name = None ->
  _get_cookie name w = (Raise (cookie_error name), w).
Proof.
  intros E. unfold _get_cookie. rewrite run_bind. simpl. rewrite E. reflexivity.
Qed.

(** The dictionary comprehension either fails at the first name that has no
    cookie, or returns a dictionary; the world is as before. *)
Lemma get_cookies_cases (names : list string) (acc : gmap string string)
    (w : World) :
  (exists missing,
      missing ∈ names /\ _cookies (client w) !! missing = None /\
      get_cookies names acc w = (Raise (cookie_error missing), w))
  \/ (Forall (λ n, is_Some (_cookies (client w) !! n)) names /\
      exists d, get_cookies names acc w = (Ok d, w)).
Proof.
  revert acc. induction names as [|n names IH]; intros acc.
  - right. split; [constructor|]. exists acc. reflexivity.
  - simpl. destruct (_cookies (client w) !! n) as [v|] eqn:E.
    + rewrite (run_bind_ok _ _ _ _ _ (_get_cookie_present n v w E)).
      destruct (IH (<[n:=v]> acc)) as [(m & Hin & Hm & Hr)|(Hall & d & Hr)].
      * left. exists m. split; [right; exact Hin|]. split; [exact Hm|exact Hr].
      * right. split; [constructor; [rewrite E; eauto|exact Hall]|].
        exists d. exact Hr.
    + left. exists n. split; [left|]. split; [exact E|].
      apply run_bind_raise, _get_cookie_absent, E.
Qed.

End Cookies.

(** ** The request engine *)

Section Requests.
Context `{!Constants} (env : Externals).

Lemma required_cookies_sapisid : "SAPISID" ∈ required_cookies.
Proof. left. Qed.

(** [_base_request] either fails on a missing cookie and leaves the world as
    it is, or calls the fetch primitive once and returns what it returns. *)
Lemma _base_request_cases (url content_type response_type data : string)
    (w : World) :
  (exists missing,
      missing ∈ required_cookies /\ _cookies (client w) !! missing = None /\
      _base_request env url content_type response_type data w
      = (Raise (cookie_error missing), w))
  \/ (Forall (λ n, is_Some (_cookies (client w) !! n)) required_cookies /\
      exists req,
        fetch_url req = url /\
        let called := trace w ++ [EvCall (CFetch req) (client w)] in
        _base_request env url content_type response_type data w =
        match http_fetch env called req with
        | Ok res =>
            (Ok res, {| client := client w;
                        trace := called ++ [EvDone (CFetch req)] |})
        | Raise e => (Raise e, {| client := client w; trace := called |})
        end).
Proof.
  unfold _base_request.
  destruct (_cookies (client w) !! "SAPISID") as [v|] eqn:E.
  2:{ left. exists "SAPISID". split; [apply required_cookies_sapisid|].
      split; [exact E|]. apply run_bind_raise, _get_cookie_absent, E. }
  rewrite (run_bind_ok _ _ _ _ _ (_get_cookie_present "SAPISID" v w E)).
  rewrite run_bind. simpl.
  destruct (get_cookies_cases required_cookies ∅ w)
    as [(m & Hin & Hm & Hr)|(Hall & d & Hr)].
  - left. exists m. split; [exact Hin|]. split; [exact Hm|].
    apply run_bind_raise, Hr.
  - right. split; [exact Hall|].
    rewrite (run_bind_ok _ _ _ _ _ Hr).
    exists {| fetch_method := "post"; fetch_url := url;
              fetch_headers :=
                <["content-type":=content_type]>
                  (get_authorization_headers env (trace w) v);
              fetch_cookies := d;
              fetch_params := {["alt" := response_type]};
              fetch_data := data |}.
    split; [reflexivity|].
    cbv zeta. rewrite run_bind, await_pure. cbv zeta.
    destruct (http_fetch env _ _) as [res|e]; reflexivity.
Qed.

(** The ways [_pb_request] can go, with the result and the world of each. *)
Lemma _pb_request_cases {Req Resp : Type}
    `{!PbMessage Req} `{!PbMessage Resp} `{!PbResponse Resp}
    (endpoint : string) (request_pb : Req) (response_pb : Resp) (w : World) :
  let started := trace w ++ [sending endpoint (pblite_encode request_pb)] in
  (exists missing,
      missing ∈ required_cookies /\ _cookies (client w) !! missing = None /\
      _pb_request env endpoint request_pb response_pb w
      = (Raise (cookie_error missing),
         {| client := client w; trace := started |}))
  \/ (Forall (λ n, is_Some (_cookies (client w) !! n)) required_cookies /\
      exists req,
        fetch_url req = chat_url endpoint /\
        let called := started ++ [EvCall (CFetch req) (client w)] in
        _pb_request env endpoint request_pb response_pb w =
        match http_fetch env called req with
        | Raise e => (Raise e, {| client := client w; trace := called |})
        | Ok res =>
            match decode_response env response_pb res with
            | Raise e =>
                (Raise e, {| client := client w;
                             trace := called ++ [EvDone (CFetch req)] |})
            | Ok decoded =>
                (if bool_decide (status (response_header decoded)
                                 ≠ RESPONSE_STATUS_OK)
                 then Raise (status_error (response_header decoded))
                 else Ok decoded,
                 {| client := client w;
                    trace := called ++ [EvDone (CFetch req);
                                        received (pblite_encode decoded)] |})
            end
        end).
Proof.
  intros started. unfold _pb_request.
  rewrite run_bind, run_log. cbv beta iota.
  change (EvLog Debug _ _) with (sending endpoint (pblite_encode request_pb)).
  set (w1 := {| client := client w; trace := trace w ++ _ |}).
  destruct (_base_request_cases
              ("https://clients6.google.com/chat/v1/" +:+ endpoint)
              "application/json+protobuf" "protojson"
              (json_dumps env (pblite_encode request_pb)) w1)
    as [(m & Hin & Hm & Hr)|(Hall & req & Hurl & Hr)].
  - left. exists m. split; [exact Hin|]. split; [exact Hm|].
    rewrite (run_bind_raise _ _ _ _ _ Hr). reflexivity.
  - right. split; [exact Hall|]. exists req. split; [exact Hurl|].
    cbv zeta in Hr |- *. rewrite run_bind, Hr. clear Hr.
    change (trace w1) with started. change (client w1) with (client w).
    destruct (http_fetch env _ req) as [res|e]; [|reflexivity].
    unfold decode_response.
    destruct (bytes_decode env (body res)) as [text|e]; [|reflexivity].
    run_monad.
    destruct (javascript_loads env text) as [pblite|e]; [|reflexivity].
    simpl.
    destruct (pblite_decode response_pb pblite true) as [decoded|e];
      [|reflexivity].
    simpl. unfold status_error, received.
    rewrite <- !app_assoc. simpl.
    destruct (bool_decide _); reflexivity.
Qed.

End Requests.

(** ** Missing cookies *)

(** C5. If one of the five required cookies is absent from the cookie
    dictionary, an authenticated request fails before the fetch primitive is
    called: [_base_request] raises the [KeyError] of a missing cookie and
    leaves the trace as it is, and [_pb_request] raises it after its first
    log entry, with as many fetch calls in the trace as before.  The error is
    a [KeyError], not a [NetworkError]. *)
Theorem missing_cookie_fails_before_fetch
    `{!Constants} (env : Externals) {Req Resp : Type}
    `{!PbMessage Req} `{!PbMessage Resp} `{!PbResponse Resp}
    (name url content_type response_type data endpoint : string)
    (request_pb : Req) (response_pb : Resp) (w : World) :
  name ∈ required_cookies ->
  _cookies (client w) !! name = None ->
  (exists missing,
      missing ∈ required_cookies /\ _cookies (client w) !! missing = None /\
      _base_request env url content_type response_type data w
      = (Raise (KeyError ("Cookie '" +:+ missing +:+ "' is required")), w))
  /\ (exists missing w',
        missing ∈ required_cookies /\ _cookies (client w) !! missing = None /\
        _pb_request env endpoint request_pb response_pb w
        = (Raise (KeyError ("Cookie '" +:+ missing +:+ "' is required")), w')
        /\ client w' = client w
        /\ count is_fetch (trace w') = count is_fetch (trace w))
  /\ (forall missing msg,
        KeyError ("Cookie '" +:+ missing +:+ "' is required")
        <> NetworkError msg).
Proof.
  intros Hin Hnone.
  assert (Habsurd :
    Forall (λ n, is_Some (_cookies (client w) !! n)) required_cookies -> False).
  { intros Hall. rewrite Forall_forall in Hall.
    destruct (Hall name Hin) as [v Hv]. congruence. }
  split; [|split].
  - destruct (_base_request_cases env url content_type response_type data w)
      as [(m & Hm & Hl & Hr)|(Hall & _)]; [|destruct (Habsurd Hall)].
    exists m. auto.
  - destruct (_pb_request_cases env endpoint request_pb response_pb w)
      as [(m & Hm & Hl & Hr)|(Hall & _)]; [|destruct (Habsurd Hall)].
    eexists m, _. split; [exact Hm|]. split; [exact Hl|].
    split; [exact Hr|]. split; [reflexivity|].
    simpl. rewrite count_app. unfold sending. rewrite count_cons, count_nil.
    simpl. lia.
  - intros missing msg. discriminate.
Qed.

Section MissingCookieExample.
Import Double.

(** C5 on an example: the cookie 'SID' is missing. *)
Lemma missing_cookie_fails_before_fetch_witness :
  "SID" ∈ required_cookies /\
  _cookies (client (Double.start (__init__ (delete "SID" Double.all_cookies))))
    !! "SID" = None /\
  exists w',
    _pb_request (Double.externals (λ _, 0%Q) Double.offline [] 0) "contacts/getselfinfo"
      (pb_new : GetSelfInfoRequest) (pb_new : GetSelfInfoResponse)
      (Double.start (__init__ (delete "SID" Double.all_cookies)))
    = (Raise (KeyError "Cookie 'SID' is required"), w')
    /\ count is_fetch (trace w') = 0%nat.
Proof.
  assert (Hin : "SID" ∈ required_cookies) by (vm_compute; set_solver).
  assert (Hnone :
    _cookies (client (Double.start (__init__ (delete "SID" Double.all_cookies))))
      !! "SID" = None) by (vm_compute; reflexivity).
  split; [exact Hin|]. split; [exact Hnone|].
  destruct (missing_cookie_fails_before_fetch
              (Double.externals (λ _, 0%Q) Double.offline [] 0)
              "SID" "" "" "" "" "contacts/getselfinfo"
              (pb_new : GetSelfInfoRequest) (pb_new : GetSelfInfoResponse)
              _ Hin Hnone) as (_ & (m & w' & _ & _ & Hr & _ & Hc) & _).
  exists w'. split; [|exact Hc].
  rewrite Hr. vm_compute in Hr.
  injection Hr as Hm _. rewrite Hm. reflexivity.
Defined.

End MissingCookieExample.

(** ** The status check *)

(** C4. For every endpoint and every request and response class: once the
    cookies are there, the fetch primitive has answered and the answer has
    been decoded into the response message, [_pb_request] returns that
    message when its status is [RESPONSE_STATUS_OK], and otherwise raises
    [NetworkError] with the status and the description of the response in
    its message; nothing else is raised for a status that is not OK. *)
Theorem pb_request_status
    `{!Constants} (env : Externals) {Req Resp : Type}
    `{!PbMessage Req} `{!PbMessage Resp} `{!PbResponse Resp}
    (endpoint : string) (request_pb : Req) (response_pb decoded : Resp)
    (res : FetchResponse) (w : World) :
  Forall (λ n, is_Some (_cookies (client w) !! n)) required_cookies ->
  (forall tr req, http_fetch env tr req = Ok res) ->
  decode_response env response_pb res = Ok decoded ->
  (status (response_header decoded) = RESPONSE_STATUS_OK ->
   fst (_pb_request env endpoint request_pb response_pb w) = Ok decoded)
  /\ (status (response_header decoded) <> RESPONSE_STATUS_OK ->
      fst (_pb_request env endpoint request_pb response_pb w)
      = Raise (NetworkError
                 ("Request failed with status "
                  +:+ pretty (status (response_header decoded))
                  +:+ ": '" +:+ error_description (response_header decoded)
                  +:+ "'")))
  /\ count is_fetch (trace (snd (_pb_request env endpoint request_pb
                                              response_pb w)))
     = S (count is_fetch (trace w)).
Proof.
  intros Hall Hfetch Hdec.
  destruct (_pb_request_cases env endpoint request_pb response_pb w)
    as [(m & Hm & Hl & _)|(_ & req & Hurl & Hr)].
  { rewrite Forall_forall in Hall. destruct (Hall m Hm) as [v Hv]. congruence. }
  cbv zeta in Hr. rewrite Hfetch, Hdec in Hr. rewrite Hr. simpl.
  split; [|split].
  - intros Hok. rewrite bool_decide_eq_false_2; [reflexivity|]. tauto.
  - intros Hbad. rewrite bool_decide_eq_true_2; [reflexivity|exact Hbad].
  - rewrite <- !app_assoc, !count_app. unfold sending, received.
    rewrite !count_cons, count_nil. simpl. lia.
Qed.

Section StatusExample.
Import Double.

Lemma all_cookies_present (w : World) :
  _cookies (client w) = all_cookies ->
  Forall (λ n, is_Some (_cookies (client w) !! n)) required_cookies.
Proof.
  intros ->. unfold required_cookies.
  repeat (apply List.Forall_cons; [eexists; vm_compute; reflexivity|]).
  apply List.Forall_nil.
Qed.

(** C4 on an example: the server answers with status 3 and the
    description 'denied'. *)
Lemma pb_request_status_witness :
  let env := externals (λ _, 0%Q) (λ _, Ok body_denied) [] 0 in
  fst (_pb_request env "clients/setactiveclient"
         (pb_new : SetActiveClientRequest) (pb_new : SetActiveClientResponse)
         (start (__init__ all_cookies)))
  = Raise (NetworkError "Request failed with status 3: 'denied'").
Proof.
  intros env.
  destruct (pb_request_status env "clients/setactiveclient"
              (pb_new : SetActiveClientRequest)
              (pb_new : SetActiveClientResponse)
              {| sac_response_header :=
                   {| status := 3; error_description := "denied" |} |}
              {| code := 200; cookies := ∅;
                 body := list_byte_of_string body_denied |}
              (start (__init__ all_cookies))
              (all_cookies_present (start (__init__ all_cookies)) eq_refl)
              (λ _ _, eq_refl))
    as (_ & Hbad & _).
  - vm_compute. reflexivity.
  - rewrite Hbad; [vm_compute; reflexivity|vm_compute; discriminate].
Defined.

End StatusExample.

(** ** Client-generated identifiers *)

(** Every identifier lies between 0 and 2^32, both included. *)
Lemma get_client_generated_id_range (env : Externals) (w : World) :
  exists v,
    get_client_generated_id env w
    = (Ok v, {| client := client w;
                trace := trace w ++ [EvRandint 0 (2 ^ 32) v] |})
    /\ 0 <= v <= 2 ^ 32.
Proof.
  exists (0 + random_source env (trace w) `mod` (2 ^ 32 - 0 + 1)).
  split; [reflexivity|].
  pose proof (Z.mod_pos_bound (random_source env (trace w)) (2 ^ 32 - 0 + 1))
    as Hb.
  lia.
Qed.

(** C9. When the random source draws the upper bound that
    [random.randint(0, 2**32)] includes, the identifier is 2^32, which is
    above 2^32 - 1: it does not fit in 32 bits. *)
Theorem client_generated_id_exceeds_32_bits :
  fst (get_client_generated_id (Double.externals (λ _, 0%Q) Double.offline [] (2 ^ 32))
         (Double.start (@__init__ Double.constants ∅)))
  = Ok (2 ^ 32)
  /\ ~ (2 ^ 32 <= 2 ^ 32 - 1).
Proof. split; [vm_compute; reflexivity|lia]. Qed.

(** ** The request header *)

Lemma _get_request_header_pb_unset (w : World) :
  _client_id (client w) = JNull ->
  _get_request_header_pb w = (Ok (_request_header (client w)), w).
Proof.
  intros E. unfold _get_request_header_pb. rewrite run_bind. simpl.
  rewrite E. reflexivity.
Qed.

Lemma _get_request_header_pb_known (s : string) (w : World) :
  _client_id (client w) = JStr s ->
  _get_request_header_pb w
  = (Ok (set_resource s (_request_header (client w))),
     {| client := set_request_header
                    (set_resource s (_request_header (client w))) (client w);
        trace := trace w |}).
Proof.
  intros E. unfold _get_request_header_pb. rewrite run_bind. simpl.
  rewrite E. reflexivity.
Qed.

(** Once a client_id is known, no later header is without a resource. *)
Lemma current_ids_known (s : string) (steps : list header_step) :
  Forall is_Some (current_ids (Some s) steps).
Proof.
  revert s. induction steps as [|[s'|] steps IH]; intros s; simpl.
  - constructor.
  - apply IH.
  - constructor; [eauto|apply IH].
Qed.

Lemma header_history_from (steps : list header_step) :
  forall (known : option string) (w : World),
    _client_id (client w) = json_of_id known ->
    (known = None ->
     resource (client_identifier (_request_header (client w))) = None) ->
    exists hs w',
      header_history steps w = (Ok hs, w')
      /\ trace w' = trace w
      /\ map (λ h, resource (client_identifier h)) hs = current_ids known steps
      /\ Forall (λ h, client_version h
                      = client_version (_request_header (client w))
                      /\ language_code h
                         = language_code (_request_header (client w))) hs.
Proof.
  induction steps as [|[s|] steps IH]; intros known w Hid Hres.
  - exists [], w. repeat split; constructor.
  - simpl. rewrite run_bind, run_assign. cbv beta iota.
    destruct (IH (Some s) {| client := set_client_id (JStr s) (client w);
                             trace := trace w |} eq_refl)
      as (hs & w' & Hrun & Htr & Hmap & Hstatic); [discriminate|].
    exists hs, w'. auto.
  - simpl. destruct known as [s|]; simpl in Hid.
    + rewrite (run_bind_ok _ _ _ _ _ (_get_request_header_pb_known s w Hid)).
      destruct (IH (Some s)
                  {| client := set_request_header
                                 (set_resource s (_request_header (client w)))
                                 (client w);
                     trace := trace w |} Hid)
        as (hs & w' & Hrun & Htr & Hmap & Hstatic); [discriminate|].
      exists (set_resource s (_request_header (client w)) :: hs), w'.
      rewrite (run_bind_ok _ _ _ _ _ Hrun).
      split; [reflexivity|]. split; [exact Htr|].
      split; [simpl; f_equal; exact Hmap|].
      constructor; [split; reflexivity|exact Hstatic].
    + rewrite (run_bind_ok _ _ _ _ _ (_get_request_header_pb_unset w Hid)).
      destruct (IH None w Hid Hres)
        as (hs & w' & Hrun & Htr & Hmap & Hstatic).
      exists (_request_header (client w) :: hs), w'.
      rewrite (run_bind_ok _ _ _ _ _ Hrun).
      split; [reflexivity|]. split; [exact Htr|].
      split; [simpl; f_equal; [apply Hres; reflexivity|exact Hmap]|].
      constructor; [split; reflexivity|exact Hstatic].
Qed.

(** C10. Along any history of a client that starts at [__init__], every
    header handed out by [_get_request_header_pb] has no resource as long as
    no client_id has been stored, and has the client_id current at that
    moment as its resource afterwards, so a new client_id replaces the
    resource and nothing clears it; the client version and the language code
    of every header are those set in [__init__]. *)
Theorem request_header_resource_follows_client_id
    `{!Constants} (cookies : gmap string string) (steps : list header_step) :
  exists hs w',
    header_history steps {| client := __init__ cookies; trace := [] |}
    = (Ok hs, w')
    /\ map (λ h, resource (client_identifier h)) hs = current_ids None steps
    /\ Forall (λ h, major_version (client_version h)
                    = "hangups-" +:+ __version__
                    /\ language_code h = "en") hs
    /\ forall s later, Forall is_Some (current_ids (Some s) later).
Proof.
  destruct (header_history_from steps None
              {| client := __init__ cookies; trace := [] |} eq_refl)
    as (hs & w' & Hrun & _ & Hmap & Hstatic); [reflexivity|].
  exists hs, w'. split; [exact Hrun|]. split; [exact Hmap|].
  split; [|intros s later; apply current_ids_known].
  eapply Forall_impl; [exact Hstatic|].
  simpl. intros h [Hv Hl]. rewrite Hv, Hl. split; reflexivity.
Qed.

(** ** What a computation adds to the trace *)

Lemma emits_weaken {A} (P Q : Event -> Prop) (m : M A) :
  (forall ev, P ev -> Q ev) -> emits P m -> emits Q m.
Proof.
  intros HPQ Hm w. destruct (Hm w) as (evs & Htr & Hall).
  exists evs. split; [exact Htr|]. eapply Forall_impl; eauto.
Qed.

Lemma emits_kinds {A} (ks ks' : list kind) (m : M A) :
  ks ⊆ ks' -> emits (of_kinds ks) m -> emits (of_kinds ks') m.
Proof. intros Hsub. apply emits_weaken. intros ev Hev. apply Hsub, Hev. Qed.

Lemma emits_silent {A} (P : Event -> Prop) (m : M A) :
  (forall w, trace (snd (m w)) = trace w) -> emits P m.
Proof.
  intros Hm w. exists []. rewrite Hm, app_nil_r. split; [reflexivity|constructor].
Qed.

Lemma emits_ret {A} (P : Event -> Prop) (a : A) : emits P (mret a : M A).
Proof. apply emits_silent. reflexivity. Qed.

Lemma emits_raise {A} (P : Event -> Prop) (e : exn) : emits P (raise e : M A).
Proof. apply emits_silent. reflexivity. Qed.

Lemma emits_lift {A} (P : Event -> Prop) (o : outcome A) : emits P (lift o).
Proof. apply emits_silent. reflexivity. Qed.

Lemma emits_get_client (P : Event -> Prop) : emits P get_client.
Proof. apply emits_silent. reflexivity. Qed.

Lemma emits_get_trace (P : Event -> Prop) : emits P get_trace.
Proof. apply emits_silent. reflexivity. Qed.

Lemma emits_assign (P : Event -> Prop) (f : Client -> Client) :
  emits P (assign f).
Proof. apply emits_silent. reflexivity. Qed.

Lemma emits_emit (P : Event -> Prop) (ev : Event) : P ev -> emits P (emit ev).
Proof. intros Hev w. exists [ev]. split; [reflexivity|]. repeat constructor. exact Hev. Qed.

Lemma emits_log (ks : list kind) lvl fmt args :
  KLog ∈ ks -> emits (of_kinds ks) (log lvl fmt args).
Proof. intros Hin. apply emits_emit. exact Hin. Qed.

Lemma emits_bind {A B} (P : Event -> Prop) (m : M A) (f : A -> M B) :
  emits P m -> (forall a, emits P (f a)) -> emits P (m ≫= f).
Proof.
  intros Hm Hf w. rewrite run_bind.
  destruct (Hm w) as (evs1 & Htr1 & Hall1).
  destruct (m w) as [[a|e] w1]; simpl in Htr1.
  - destruct (Hf a w1) as (evs2 & Htr2 & Hall2).
    exists (evs1 ++ evs2). rewrite Htr2, Htr1, app_assoc.
    split; [reflexivity|]. apply Forall_app. split; assumption.
  - exists evs1. split; assumption.
Qed.

Lemma emits_try {A B} (P : Event -> Prop)
    (body : M A) (handler : exn -> M B) (orelse : A -> M B) :
  emits P body -> (forall e, emits P (handler e)) ->
  (forall a, emits P (orelse a)) ->
  emits P (try_except_NetworkError body handler orelse).
Proof.
  intros Hb Hh Ho w. unfold try_except_NetworkError.
  destruct (Hb w) as (evs1 & Htr1 & Hall1).
  destruct (body w) as [[a|e] w1]; simpl in Htr1.
  - destruct (Ho a w1) as (evs2 & Htr2 & Hall2).
    exists (evs1 ++ evs2). rewrite Htr2, Htr1, app_assoc.
    split; [reflexivity|]. apply Forall_app. split; assumption.
  - destruct e; try (exists evs1; split; assumption).
    destruct (Hh (NetworkError msg) w1) as (evs2 & Htr2 & Hall2).
    exists (evs1 ++ evs2). rewrite Htr2, Htr1, app_assoc.
    split; [reflexivity|]. apply Forall_app. split; assumption.
Qed.

Lemma emits_await {A} (P : Event -> Prop) (c : call)
    (answer : list Event -> Client -> outcome A * Client) :
  (forall cl, P (EvCall c cl)) -> P (EvDone c) -> emits P (await c answer).
Proof.
  intros Hcall Hdone w. unfold await. run_monad.
  destruct (answer _ _) as [[a|e] cl']; simpl.
  - exists [EvCall c (client w); EvDone c]. rewrite <- app_assoc.
    split; [reflexivity|]. repeat constructor; auto.
  - exists [EvCall c (client w)]. split; [reflexivity|].
    repeat constructor; auto.
Qed.

Lemma emits_for_each {A} (P : Event -> Prop) (xs : list A) (body : A -> M unit) :
  (forall x, emits P (body x)) -> emits P (for_each xs body).
Proof.
  intros Hbody. induction xs as [|x xs IH]; simpl.
  - apply emits_ret.
  - apply emits_bind; [apply Hbody|intros _; exact IH].
Qed.

Lemma of_kinds_count_zero (ks : list kind) (p : Event -> bool)
    (evs : list Event) :
  (forall ev, p ev = true -> kind_of ev ∉ ks) ->
  Forall (of_kinds ks) evs -> count p evs = 0%nat.
Proof.
  intros Hp Hall. induction Hall as [|ev evs Hev _ IH]; [reflexivity|].
  rewrite count_cons, IH.
  destruct (p ev) eqn:E; [|reflexivity].
  destruct (Hp ev E Hev).
Qed.

Lemma deliveries_cons (ev : Event) (evs : list Event) :
  deliveries (ev :: evs)
  = match delivery_of ev with
    | Some d => d :: deliveries evs
    | None => deliveries evs
    end.
Proof. reflexivity. Qed.

Lemma deliveries_app (evs1 evs2 : list Event) :
  deliveries (evs1 ++ evs2) = deliveries evs1 ++ deliveries evs2.
Proof. apply omap_app. Qed.

Lemma of_kinds_deliveries_nil (ks : list kind) (evs : list Event) :
  KObserver ∉ ks -> Forall (of_kinds ks) evs -> deliveries evs = [].
Proof.
  intros Hks Hall. induction Hall as [|ev evs Hev _ IH]; [reflexivity|].
  rewrite deliveries_cons, IH.
  destruct ev as [| | |[]|[]]; simpl; try reflexivity;
    destruct (Hks Hev).
Qed.

Ltac emits_step :=
  lazymatch goal with
  | |- emits _ (mbind _ _) => apply emits_bind; [|intros]
  | |- emits _ (mret _) => apply emits_ret
  | |- emits _ (raise _) => apply emits_raise
  | |- emits _ (lift _) => apply emits_lift
  | |- emits _ get_client => apply emits_get_client
  | |- emits _ get_trace => apply emits_get_trace
  | |- emits _ (assign _) => apply emits_assign
  | |- emits _ (log _ _ _) => apply emits_log; set_solver
  | |- emits _ (await _ _) =>
      apply emits_await; [intros; unfold of_kinds; simpl; set_solver
                         |unfold of_kinds; simpl; set_solver]
  | |- emits _ (for_each _ _) => apply emits_for_each; intros
  | |- emits _ (try_except_NetworkError _ _ _) => apply emits_try; intros
  | |- emits _ (if ?b then _ else _) => destruct b
  | |- emits _ (match ?x with _ => _ end) => destruct x
  end.

Section Emits.
Context `{!Constants} `{!Pblite} (env : Externals).

Lemma fire_from_emits (obs : list _) (i : nat) (su : StateUpdate) :
  emits (of_kinds [KObserver]) (fire_from i obs su).
Proof.
  revert i. induction obs as [|o obs IH]; intros i; simpl.
  - apply emits_ret.
  - repeat emits_step. apply IH.
Qed.

Lemma on_state_update_record_emits (su : StateUpdate) :
  emits (of_kinds [KLog; KObserver]) (on_state_update_record env su).
Proof.
  unfold on_state_update_record. repeat emits_step.
  eapply emits_kinds; [|apply fire_from_emits]. set_solver.
Qed.

Lemma loads_emits (P : Event -> Prop) (v : json) : emits P (loads env v).
Proof. apply emits_silent. intros w. destruct v; reflexivity. Qed.

Lemma state_update_part_emits (wrapper : json) :
  emits (of_kinds [KLog; KObserver]) (state_update_part env wrapper).
Proof.
  unfold state_update_part. repeat emits_step;
    first [apply loads_emits|apply on_state_update_record_emits].
Qed.

Lemma _add_channel_services_emits :
  emits (of_kinds [KLog; KSendMaps]) (_add_channel_services env).
Proof. unfold _add_channel_services. repeat emits_step. Qed.

Lemma new_client_id_part_emits (wrapper : json) :
  emits (of_kinds [KLog; KSendMaps]) (new_client_id_part env wrapper).
Proof.
  unfold new_client_id_part. repeat emits_step.
  apply _add_channel_services_emits.
Qed.

Lemma _on_receive_array_emits (array : json) :
  emits (of_kinds [KLog; KSendMaps; KObserver]) (_on_receive_array env array).
Proof.
  unfold _on_receive_array. repeat emits_step.
  - apply loads_emits.
  - eapply emits_kinds; [|apply new_client_id_part_emits]. set_solver.
  - eapply emits_kinds; [|apply state_update_part_emits]. set_solver.
Qed.

Lemma receive_frames_emits (frames : list json) :
  emits (of_kinds [KLog; KSendMaps; KObserver]) (receive_frames env frames).
Proof. apply emits_for_each, _on_receive_array_emits. Qed.

End Emits.

(** ** The dispatcher *)

Section Dispatcher.
Context `{!Constants} `{!Pblite} (env : Externals).

Lemma fire_from_returns (obs : list _) :
  Forall (λ observer,
            forall tr su cl, exists cl',
              observer tr su cl = (Ok tt, cl')
              /\ _active_client_state cl' = _active_client_state cl) obs ->
  forall (i : nat) (su : StateUpdate) (w : World),
  exists w' evs,
    fire_from i obs su w = (Ok tt, w')
    /\ trace w' = trace w ++ evs
    /\ _active_client_state (client w') = _active_client_state (client w)
    /\ deliveries evs
       = flat_map (λ j, [ Called j su (_active_client_state (client w));
                          Finished j su ])
                  (seq i (length obs)).
Proof.
  induction 1 as [|o obs Ho _ IH]; intros i su w.
  - exists w, []. rewrite app_nil_r. repeat split; reflexivity.
  - simpl. unfold await. run_monad.
    destruct (Ho (trace w ++ [EvCall (CObserver i su) (client w)]) su (client w))
      as (cl' & Eo & Hstate).
    rewrite Eo. simpl.
    destruct (IH (S i) su
                {| client := cl';
                   trace := (trace w ++ [EvCall (CObserver i su) (client w)])
                            ++ [EvDone (CObserver i su)] |})
      as (w' & evs & Hrun & Htr & Hst & Hdel).
    run_monad. simpl in Hrun. rewrite Hrun.
    exists w', ([EvCall (CObserver i su) (client w); EvDone (CObserver i su)]
                ++ evs).
    split; [reflexivity|]. simpl in Htr, Hst, Hdel.
    split; [rewrite Htr, <- !app_assoc; reflexivity|].
    split; [congruence|].
    rewrite deliveries_app, Hdel, Hstate. reflexivity.
Qed.

Lemma on_state_update_record_returns (su : StateUpdate) (w : World) :
  observers_return env ->
  exists w' evs,
    on_state_update_record env su w = (Ok tt, w')
    /\ trace w' = trace w ++ evs
    /\ _active_client_state (client w') = Some (reported su)
    /\ deliveries evs = deliveries_of_record 0 (length (observers env)) su.
Proof.
  intros Hobs. unfold on_state_update_record, fire.
  rewrite run_bind, run_log. cbv beta iota.
  rewrite run_bind, run_assign. cbv beta iota.
  destruct (fire_from_returns (observers env) Hobs 0 su
              {| client := set_active_client_state (Some (reported su))
                             (client w);
                 trace := trace w ++ [EvLog Debug "Received StateUpdate:\n%s"
                                            [ArgStateUpdate su]] |})
    as (w' & evs & Hrun & Htr & Hst & Hdel).
  exists w', (EvLog Debug "Received StateUpdate:\n%s" [ArgStateUpdate su]
              :: evs).
  split; [exact Hrun|]. simpl in Htr, Hst, Hdel.
  split; [rewrite Htr, <- app_assoc; reflexivity|].
  split; [exact Hst|]. rewrite deliveries_cons. exact Hdel.
Qed.

Lemma batch_returns (batch : list StateUpdate) :
  observers_return env ->
  forall w : World,
  exists w' evs,
    for_each batch (on_state_update_record env) w = (Ok tt, w')
    /\ trace w' = trace w ++ evs
    /\ _active_client_state (client w')
       = match last batch with
         | Some su => Some (reported su)
         | None => _active_client_state (client w)
         end
    /\ deliveries evs
       = deliveries_of_batch (length (observers env)) batch.
Proof.
  intros Hobs. induction batch as [|su batch IH]; intros w.
  - exists w, []. rewrite app_nil_r. repeat split; reflexivity.
  - simpl for_each.
    destruct (on_state_update_record_returns su w Hobs)
      as (w1 & evs1 & Hrun1 & Htr1 & Hst1 & Hdel1).
    destruct (IH w1) as (w' & evs & Hrun & Htr & Hst & Hdel).
    exists w', (evs1 ++ evs).
    rewrite (run_bind_ok _ _ _ _ _ Hrun1).
    split; [exact Hrun|].
    split; [rewrite Htr, Htr1, app_assoc; reflexivity|].
    split.
    + rewrite Hst, last_cons. destruct (last batch); [reflexivity|exact Hst1].
    + rewrite deliveries_app, Hdel1, Hdel. reflexivity.
Qed.

Lemma contains_str_obj (k : string) (m : gmap string json) (v : json) :
  m !! k = Some v -> contains_str k (JObj m) = Ok true.
Proof.
  intros E. simpl. rewrite bool_decide_eq_true_2; [reflexivity|]. rewrite E. eauto.
Qed.

Lemma contains_str_obj_absent (k : string) (m : gmap string json) :
  m !! k = None -> contains_str k (JObj m) = Ok false.
Proof.
  intros E. simpl. rewrite bool_decide_eq_false_2; [reflexivity|].
  rewrite E. intros [v Hv]. discriminate.
Qed.

Lemma getitem_str_obj (k : string) (m : gmap string json) (v : json) :
  m !! k = Some v -> getitem_str (JObj m) k = Ok v.
Proof. intros E. simpl. rewrite E. reflexivity. Qed.

(** A push frame is handed to the two parts, one after the other. *)
Lemma _on_receive_array_push_frame (array : json) (wrapper : gmap string json)
    (w : World) :
  push_frame env array wrapper ->
  _on_receive_array env array w
  = (new_client_id_part env (JObj wrapper);;
     state_update_part env (JObj wrapper)) w.
Proof.
  intros (a0 & rest & text & -> & Hp & Hloads).
  unfold _on_receive_array. run_monad. rewrite Hp. simpl.
  rewrite Hloads. reflexivity.
Qed.

Lemma state_update_part_message (wrapper : gmap string json) (message : json)
    (w : World) :
  event_payload env wrapper message ->
  state_update_part env (JObj wrapper) w
  = (m0 ← lift (getitem_0 message);
     if is_str "cbu" m0 then
       batch_update ← lift (pblite_decode (pb_new : BatchUpdate) message true);
       for_each (state_update batch_update) (on_state_update_record env)
     else
       m0 ← lift (getitem_0 message);
       log Info "Ignoring message: %r" [ArgJson m0]) w.
Proof.
  intros (w2 & payload & H2 & Hp & Hloads).
  unfold state_update_part.
  rewrite run_bind. unfold lift at 1. rewrite (contains_str_obj _ _ _ H2).
  cbv beta iota.
  rewrite run_bind. unfold lift at 1. rewrite (getitem_str_obj _ _ _ H2).
  cbv beta iota.
  rewrite run_bind. unfold lift at 1. rewrite (getitem_str_obj _ _ _ Hp).
  cbv beta iota.
  rewrite run_bind. unfold loads at 1, lift at 1. rewrite Hloads.
  reflexivity.
Qed.

Lemma state_update_part_batch (wrapper : gmap string json) (message m0 : json)
    (batch : BatchUpdate) (w : World) :
  event_payload env wrapper message ->
  getitem_0 message = Ok m0 ->
  is_str "cbu" m0 = true ->
  pblite_decode (pb_new : BatchUpdate) message true = Ok batch ->
  state_update_part env (JObj wrapper) w
  = for_each (state_update batch) (on_state_update_record env) w.
Proof.
  intros Hpay Hm0 Hcbu Hdec. rewrite (state_update_part_message _ _ _ Hpay).
  rewrite run_bind. unfold lift at 1. rewrite Hm0. cbv beta iota.
  rewrite Hcbu. rewrite run_bind. unfold lift at 1. rewrite Hdec.
  reflexivity.
Qed.

Lemma state_update_part_other (wrapper : gmap string json) (message m0 : json)
    (w : World) :
  event_payload env wrapper message ->
  getitem_0 message = Ok m0 ->
  is_str "cbu" m0 = false ->
  state_update_part env (JObj wrapper) w
  = (Ok tt, {| client := client w;
               trace := trace w ++ [EvLog Info "Ignoring message: %r"
                                          [ArgJson m0]] |}).
Proof.
  intros Hpay Hm0 Hcbu. rewrite (state_update_part_message _ _ _ Hpay).
  rewrite run_bind. unfold lift at 1. rewrite Hm0. cbv beta iota.
  rewrite Hcbu. reflexivity.
Qed.

Lemma new_client_id_part_absent (wrapper : gmap string json) (w : World) :
  wrapper !! "3" = None ->
  new_client_id_part env (JObj wrapper) w = (Ok tt, w).
Proof.
  intros H3. unfold new_client_id_part.
  rewrite run_bind. unfold lift at 1. rewrite (contains_str_obj_absent _ _ H3).
  reflexivity.
Qed.

Lemma new_client_id_part_present (wrapper w3 : gmap string json)
    (client_id : json) (w : World) :
  wrapper !! "3" = Some (JObj w3) ->
  w3 !! "2" = Some client_id ->
  let stored := set_client_id client_id (client w) in
  let called := trace w ++ bootstrap_events env client_id stored in
  new_client_id_part env (JObj wrapper) w
  = match send_maps env called (bootstrap_maps env) with
    | Ok _ =>
        (Ok tt, {| client := stored;
                   trace := called
                            ++ [EvDone (CSendMaps (bootstrap_maps env));
                                EvLog Info "Channel services added" []] |})
    | Raise e => (Raise e, {| client := stored; trace := called |})
    end.
Proof.
  intros H3 H2 stored called. unfold new_client_id_part.
  rewrite run_bind. unfold lift at 1. rewrite (contains_str_obj _ _ _ H3).
  cbv beta iota.
  rewrite run_bind. unfold lift at 1. rewrite (getitem_str_obj _ _ _ H3).
  cbv beta iota.
  rewrite run_bind. unfold lift at 1. rewrite (getitem_str_obj _ _ _ H2).
  cbv beta iota.
  rewrite run_bind, run_assign. cbv beta iota.
  rewrite run_bind, run_log. cbv beta iota.
  unfold _add_channel_services.
  rewrite run_bind, run_log. cbv beta iota. cbv zeta.
  rewrite run_bind, await_pure. cbv zeta. simpl client. simpl trace.
  change [{["p" := _]}] with (bootstrap_maps env).
  fold stored.
  replace (((trace w ++ [EvLog Info "Received new client_id: %r"
                           [ArgJson client_id]])
            ++ [EvLog Info "Adding channel services..." []])
           ++ [EvCall (CSendMaps (bootstrap_maps env)) stored])
    with called
    by (unfold called, bootstrap_events; rewrite <- !app_assoc; reflexivity).
  destruct (send_maps env called (bootstrap_maps env)) as [[]|e];
    [|reflexivity].
  rewrite run_log. simpl. rewrite <- !app_assoc. reflexivity.
Qed.

Lemma new_client_id_part_keeps_state (wrapper : json) (w : World) :
  _active_client_state (client (snd (new_client_id_part env wrapper w)))
  = _active_client_state (client w).
Proof.
  unfold new_client_id_part. rewrite run_bind. unfold lift at 1.
  destruct (contains_str "3" wrapper) as [[|]|e]; try reflexivity.
  cbv beta iota. rewrite run_bind. unfold lift at 1.
  destruct (getitem_str wrapper "3") as [w3|e]; [|reflexivity].
  cbv beta iota. rewrite run_bind. unfold lift at 1.
  destruct (getitem_str w3 "2") as [cid|e]; [|reflexivity].
  cbv beta iota.
  rewrite run_bind, run_assign. cbv beta iota.
  rewrite run_bind, run_log. cbv beta iota.
  unfold _add_channel_services.
  rewrite run_bind, run_log. cbv beta iota. cbv zeta.
  rewrite run_bind, await_pure. cbv zeta.
  destruct (send_maps env _ _) as [[]|e]; reflexivity.
Qed.

End Dispatcher.

(** C1, amended. A push frame whose event payload starts with 'cbu' and
    decodes to the records r1..rn, the new-client_id part of the frame, if
    there is one, completing, and every subscriber returning without
    writing the client's active state: the dispatcher returns, and what the
    subscribers saw is, record after record in the order of the batch, each
    observer called with the record while the client's active state already
    is the one the record reports, and done with it before the next call;
    after the batch the client's active state is the one the last record
    reports, and for an empty batch the one it was. *)
Theorem batch_updates_dispatched_in_order
    `{!Constants} `{!Pblite} (env : Externals) (array : json)
    (wrapper : gmap string json) (message m0 : json) (batch : BatchUpdate)
    (w : World) :
  push_frame env array wrapper ->
  event_payload env wrapper message ->
  getitem_0 message = Ok m0 ->
  is_str "cbu" m0 = true ->
  pblite_decode (pb_new : BatchUpdate) message true = Ok batch ->
  observers_return env ->
  fst (new_client_id_part env (JObj wrapper) w) = Ok tt ->
  exists w' evs,
    _on_receive_array env array w = (Ok tt, w')
    /\ trace w' = trace w ++ evs
    /\ deliveries evs
       = deliveries_of_batch (length (observers env)) (state_update batch)
    /\ _active_client_state (client w')
       = match last (state_update batch) with
         | Some su => Some (reported su)
         | None => _active_client_state (client w)
         end.
Proof.
  intros Hframe Hpay Hm0 Hcbu Hdec Hobs Hid.
  rewrite (_on_receive_array_push_frame env array wrapper w Hframe).
  rewrite run_bind.
  pose proof (new_client_id_part_keeps_state env (JObj wrapper) w) as Hkeep.
  destruct (new_client_id_part_emits env (JObj wrapper) w)
    as (evs0 & Htr0 & Hall0).
  destruct (new_client_id_part env (JObj wrapper) w) as [[[]|e] w1];
    simpl in Hid, Hkeep, Htr0; [|discriminate].
  rewrite (state_update_part_batch env wrapper message m0 batch w1
             Hpay Hm0 Hcbu Hdec).
  destruct (batch_returns env (state_update batch) Hobs w1)
    as (w' & evs & Hrun & Htr & Hst & Hdel).
  exists w', (evs0 ++ evs). split; [exact Hrun|].
  split; [rewrite Htr, Htr0, app_assoc; reflexivity|].
  split.
  - rewrite deliveries_app, Hdel.
    rewrite (of_kinds_deliveries_nil [KLog; KSendMaps] evs0); [reflexivity| |exact Hall0].
    set_solver.
  - rewrite Hst, Hkeep. reflexivity.
Qed.

(** C8, amended. A push frame whose event payload has a first element.
    When that element is anything but 'cbu' (for a payload that is a string,
    its first character), the state-update part logs that it ignores the
    message, returns, and leaves the client as it is; no record is delivered
    and the active state stays; without a new client_id in the frame the
    dispatcher as a whole does just that.  When the payload has no first
    element to read (an empty array or an empty string, a dictionary, a
    number, a boolean or [None]), nothing is logged and nothing is ignored:
    the state-update part raises the error of that subscript, [IndexError],
    [KeyError] or [TypeError], and leaves the world as it is, and so does
    the dispatcher as a whole unless the new-client_id part of the frame has
    raised before; no record is delivered and the active state stays. *)
Theorem unknown_marker_is_logged_and_ignored
    `{!Constants} `{!Pblite} (env : Externals) (array : json)
    (wrapper : gmap string json) (message : json) (w : World) :
  push_frame env array wrapper ->
  event_payload env wrapper message ->
  (forall m0,
      getitem_0 message = Ok m0 ->
      is_str "cbu" m0 = false ->
      (forall w1,
          state_update_part env (JObj wrapper) w1
          = (Ok tt, {| client := client w1;
                       trace := trace w1 ++ [EvLog Info "Ignoring message: %r"
                                                   [ArgJson m0]] |}))
      /\ (wrapper !! "3" = None ->
          _on_receive_array env array w
          = (Ok tt, {| client := client w;
                       trace := trace w ++ [EvLog Info "Ignoring message: %r"
                                                  [ArgJson m0]] |}))
      /\ (exists evs,
            trace (snd (_on_receive_array env array w)) = trace w ++ evs
            /\ deliveries evs = []
            /\ _active_client_state
                 (client (snd (_on_receive_array env array w)))
               = _active_client_state (client w)))
  /\ (forall e,
        getitem_0 message = Raise e ->
        (e = IndexError \/ e = KeyError "0" \/ e = TypeError)
        /\ (forall w1, state_update_part env (JObj wrapper) w1 = (Raise e, w1))
        /\ (wrapper !! "3" = None ->
            _on_receive_array env array w = (Raise e, w))
        /\ (fst (new_client_id_part env (JObj wrapper) w) = Ok tt ->
            fst (_on_receive_array env array w) = Raise e)
        /\ (exists evs,
              trace (snd (_on_receive_array env array w)) = trace w ++ evs
              /\ deliveries evs = []
              /\ _active_client_state
                   (client (snd (_on_receive_array env array w)))
                 = _active_client_state (client w))).
Proof.
  intros Hframe Hpay.
  pose proof (new_client_id_part_keeps_state env (JObj wrapper) w) as Hkeep.
  destruct (new_client_id_part_emits env (JObj wrapper) w)
    as (evs0 & Htr0 & Hall0).
  assert (Hnone : deliveries evs0 = []).
  { apply (of_kinds_deliveries_nil [KLog; KSendMaps]); [set_solver|exact Hall0]. }
  split.
  - intros m0 Hm0 Hcbu. split; [|split].
    + intros w1. apply (state_update_part_other env wrapper message m0 w1);
        assumption.
    + intros H3.
      rewrite (_on_receive_array_push_frame env array wrapper w Hframe).
      rewrite (run_bind_ok _ _ _ _ _
                 (new_client_id_part_absent env wrapper w H3)).
      apply (state_update_part_other env wrapper message m0 w); assumption.
    + rewrite (_on_receive_array_push_frame env array wrapper w Hframe).
      rewrite run_bind.
      destruct (new_client_id_part env (JObj wrapper) w) as [[[]|e] w1];
        simpl in Hkeep, Htr0.
      * rewrite (state_update_part_other env wrapper message m0 w1
                   Hpay Hm0 Hcbu).
        simpl.
        exists (evs0 ++ [EvLog Info "Ignoring message: %r" [ArgJson m0]]).
        split; [rewrite Htr0, app_assoc; reflexivity|].
        split; [rewrite deliveries_app, Hnone; reflexivity|exact Hkeep].
      * simpl. exists evs0. auto.
  - intros e He.
    assert (Hpart : forall w1,
              state_update_part env (JObj wrapper) w1 = (Raise e, w1)).
    { intros w1.
      rewrite (state_update_part_message env wrapper message w1 Hpay).
      rewrite run_bind. unfold lift at 1. rewrite He. reflexivity. }
    split; [|split; [exact Hpart|split; [|split]]].
    + destruct message as [| | | |[|a s]|[|x xs]|m]; simpl in He;
        try discriminate; injection He as <-; auto.
    + intros H3.
      rewrite (_on_receive_array_push_frame env array wrapper w Hframe).
      rewrite (run_bind_ok _ _ _ _ _
                 (new_client_id_part_absent env wrapper w H3)).
      apply Hpart.
    + intros Hid.
      rewrite (_on_receive_array_push_frame env array wrapper w Hframe).
      rewrite run_bind.
      destruct (new_client_id_part env (JObj wrapper) w) as [[[]|e'] w1];
        simpl in Hid; [|discriminate].
      rewrite Hpart. reflexivity.
    + rewrite (_on_receive_array_push_frame env array wrapper w Hframe).
      rewrite run_bind.
      destruct (new_client_id_part env (JObj wrapper) w) as [[[]|e'] w1];
        simpl in Hkeep, Htr0.
      * rewrite Hpart. simpl. exists evs0. auto.
      * simpl. exists evs0. auto.
Qed.

(** C2. A push frame whose wrapper has a new client_id under tag '3': the
    dispatcher stores it, and with it stored calls [send_maps] with the one
    map that adds the channel services, once for the frame; whatever else
    the frame adds to the trace comes after that call, and only after the
    call has returned; if the call raises, the dispatcher raises with it and
    the frame adds nothing more; whatever later frames add comes after
    all of this. *)
Theorem new_client_id_bootstraps_before_events
    `{!Constants} `{!Pblite} (env : Externals) (array : json)
    (wrapper w3 : gmap string json) (client_id : json) (later : list json)
    (w : World) :
  push_frame env array wrapper ->
  wrapper !! "3" = Some (JObj w3) ->
  w3 !! "2" = Some client_id ->
  let stored := set_client_id client_id (client w) in
  let called := trace w ++ bootstrap_events env client_id stored in
  let after := snd (_on_receive_array env array w) in
  _client_id stored = client_id
  /\ (exists evs,
        trace after = called ++ evs
        /\ count is_send_maps (bootstrap_events env client_id stored ++ evs)
           = 1%nat
        /\ match send_maps env called (bootstrap_maps env) with
           | Ok _ =>
               exists evs',
                 evs = EvDone (CSendMaps (bootstrap_maps env))
                       :: EvLog Info "Channel services added" [] :: evs'
           | Raise e =>
               evs = [] /\ fst (_on_receive_array env array w) = Raise e
           end)
  /\ (exists evs_later,
        trace (snd (receive_frames env (array :: later) w))
        = trace after ++ evs_later).
Proof.
  intros Hframe H3 H2 stored called after.
  split; [reflexivity|]. split.
  - unfold after.
    rewrite (_on_receive_array_push_frame env array wrapper w Hframe).
    rewrite run_bind.
    rewrite (new_client_id_part_present env wrapper w3 client_id w H3 H2).
    cbv zeta. fold stored. fold called.
    destruct (send_maps env called (bootstrap_maps env)) as [[]|e].
    + destruct (state_update_part_emits env (JObj wrapper)
                  {| client := stored;
                     trace := called
                              ++ [EvDone (CSendMaps (bootstrap_maps env));
                                  EvLog Info "Channel services added" []] |})
        as (evs2 & Htr2 & Hall2).
      exists ([EvDone (CSendMaps (bootstrap_maps env));
               EvLog Info "Channel services added" []] ++ evs2).
      split; [rewrite Htr2; simpl; rewrite <- !app_assoc; reflexivity|].
      split; [|simpl; eauto].
      unfold bootstrap_events. rewrite !count_app, !count_cons, count_nil. simpl.
      rewrite (of_kinds_count_zero [KLog; KObserver] is_send_maps evs2);
        [reflexivity| |exact Hall2].
      intros [| | |[]|[]]; simpl; try discriminate. set_solver.
    + exists []. simpl. rewrite app_nil_r. split; [reflexivity|].
      split; [|split; reflexivity].
      unfold bootstrap_events. rewrite !count_cons, count_nil. reflexivity.
  - unfold after, receive_frames. simpl for_each. rewrite run_bind.
    destruct (_on_receive_array env array w) as [[[]|e] w1]; simpl.
    + destruct (receive_frames_emits env later w1) as (evs & Htr & _).
      exists evs. exact Htr.
    + exists []. rewrite app_nil_r. reflexivity.
Qed.

Section DispatcherExamples.
Import Double.

Lemma quiet_observers_return (clock : nat -> Q) (server : string -> outcome string)
    (n : nat) (entropy : Z) :
  observers_return (externals clock server (replicate n quiet) entropy).
Proof.
  unfold observers_return. simpl. induction n as [|n IH]; simpl.
  - constructor.
  - constructor; [|exact IH]. intros tr su cl. exists cl. split; reflexivity.
Qed.

(** C1 as stated fails.  A batch of two records and two subscribers, the
    first of which raises: the dispatcher raises, the first record has
    reached the first subscriber only, the second record nobody, and the
    active state is the one the first record reports, not the last.  And a
    frame with the same batch whose tag '3' is a string: the dispatcher
    raises [TypeError] before the batch, and the active state stays
    unset. *)
Lemma batch_not_always_delivered :
  let boom : list Event -> StateUpdate -> Client -> outcome unit * Client :=
    λ _ _ cl, (Raise (OtherError "boom"), cl) in
  let env := externals (λ _, 0%Q) offline [boom; quiet] 0 in
  let after := _on_receive_array env (frame (wrapper_events payload_cbu)) fresh in
  fst after = Raise (OtherError "boom")
  /\ deliveries (trace (snd after)) = [Called 0 (record 1) (Some 1)]
  /\ _active_client_state (client (snd after)) = Some 1
  /\ _active_client_state (client (snd after)) <> Some (reported (record 2))
  /\ fst (_on_receive_array (DoubleRequests.externals offline 0)
            (frame DoubleRequests.wrapper_bad_id) fresh)
     = Raise TypeError
  /\ _active_client_state
       (client (snd (_on_receive_array (DoubleRequests.externals offline 0)
                       (frame DoubleRequests.wrapper_bad_id) fresh)))
     = None.
Proof.
  intros boom env after.
  assert (E : after
              = (Raise (OtherError "boom"),
                 {| client := set_active_client_state (Some 1) (client fresh);
                    trace := [ EvLog Debug "Received StateUpdate:\n%s"
                                 [ArgStateUpdate (record 1)];
                               EvCall (CObserver 0 (record 1))
                                 (set_active_client_state (Some 1)
                                    (client fresh)) ] |}))
    by (vm_compute; reflexivity).
  rewrite E. simpl fst. simpl snd.
  split; [reflexivity|]. split; [reflexivity|]. split; [reflexivity|].
  split; [discriminate|]. split; vm_compute; reflexivity.
Qed.

(** C1 on an example: a frame with a new client_id and a batch of two
    records, and two subscribers. *)
Lemma batch_updates_dispatched_in_order_witness :
  let env := externals (λ _, 0%Q) offline (replicate 2 quiet) 0 in
  exists w',
    _on_receive_array env (frame (wrapper_both payload_cbu)) fresh = (Ok tt, w')
    /\ deliveries (trace w')
       = [ Called 0 (record 1) (Some 1); Finished 0 (record 1);
           Called 1 (record 1) (Some 1); Finished 1 (record 1);
           Called 0 (record 2) (Some 2); Finished 0 (record 2);
           Called 1 (record 2) (Some 2); Finished 1 (record 2) ]
    /\ _active_client_state (client w') = Some 2.
Proof.
  intros env.
  destruct (batch_updates_dispatched_in_order env
              (frame (wrapper_both payload_cbu)) wrapper_both_value
              message_cbu (JStr "cbu")
              {| state_update := [record 1; record 2] |} fresh)
    as (w' & evs & Hrun & Htr & Hdel & Hst).
  - exists {[ "p" := JStr (wrapper_both payload_cbu) ]}, [],
           (wrapper_both payload_cbu).
    split; [reflexivity|]. split; vm_compute; reflexivity.
  - exists {[ "2" := JStr payload_cbu ]}, payload_cbu.
    split; [vm_compute; reflexivity|]. split; vm_compute; reflexivity.
  - reflexivity.
  - vm_compute. reflexivity.
  - vm_compute. reflexivity.
  - apply quiet_observers_return.
  - vm_compute. reflexivity.
  - exists w'. split; [exact Hrun|]. simpl in Htr. subst evs.
    split; [rewrite Hdel; vm_compute; reflexivity|].
    rewrite Hst. vm_compute. reflexivity.
Defined.

(** C8, amended, on an example: the payload starts with 'xyz'. *)
Lemma unknown_marker_is_logged_and_ignored_witness :
  let env := externals (λ _, 0%Q) offline (replicate 2 quiet) 0 in
  _on_receive_array env (frame (wrapper_events payload_other)) fresh
  = (Ok tt, {| client := client fresh;
               trace := [EvLog Info "Ignoring message: %r"
                               [ArgJson (JStr "xyz")]] |}).
Proof.
  intros env.
  destruct (unknown_marker_is_logged_and_ignored env
              (frame (wrapper_events payload_other))
              {[ "2" := JObj {[ "2" := JStr payload_other ]} ]}
              (JArr [JStr "xyz"]) fresh)
    as (Hother & _).
  - exists {[ "p" := JStr (wrapper_events payload_other) ]}, [],
           (wrapper_events payload_other).
    split; [reflexivity|]. split; vm_compute; reflexivity.
  - exists {[ "2" := JStr payload_other ]}, payload_other.
    split; [vm_compute; reflexivity|]. split; vm_compute; reflexivity.
  - destruct (Hother (JStr "xyz") eq_refl eq_refl) as (_ & Hrun & _).
    apply Hrun. vm_compute. reflexivity.
Defined.

(** C8 as stated fails: a push frame whose event payload is the empty
    array is not ignored, the dispatcher raises [IndexError] on its first
    element. *)
Lemma malformed_payload_raises :
  let env := externals (λ _, 0%Q) offline (replicate 2 quiet) 0 in
  fst (_on_receive_array env (frame (wrapper_events payload_empty)) fresh)
  = Raise IndexError
  /\ fst (_on_receive_array env (frame (wrapper_events payload_empty)) fresh)
     <> Ok tt.
Proof.
  intros env.
  assert (E : fst (_on_receive_array env
                     (frame (wrapper_events payload_empty)) fresh)
              = Raise IndexError) by (vm_compute; reflexivity).
  split; [exact E|]. rewrite E. discriminate.
Qed.

(** C2 on an example: a frame with a new client_id and a batch. *)
Lemma new_client_id_bootstraps_before_events_witness :
  let env := externals (λ _, 0%Q) offline (replicate 2 quiet) 0 in
  let stored := set_client_id (JStr "sess-42") (client fresh) in
  exists evs,
    trace (snd (_on_receive_array env (frame (wrapper_both payload_cbu)) fresh))
    = bootstrap_events env (JStr "sess-42") stored ++ evs
    /\ count is_send_maps (bootstrap_events env (JStr "sess-42") stored ++ evs)
       = 1%nat.
Proof.
  intros env stored.
  destruct (new_client_id_bootstraps_before_events env
              (frame (wrapper_both payload_cbu)) wrapper_both_value
              {[ "2" := JStr "sess-42" ]} (JStr "sess-42") [] fresh)
    as (_ & (evs & Htr & Hcount & _) & _).
  - exists {[ "p" := JStr (wrapper_both payload_cbu) ]}, [],
           (wrapper_both payload_cbu).
    split; [reflexivity|]. split; vm_compute; reflexivity.
  - vm_compute. reflexivity.
  - vm_compute. reflexivity.
  - exists evs. split; [exact Htr|exact Hcount].
Defined.

(** The scenario of two frames: the first brings the client_id "sess-42",
    the second a batch of two records.  The channel services are added
    once, the two records are delivered in order, and the client ends with
    the state the second record reports. *)
Example new_client_id_then_batch :
  let env := externals (λ _, 0%Q) offline [quiet] 0 in
  let w' := snd (receive_frames env [ frame wrapper_new_id;
                                      frame (wrapper_events payload_cbu) ]
                   fresh) in
  count is_send_maps (trace w') = 1%nat
  /\ deliveries (trace w')
     = [ Called 0 (record 1) (Some 1); Finished 0 (record 1);
         Called 0 (record 2) (Some 2); Finished 0 (record 2) ]
  /\ _client_id (client w') = JStr "sess-42"
  /\ _active_client_state (client w') = Some 2.
Proof. vm_compute. repeat split. Qed.

End DispatcherExamples.

(** ** The requests of [set_active] *)

Lemma same_session_refl (c : Client) : same_session c c.
Proof. repeat split. Qed.

Lemma same_session_trans (c1 c2 c3 : Client) :
  same_session c1 c2 -> same_session c2 c3 -> same_session c1 c3.
Proof.
  intros (Ha & Hb & Hc & Hd) (Ha' & Hb' & Hc' & Hd').
  repeat split; congruence.
Qed.

Lemma rpc_tail_event_count_zero (endpoint : string) (c : Client)
    (p : Event -> bool) (tail : list Event) :
  (forall ev, rpc_tail_event endpoint c ev -> p ev = false) ->
  Forall (rpc_tail_event endpoint c) tail -> count p tail = 0%nat.
Proof.
  intros Hp Hall. induction Hall as [|ev tail Hev _ IH]; [reflexivity|].
  rewrite count_cons, IH, (Hp ev Hev). reflexivity.
Qed.

Lemma rpc_tail_event_not_rpc (endpoint endpoint' : string) (c : Client)
    (ev : Event) :
  rpc_tail_event endpoint c ev -> is_rpc_of endpoint' ev = false.
Proof.
  destruct ev as [lvl fmt [|[] args]| | | |]; simpl; try tauto;
    destruct lvl; reflexivity.
Qed.

Lemma rpc_tail_event_fetch_of (endpoint : string) (c : Client) (ev : Event) :
  rpc_tail_event endpoint c ev ->
  is_fetch_of (chat_url endpoint) ev = is_fetch ev.
Proof.
  destruct ev as [lvl fmt args| | |[]|[]]; simpl; try tauto.
  intros [Hurl _]. rewrite bool_decide_eq_true_2; [reflexivity|exact Hurl].
Qed.

Section SetActive.
Context `{!Constants} `{!Pblite} (env : Externals).

(** One call of [_pb_request]: the client stays, and the trace grows by the
    first log entry and a tail with at most one fetch, exactly one when the
    cookies are there. *)
Lemma _pb_request_run {Req Resp : Type}
    `{!PbMessage Req} `{!PbMessage Resp} `{!PbResponse Resp}
    (endpoint : string) (request_pb : Req) (response_pb : Resp) (w : World) :
  exists r tail,
    _pb_request env endpoint request_pb response_pb w
    = (r, {| client := client w;
             trace := trace w
                      ++ sending endpoint (pblite_encode request_pb) :: tail |})
    /\ (count is_fetch tail <= 1)%nat
    /\ (Forall (λ n, is_Some (_cookies (client w) !! n)) required_cookies ->
        count is_fetch tail = 1%nat)
    /\ Forall (rpc_tail_event endpoint (client w)) tail.
Proof.
  destruct (_pb_request_cases env endpoint request_pb response_pb w)
    as [(m & Hm & Hl & Hr)|(Hall & req & Hurl & Hr)].
  - exists (Raise (cookie_error m)), []. rewrite Hr.
    split; [reflexivity|]. split; [rewrite count_nil; lia|].
    split; [|constructor].
    intros Hall. rewrite Forall_forall in Hall.
    destruct (Hall m Hm) as [v Hv]. congruence.
  - cbv zeta in Hr.
    destruct (http_fetch env _ req) as [res|e].
    + destruct (decode_response env response_pb res) as [decoded|e].
      * eexists _, [EvCall (CFetch req) (client w); EvDone (CFetch req);
                    received (pblite_encode decoded)].
        rewrite Hr. rewrite <- !app_assoc. simpl.
        split; [reflexivity|].
        rewrite !count_cons, count_nil. simpl.
        split; [lia|]. split; [reflexivity|].
        repeat constructor; simpl; auto.
      * eexists _, [EvCall (CFetch req) (client w); EvDone (CFetch req)].
        rewrite Hr. rewrite <- !app_assoc. simpl.
        split; [reflexivity|].
        rewrite !count_cons, count_nil. simpl.
        split; [lia|]. split; [reflexivity|].
        repeat constructor; simpl; auto.
    + eexists _, [EvCall (CFetch req) (client w)].
      rewrite Hr. rewrite <- !app_assoc. simpl.
      split; [reflexivity|].
      rewrite !count_cons, count_nil. simpl.
      split; [lia|]. split; [reflexivity|].
      repeat constructor; simpl; auto.
Qed.

Lemma rpc_run_session (endpoint : string) (c c2 : Client) (evs : list Event) :
  same_session c c2 -> rpc_run endpoint c2 evs -> rpc_run endpoint c evs.
Proof.
  intros Hs (request & c' & tail & Hevs & Hs' & Hle & Heq & Hall).
  exists request, c', tail. split; [exact Hevs|].
  split; [eapply same_session_trans; eassumption|].
  split; [exact Hle|]. split; [|exact Hall].
  intros Hcookies. apply Heq. destruct Hs as (Hck & _). rewrite Hck.
  exact Hcookies.
Qed.

Lemma rpc_run_snoc (endpoint : string) (c : Client) (evs : list Event)
    lvl fmt args :
  match args with ArgStr _ :: _ => False | _ => True end ->
  rpc_run endpoint c evs -> rpc_run endpoint c (evs ++ [EvLog lvl fmt args]).
Proof.
  intros Hargs (request & c' & tail & Hevs & Hs' & Hle & Heq & Hall).
  exists request, c', (tail ++ [EvLog lvl fmt args]). subst evs.
  split; [reflexivity|]. split; [exact Hs'|].
  rewrite count_app, count_cons, count_nil. simpl.
  split; [lia|]. split; [intros Hc; rewrite (Heq Hc); reflexivity|].
  apply Forall_app. split; [exact Hall|].
  repeat constructor. destruct args as [|[] args]; simpl; tauto.
Qed.

(** The header is built or the build raises [TypeError]; the session, the
    email address and the trace stay. *)
Lemma _get_request_header_pb_session (w : World) :
  exists r c',
    _get_request_header_pb w = (r, {| client := c'; trace := trace w |})
    /\ same_session (client w) c'
    /\ _email c' = _email (client w)
    /\ match _client_id (client w) with
       | JNull | JStr _ => exists h, r = Ok h
       | _ => r = Raise TypeError
       end.
Proof.
  unfold _get_request_header_pb. rewrite run_bind. simpl.
  destruct (_client_id (client w)) eqn:E;
    try (exists (Raise TypeError), (client w); rewrite world_eta;
         repeat split; reflexivity).
  - eexists _, (client w). rewrite world_eta.
    split; [reflexivity|]. repeat split. eauto.
  - eexists _, _. split; [reflexivity|].
    repeat split; simpl; eauto.
Qed.

(** A request method: the header, then [_pb_request]. *)
Lemma request_method_run {Req Resp : Type}
    `{!PbMessage Req} `{!PbMessage Resp} `{!PbResponse Resp}
    (endpoint : string) (request : RequestHeader -> Client -> Req)
    (response : Resp) (w : World) :
  exists r w' evs,
    (request_header ← _get_request_header_pb;
     c ← get_client;
     _pb_request env endpoint (request request_header c) response) w = (r, w')
    /\ trace w' = trace w ++ evs
    /\ same_session (client w) (client w')
    /\ _email (client w') = _email (client w)
    /\ match _client_id (client w) with
       | JNull | JStr _ => rpc_run endpoint (client w) evs
       | _ => evs = [] /\ r = Raise TypeError
       end.
Proof.
  destruct (_get_request_header_pb_session w)
    as (rh & c' & Hrun & Hs & Hemail & Hcases).
  rewrite run_bind, Hrun.
  assert (Hgo : forall h, rh = Ok h ->
    exists r w' evs,
      match rh with
      | Ok a =>
          (c ← get_client; _pb_request env endpoint (request a c) response)
            {| client := c'; trace := trace w |}
      | Raise e => (Raise e, {| client := c'; trace := trace w |})
      end = (r, w')
      /\ trace w' = trace w ++ evs
      /\ same_session (client w) (client w')
      /\ _email (client w') = _email (client w)
      /\ rpc_run endpoint (client w) evs).
  { intros h ->. rewrite run_bind. simpl.
    destruct (_pb_request_run endpoint (request h c') response
                {| client := c'; trace := trace w |})
      as (r & tail & Hr & Hle & Heq & Hall).
    simpl in Hr, Hall, Heq. rewrite Hr.
    eexists r, _, _. split; [reflexivity|]. simpl.
    split; [reflexivity|]. split; [exact Hs|]. split; [exact Hemail|].
    eexists _, c', tail. split; [reflexivity|]. split; [exact Hs|].
    split; [exact Hle|]. split; [|exact Hall].
    intros Hc. apply Heq. destruct Hs as (Hck & _). rewrite Hck. exact Hc. }
  destruct (_client_id (client w));
    try (subst rh; eexists _, _, []; split; [reflexivity|]; simpl;
         rewrite app_nil_r; repeat split; try apply Hs; try exact Hemail).
  - destruct Hcases as [h Hh]. exact (Hgo h Hh).
  - destruct Hcases as [h Hh]. exact (Hgo h Hh).
Qed.

Lemma getselfinfo_run (w : World) :
  exists r w' evs,
    getselfinfo env w = (r, w')
    /\ trace w' = trace w ++ evs
    /\ same_session (client w) (client w')
    /\ _email (client w') = _email (client w)
    /\ match _client_id (client w) with
       | JNull | JStr _ => rpc_run "contacts/getselfinfo" (client w) evs
       | _ => evs = [] /\ r = Raise TypeError
       end.
Proof.
  unfold getselfinfo.
  destruct (request_method_run "contacts/getselfinfo"
              (λ h _, {| gsi_request_header := h |})
              (pb_new : GetSelfInfoResponse) w)
    as (r & w' & evs & Hrun & Hrest).
  exists r, w', evs. split; [|exact Hrest].
  rewrite <- Hrun. rewrite !run_bind.
  destruct (_get_request_header_pb w) as [[h|e] w1]; reflexivity.
Qed.

Lemma setactiveclient_run (is_active : bool) (timeout_secs : Z) (w : World) :
  exists r w' evs,
    setactiveclient env is_active timeout_secs w = (r, w')
    /\ trace w' = trace w ++ evs
    /\ same_session (client w) (client w')
    /\ _email (client w') = _email (client w)
    /\ match _client_id (client w) with
       | JNull | JStr _ => rpc_run "clients/setactiveclient" (client w) evs
       | _ => evs = [] /\ r = Raise TypeError
       end.
Proof.
  unfold setactiveclient.
  exact (request_method_run "clients/setactiveclient"
           (λ h c, {| sac_request_header := h;
                      is_active := is_active;
                      full_jid := match _email c with
                                  | Some e => e
                                  | None => "None"
                                  end +:+ "/" +:+ str env (_client_id c);
                      timeout_secs := timeout_secs |})
           (pb_new : SetActiveClientResponse) w).
Qed.

Lemma set_active_unfold (w : World) :
  set_active env w
  = if needs_call env w
    then set_active_requests env (optimistic env w)
    else (Ok tt, {| client := client w;
                    trace := trace w ++ [EvTime (time_time env (trace w))] |}).
Proof.
  unfold set_active, needs_call, optimistic, time_now. run_monad.
  destruct (negb _ || _); reflexivity.
Qed.

(** Lines 154 to 168: nothing but a log entry without a client_id, one
    request with one. *)
Lemma set_active_client_part_run (w : World) :
  exists r w' evs,
    set_active_client_part env w = (r, w')
    /\ trace w' = trace w ++ evs
    /\ same_session (client w) (client w')
    /\ _email (client w') = _email (client w)
    /\ match _client_id (client w) with
       | JNull =>
           r = Ok tt
           /\ evs = [EvLog Info
                      "Cannot set active client until client_id is received"
                      []]
       | JStr _ => rpc_run "clients/setactiveclient" (client w) evs
       | _ => evs = [] /\ r = Raise TypeError
       end.
Proof.
  unfold set_active_client_part. rewrite run_bind.
  unfold get_client at 1. cbv beta iota.
  destruct (setactiveclient_run true ACTIVE_TIMEOUT_SECS w)
    as (r & w' & evs & Hrun & Htr & Hs & Hemail & Hcases).
  unfold try_except_NetworkError.
  destruct (_client_id (client w)) eqn:E; cbn [is_none]; try rewrite Hrun;
    try (destruct Hcases as [-> ->];
         exists (Raise TypeError), w', []; repeat split;
         solve [exact Htr|apply Hs|exact Hemail]).
  - eexists _, _, _. rewrite run_log. split; [reflexivity|]. simpl.
    split; [reflexivity|]. split; [apply same_session_refl|].
    repeat split.
  - destruct r as [a|e].
    + rewrite run_log. eexists _, _, _. split; [reflexivity|]. simpl.
      rewrite Htr, <- app_assoc.
      split; [reflexivity|]. split; [exact Hs|]. split; [exact Hemail|].
      apply rpc_run_snoc; [exact I|exact Hcases].
    + destruct e;
        try (eexists _, _, _; split; [reflexivity|];
             split; [exact Htr|]; split; [exact Hs|];
             split; [exact Hemail|exact Hcases]).
      rewrite run_log. eexists _, _, _. split; [reflexivity|]. simpl.
      rewrite Htr, <- app_assoc.
      split; [reflexivity|]. split; [exact Hs|]. split; [exact Hemail|].
      apply rpc_run_snoc; [exact I|exact Hcases].
Qed.

Lemma assertion_shape_session (c c2 : Client) (evs : list Event) :
  same_session c c2 -> assertion_shape c2 evs -> assertion_shape c evs.
Proof.
  intros Hs [->|Hshape]; [left; reflexivity|].
  right. pose proof Hs as (_ & Hid & _). rewrite Hid in Hshape.
  destruct (_client_id c); try exact Hshape.
  apply (rpc_run_session _ c c2); assumption.
Qed.

Lemma set_active_client_part_shape (w : World) :
  exists r w' evs,
    set_active_client_part env w = (r, w')
    /\ trace w' = trace w ++ evs
    /\ same_session (client w) (client w')
    /\ _email (client w') = _email (client w)
    /\ assertion_shape (client w) evs
    /\ (forall s, _client_id (client w) = JStr s ->
        rpc_run "clients/setactiveclient" (client w) evs).
Proof.
  destruct (set_active_client_part_run w)
    as (r & w' & evs & Hrun & Htr & Hs & Hemail & Hcases).
  exists r, w', evs. split; [exact Hrun|]. split; [exact Htr|].
  split; [exact Hs|]. split; [exact Hemail|].
  unfold assertion_shape.
  destruct (_client_id (client w)) eqn:E;
    (split; [|intros s' Hs'; try discriminate; try exact Hcases]);
    try (left; apply Hcases); right; try apply Hcases; exact Hcases.
Qed.

(** Lines 141 to 168: what the identity lookup adds, then what the
    assertion adds. *)
Lemma set_active_requests_run (w : World) :
  exists r w' lookup assertion,
    set_active_requests env w = (r, w')
    /\ trace w' = trace w ++ lookup ++ assertion
    /\ same_session (client w) (client w')
    /\ (forall e, _email (client w) = Some e -> _email (client w') = Some e)
    /\ match _email (client w) with
       | Some _ => lookup = []
       | None =>
           lookup = [] \/ rpc_run "contacts/getselfinfo" (client w) lookup
       end
    /\ assertion_shape (client w) assertion
    /\ (forall e s,
          _email (client w) = Some e -> _client_id (client w) = JStr s ->
          rpc_run "clients/setactiveclient" (client w) assertion).
Proof.
  unfold set_active_requests. rewrite run_bind.
  unfold get_client at 1. cbv beta iota.
  destruct (_email (client w)) as [e|] eqn:Ee.
  - destruct (set_active_client_part_shape w)
      as (r & w' & evs & Hrun & Htr & Hs & Hemail & Hshape & Hrpc).
    exists r, w', [], evs. split; [exact Hrun|]. split; [exact Htr|].
    split; [exact Hs|].
    split; [intros e' Heq; rewrite Hemail, Ee; exact Heq|].
    split; [reflexivity|]. split; [exact Hshape|].
    intros e' s _ Hid. exact (Hrpc s Hid).
  - destruct (getselfinfo_run w)
      as (r & w1 & evs1 & Hrun & Htr & Hs & Hemail & Hcases).
    assert (Hlookup : evs1 = []
                      \/ rpc_run "contacts/getselfinfo" (client w) evs1).
    { destruct (_client_id (client w)); try (left; apply Hcases);
        right; exact Hcases. }
    assert (Hok : forall resp, r = Ok resp ->
                  rpc_run "contacts/getselfinfo" (client w) evs1).
    { intros resp ->. destruct (_client_id (client w));
        try exact Hcases; destruct Hcases as [_ Hr]; discriminate. }
    unfold try_except_NetworkError. rewrite Hrun.
    destruct r as [resp|ex].
    + destruct (email (properties (self_entity resp))) as [|e0 rest].
      * exists (Raise IndexError), w1, evs1, []. rewrite app_nil_r.
        split; [reflexivity|]. split; [exact Htr|]. split; [exact Hs|].
        split; [discriminate|]. split; [right; eapply Hok; reflexivity|].
        split; [left; reflexivity|discriminate].
      * rewrite run_bind, run_assign. cbv beta iota.
        destruct (set_active_client_part_shape
                    {| client := set_email (Some e0) (client w1);
                       trace := trace w1 |})
          as (r2 & w' & evs2 & Hrun2 & Htr2 & Hs2 & Hemail2 & Hshape2 & _).
        simpl in Htr2, Hs2.
        assert (Hs1 : same_session (client w) (set_email (Some e0) (client w1))).
        { destruct Hs as (Ha & Hb & Hc & Hd). repeat split; assumption. }
        exists r2, w', evs1, evs2. split; [exact Hrun2|].
        split; [rewrite Htr2, Htr, app_assoc; reflexivity|].
        split; [eapply same_session_trans; eassumption|].
        split; [discriminate|]. split; [right; eapply Hok; reflexivity|].
        split; [|discriminate].
        exact (assertion_shape_session _ _ _ Hs1 Hshape2).
    + destruct ex;
        try (eexists _, w1, evs1, []; rewrite app_nil_r;
             split; [reflexivity|]; split; [exact Htr|]; split; [exact Hs|];
             split; [discriminate|]; split; [exact Hlookup|];
             split; [left; reflexivity|discriminate]).
      rewrite run_log.
      eexists _, _, (evs1 ++ [EvLog Warning "Failed to find email address: {}"
                                    [ArgExn (NetworkError msg)]]), [].
      rewrite app_nil_r. split; [reflexivity|]. simpl.
      split; [rewrite Htr, app_assoc; reflexivity|]. split; [exact Hs|].
      split; [discriminate|]. split; [|split; [left; reflexivity|discriminate]].
      destruct Hlookup as [->|Hrpc].
      * destruct (_client_id (client w));
          try (destruct Hcases as [_ Hr]; discriminate);
          right; (apply rpc_run_snoc; [exact I|exact Hcases]).
      * right. apply rpc_run_snoc; [exact I|exact Hrpc].
Qed.

(** *** Counting in the shapes *)

Lemma is_rpc_of_sending (endpoint endpoint' : string) (request : json) :
  is_rpc_of endpoint' (sending endpoint request)
  = bool_decide (endpoint = endpoint').
Proof. reflexivity. Qed.

Lemma rpc_run_fetch_le (endpoint : string) (c : Client) (evs : list Event) :
  rpc_run endpoint c evs -> (count is_fetch evs <= 1)%nat.
Proof.
  intros (request & c' & tail & -> & _ & Hle & _).
  rewrite count_cons. simpl. exact Hle.
Qed.

Lemma rpc_run_fetch_eq (endpoint : string) (c : Client) (evs : list Event) :
  Forall (λ n, is_Some (_cookies c !! n)) required_cookies ->
  rpc_run endpoint c evs -> count is_fetch evs = 1%nat.
Proof.
  intros Hc (request & c' & tail & -> & _ & _ & Heq & _).
  rewrite count_cons. simpl. exact (Heq Hc).
Qed.

Lemma rpc_run_rpc (endpoint endpoint' : string) (c : Client)
    (evs : list Event) :
  rpc_run endpoint c evs ->
  count (is_rpc_of endpoint') evs
  = if bool_decide (endpoint = endpoint') then 1%nat else 0%nat.
Proof.
  intros (request & c' & tail & -> & _ & _ & _ & Hall).
  rewrite count_cons, is_rpc_of_sending.
  rewrite (rpc_tail_event_count_zero endpoint c' _ tail); [|  |exact Hall].
  - destruct (bool_decide _); reflexivity.
  - intros ev. apply rpc_tail_event_not_rpc.
Qed.

Lemma rpc_run_fetch_of (endpoint : string) (c : Client) (evs : list Event) :
  rpc_run endpoint c evs ->
  count (is_fetch_of (chat_url endpoint)) evs = count is_fetch evs.
Proof.
  intros (request & c' & tail & -> & _ & _ & _ & Hall).
  rewrite !count_cons. simpl. clear c request.
  induction Hall as [|ev tail Hev _ IH]; [reflexivity|].
  rewrite !count_cons, IH, (rpc_tail_event_fetch_of _ _ _ Hev). reflexivity.
Qed.

Lemma rpc_run_seen (endpoint : string) (c : Client) (evs : list Event) :
  rpc_run endpoint c evs -> Forall (session_seen c) evs.
Proof.
  intros (request & c' & tail & -> & Hs & _ & _ & Hall).
  constructor; [exact I|].
  eapply Forall_impl; [exact Hall|].
  intros [lvl fmt args| | |[]|[]]; simpl; try tauto.
  intros [_ ->]. exact Hs.
Qed.

Lemma assertion_shape_counts (c : Client) (evs : list Event) :
  assertion_shape c evs ->
  (count is_fetch evs <= 1)%nat
  /\ (count (is_rpc_of "clients/setactiveclient") evs <= 1)%nat
  /\ count (is_rpc_of "contacts/getselfinfo") evs = 0%nat
  /\ count (is_fetch_of (chat_url "clients/setactiveclient")) evs
     = count is_fetch evs
  /\ Forall (session_seen c) evs
  /\ (_client_id c = JNull ->
      count is_fetch evs = 0%nat
      /\ count (is_rpc_of "clients/setactiveclient") evs = 0%nat).
Proof.
  intros [->|Hshape].
  { rewrite !count_nil. repeat split; try lia; constructor. }
  destruct (_client_id c) eqn:E; try contradiction.
  - subst evs. rewrite !count_cons, !count_nil. simpl.
    repeat split; try lia; repeat constructor.
  - rewrite (rpc_run_fetch_of _ _ _ Hshape), !(rpc_run_rpc _ _ _ _ Hshape).
    pose proof (rpc_run_fetch_le _ _ _ Hshape). simpl.
    repeat split; try lia; try discriminate.
    apply (rpc_run_seen _ _ _ Hshape).
Qed.

Lemma lookup_shape_counts (c : Client) (evs : list Event) :
  evs = [] \/ rpc_run "contacts/getselfinfo" c evs ->
  (count is_fetch evs <= 1)%nat
  /\ count (is_rpc_of "clients/setactiveclient") evs = 0%nat
  /\ (count (is_rpc_of "contacts/getselfinfo") evs <= 1)%nat
  /\ count (is_fetch_of (chat_url "contacts/getselfinfo")) evs
     = count is_fetch evs
  /\ Forall (session_seen c) evs.
Proof.
  intros [->|Hshape].
  { rewrite !count_nil. repeat split; try lia; constructor. }
  rewrite (rpc_run_fetch_of _ _ _ Hshape), !(rpc_run_rpc _ _ _ _ Hshape).
  pose proof (rpc_run_fetch_le _ _ _ Hshape). simpl.
  repeat split; try lia. apply (rpc_run_seen _ _ _ Hshape).
Qed.

(** *** One call of [set_active] *)

Lemma Qgtb_false (x y : Q) : Qgtb x y = false <-> (x <= y)%Q.
Proof.
  unfold Qgtb. rewrite negb_false_iff. apply Qle_bool_iff.
Qed.

Lemma needs_call_false (w : World) :
  needs_call env w = false <->
  _active_client_state (client w) = Some ACTIVE_CLIENT_STATE_IS_ACTIVE
  /\ (time_time env (trace w) - _last_active_secs (client w)
      <= SETACTIVECLIENT_LIMIT_SECS)%Q.
Proof.
  unfold needs_call. rewrite orb_false_iff, negb_false_iff, Qgtb_false.
  rewrite bool_decide_eq_true. reflexivity.
Qed.

Lemma set_active_call (w : World) :
  exists evs,
    let w' := snd (set_active env w) in
    trace w' = trace w ++ evs
    /\ _cookies (client w') = _cookies (client w)
    /\ _client_id (client w') = _client_id (client w)
    /\ (forall e, _email (client w) = Some e -> _email (client w') = Some e)
    /\ _active_client_state (client w') = Some ACTIVE_CLIENT_STATE_IS_ACTIVE
    /\ (needs_call env w = false ->
        client w' = client w /\ evs = [EvTime (time_time env (trace w))])
    /\ (needs_call env w = true ->
        _last_active_secs (client w')
        = time_time env (trace w ++ [EvTime (time_time env (trace w))]))
    /\ (count is_fetch evs <= 2)%nat
    /\ (count (is_rpc_of "clients/setactiveclient") evs <= 1)%nat
    /\ (count (is_rpc_of "contacts/getselfinfo") evs <= 1)%nat
    /\ (is_Some (_email (client w)) ->
        (count is_fetch evs <= 1)%nat
        /\ count (is_rpc_of "contacts/getselfinfo") evs = 0%nat)
    /\ (_client_id (client w) = JNull ->
        count (is_rpc_of "clients/setactiveclient") evs = 0%nat
        /\ count (is_fetch_of (chat_url "contacts/getselfinfo")) evs
           = count is_fetch evs
        /\ (is_Some (_email (client w)) -> count is_fetch evs = 0%nat)).
Proof.
  rewrite set_active_unfold. destruct (needs_call env w) eqn:En.
  - destruct (set_active_requests_run (optimistic env w))
      as (r & w' & lookup & assertion & Hrun & Htr & Hs & Hemail & Hlookup
          & Hassert & _).
    rewrite Hrun. cbv zeta. simpl snd.
    exists ([EvTime (time_time env (trace w));
             EvTime (time_time env
                       (trace w ++ [EvTime (time_time env (trace w))]))]
            ++ lookup ++ assertion).
    destruct Hs as (Hck & Hid & Hlast & Hacs).
    simpl in Hck, Hid, Hlast, Hacs, Hemail, Hlookup.
    assert (Hl : lookup = []
                 \/ rpc_run "contacts/getselfinfo"
                      (client (optimistic env w)) lookup).
    { destruct (_email (client w)); [left; exact Hlookup|exact Hlookup]. }
    destruct (lookup_shape_counts _ _ Hl) as (Lf & Ls & Lg & Lu & _).
    destruct (assertion_shape_counts _ _ Hassert)
      as (Af & As & Ag & Au & _ & Anull).
    simpl in Anull.
    split; [rewrite Htr; simpl; rewrite <- !app_assoc; reflexivity|].
    split; [exact Hck|]. split; [exact Hid|]. split; [exact Hemail|].
    split; [exact Hacs|]. split; [discriminate|]. split; [intros _; exact Hlast|].
    rewrite !count_app, !count_cons, !count_nil. simpl.
    split; [lia|]. split; [lia|]. split; [lia|].
    split.
    + intros [e He]. rewrite He in Hlookup. subst lookup.
      rewrite !count_nil. lia.
    + intros Hnull. destruct (Anull Hnull) as (Af0 & As0).
      split; [lia|]. split.
      * rewrite Lu. f_equal.
        destruct Hassert as [->|Ha]; [reflexivity|].
        simpl in Ha. rewrite Hnull in Ha. subst assertion. reflexivity.
      * intros [e He]. rewrite He in Hlookup. subst lookup.
        rewrite !count_nil. lia.
  - apply needs_call_false in En as En'. destruct En' as [Hact _].
    exists [EvTime (time_time env (trace w))]. cbv zeta. simpl.
    rewrite !count_cons, !count_nil. simpl.
    repeat split; auto; try lia; discriminate.
Qed.

(** *** Calls in a row *)

Lemma calls_S {A} (n : nat) (m : M A) (w : World) :
  calls (S n) m w = calls n m (snd (m w)).
Proof. reflexivity. Qed.

(** Active, and the last activity within the window of the clock: the
    calls only read the clock. *)
Lemma idle_calls (t0 : Q) (n : nat) :
  (forall tr, t0 <= time_time env tr <= t0 + 60)%Q ->
  forall w,
    _active_client_state (client w) = Some ACTIVE_CLIENT_STATE_IS_ACTIVE ->
    (t0 <= _last_active_secs (client w))%Q ->
    exists evs,
      trace (calls n (set_active env) w) = trace w ++ evs
      /\ Forall (λ ev, is_time ev = true) evs
      /\ client (calls n (set_active env) w) = client w.
Proof.
  intros Hclock. induction n as [|n IH]; intros w Hact Hlast.
  - exists []. rewrite app_nil_r. repeat split; constructor.
  - rewrite calls_S.
    assert (En : needs_call env w = false).
    { apply needs_call_false. split; [exact Hact|].
      destruct (Hclock (trace w)) as [_ Hhi].
      unfold SETACTIVECLIENT_LIMIT_SECS. lra. }
    destruct (set_active_call w)
      as (evs1 & Htr1 & _ & _ & _ & _ & Hidle & _).
    cbv zeta in Htr1, Hidle. destruct (Hidle En) as [Hc ->].
    destruct (IH (snd (set_active env w))) as (evs & Htr & Hall & Hcl).
    + rewrite Hc. exact Hact.
    + rewrite Hc. exact Hlast.
    + exists ([EvTime (time_time env (trace w))] ++ evs).
      rewrite Htr, Htr1, app_assoc.
      split; [reflexivity|]. split; [|congruence].
      constructor; [reflexivity|exact Hall].
Qed.

Lemma time_events_count_zero (p : Event -> bool) (evs : list Event) :
  (forall t, p (EvTime t) = false) ->
  Forall (λ ev, is_time ev = true) evs -> count p evs = 0%nat.
Proof.
  intros Hp Hall. induction Hall as [|ev evs Hev _ IH]; [reflexivity|].
  rewrite count_cons, IH. destruct ev; try discriminate. rewrite Hp.
  reflexivity.
Qed.

Lemma active_calls (t0 : Q) (n : nat) :
  (forall tr, t0 <= time_time env tr <= t0 + 60)%Q ->
  forall w,
    _active_client_state (client w) = Some ACTIVE_CLIENT_STATE_IS_ACTIVE ->
    exists evs,
      trace (calls n (set_active env) w) = trace w ++ evs
      /\ (count (is_rpc_of "clients/setactiveclient") evs <= 1)%nat
      /\ (count (is_rpc_of "contacts/getselfinfo") evs <= 1)%nat
      /\ (count is_fetch evs <= 2)%nat
      /\ (is_Some (_email (client w)) -> (count is_fetch evs <= 1)%nat).
Proof.
  intros Hclock. induction n as [|n IH]; intros w Hact.
  - exists []. rewrite app_nil_r, !count_nil. repeat split; lia.
  - rewrite calls_S.
    destruct (set_active_call w)
      as (evs1 & Htr1 & _ & _ & _ & Hact1 & Hidle & Hlast1 & Hf & Hs & Hg
          & Hemail & _).
    cbv zeta in Htr1, Hact1, Hidle, Hlast1.
    destruct (needs_call env w) eqn:En.
    + destruct (idle_calls t0 n Hclock (snd (set_active env w)) Hact1)
        as (evs & Htr & Hall & _).
      { rewrite (Hlast1 eq_refl). apply Hclock. }
      exists (evs1 ++ evs). rewrite Htr, Htr1, app_assoc.
      split; [reflexivity|]. rewrite !count_app.
      rewrite !(time_events_count_zero _ evs) by (try exact Hall; reflexivity).
      split; [lia|]. split; [lia|]. split; [lia|].
      intros He. destruct (Hemail He). lia.
    + destruct (Hidle eq_refl) as [Hc ->].
      destruct (IH (snd (set_active env w))) as (evs & Htr & Hrest).
      { rewrite Hc. exact Hact. }
      rewrite Hc in Hrest.
      exists ([EvTime (time_time env (trace w))] ++ evs).
      rewrite Htr, Htr1, app_assoc.
      split; [reflexivity|]. rewrite !count_app, !count_cons, !count_nil.
      simpl. exact Hrest.
Qed.

Lemma calls_without_client_id (n : nat) :
  forall w,
    _client_id (client w) = JNull ->
    exists evs,
      trace (calls n (set_active env) w) = trace w ++ evs
      /\ count (is_rpc_of "clients/setactiveclient") evs = 0%nat
      /\ count (is_fetch_of (chat_url "contacts/getselfinfo")) evs
         = count is_fetch evs
      /\ (is_Some (_email (client w)) -> count is_fetch evs = 0%nat)
      /\ _client_id (client (calls n (set_active env) w)) = JNull
      /\ ((1 <= n)%nat ->
          _active_client_state (client (calls n (set_active env) w))
          = Some ACTIVE_CLIENT_STATE_IS_ACTIVE).
Proof.
  induction n as [|n IH]; intros w Hnull.
  - exists []. rewrite app_nil_r, !count_nil. simpl.
    repeat split; try exact Hnull; lia.
  - rewrite calls_S.
    destruct (set_active_call w)
      as (evs1 & Htr1 & _ & Hid1 & Hmono & Hact1 & _ & _ & _ & _ & _ & _
          & Hnull1).
    cbv zeta in Htr1, Hid1, Hmono, Hact1.
    destruct (Hnull1 Hnull) as (Hs1 & Hu1 & He1).
    destruct (IH (snd (set_active env w))) as (evs & Htr & Hs & Hu & He & Hid & Hact).
    { rewrite Hid1. exact Hnull. }
    exists (evs1 ++ evs). rewrite Htr, Htr1, app_assoc.
    split; [reflexivity|]. rewrite !count_app.
    split; [lia|]. split; [lia|].
    split; [|split; [exact Hid|]].
    + intros [e Hemail]. rewrite He1 by eauto.
      rewrite He; [reflexivity|]. rewrite (Hmono e Hemail). eauto.
    + intros _. destruct n as [|n]; [exact Hact1|]. apply Hact. lia.
Qed.

(** *** What is swallowed *)

Lemma set_active_requests_known (e : string) (w : World) :
  _email (client w) = Some e ->
  set_active_requests env w = set_active_client_part env w.
Proof.
  intros Ee. unfold set_active_requests. rewrite run_bind.
  unfold get_client at 1. cbv beta iota. rewrite Ee. reflexivity.
Qed.

Lemma set_active_requests_unknown (w : World) :
  _email (client w) = None ->
  set_active_requests env w
  = try_except_NetworkError
      (getselfinfo env)
      (λ e, log Warning "Failed to find email address: {}" [ArgExn e])
      (λ get_self_info_response,
         match email (properties (self_entity get_self_info_response)) with
         | [] => raise IndexError
         | e0 :: _ =>
             assign (set_email (Some e0));;
             set_active_client_part env
         end) w.
Proof.
  intros Ee. unfold set_active_requests. rewrite run_bind.
  unfold get_client at 1. cbv beta iota. rewrite Ee. reflexivity.
Qed.






End SetActive.

(** ** The heartbeat *)

(** C3, amended.  [set_active] makes a request only when the stored state is
    not active or more than 60 seconds have passed since the last activity;
    before any request the state is set to active and the time of the last
    activity to the clock, and every request is made with these stored; any
    number of calls within 60 seconds of the clock, from a client that is
    active, send at most one active-client assertion, preceded by at most
    one identity lookup, the lookup only while the email address is not
    known; one call with the state not active, the email address known and
    a client_id issues exactly one request, the active-client assertion,
    and it reaches the fetch primitive when the cookies are there. *)
Theorem set_active_requests_when_needed
    `{!Constants} `{!Pblite} (env : Externals) (w : World) :
  let t1 := time_time env (trace w) in
  let t2 := time_time env (trace w ++ [EvTime t1]) in
  (needs_call env w = false <->
   _active_client_state (client w) = Some ACTIVE_CLIENT_STATE_IS_ACTIVE
   /\ (t1 - _last_active_secs (client w) <= 60)%Q)
  /\ (needs_call env w = false ->
      set_active env w
      = (Ok tt, {| client := client w; trace := trace w ++ [EvTime t1] |}))
  /\ (needs_call env w = true ->
      exists evs,
        trace (snd (set_active env w)) = trace w ++ [EvTime t1; EvTime t2] ++ evs
        /\ Forall (optimistic_seen ACTIVE_CLIENT_STATE_IS_ACTIVE t2) evs
        /\ _active_client_state (client (snd (set_active env w)))
           = Some ACTIVE_CLIENT_STATE_IS_ACTIVE
        /\ _last_active_secs (client (snd (set_active env w))) = t2)
  /\ (forall (n : nat) (t0 : Q),
        _active_client_state (client w) = Some ACTIVE_CLIENT_STATE_IS_ACTIVE ->
        (forall tr, t0 <= time_time env tr <= t0 + 60)%Q ->
        exists evs,
          trace (calls n (set_active env) w) = trace w ++ evs
          /\ (count (is_rpc_of "clients/setactiveclient") evs <= 1)%nat
          /\ (count (is_rpc_of "contacts/getselfinfo") evs <= 1)%nat
          /\ (count is_fetch evs <= 2)%nat
          /\ (is_Some (_email (client w)) -> (count is_fetch evs <= 1)%nat))
  /\ (forall (e s : string),
        _active_client_state (client w) <> Some ACTIVE_CLIENT_STATE_IS_ACTIVE ->
        _email (client w) = Some e ->
        _client_id (client w) = JStr s ->
        exists evs,
          trace (snd (set_active env w)) = trace w ++ evs
          /\ count (is_rpc_of "clients/setactiveclient") evs = 1%nat
          /\ count (is_rpc_of "contacts/getselfinfo") evs = 0%nat
          /\ count (is_fetch_of (chat_url "clients/setactiveclient")) evs
             = count is_fetch evs
          /\ (count is_fetch evs <= 1)%nat
          /\ (Forall (λ n, is_Some (_cookies (client w) !! n))
                     required_cookies ->
              count is_fetch evs = 1%nat)).
Proof.
  intros t1 t2. split; [apply needs_call_false|].
  split; [intros En; rewrite set_active_unfold, En; reflexivity|].
  split; [|split].
  - intros En. rewrite set_active_unfold, En.
    destruct (set_active_requests_run env (optimistic env w))
      as (r & w' & lookup & assertion & Hrun & Htr & Hs & _ & Hlookup
          & Hassert & _).
    rewrite Hrun. simpl snd. exists (lookup ++ assertion).
    destruct Hs as (_ & _ & Hlast & Hacs).
    split; [rewrite Htr; simpl; rewrite <- !app_assoc; reflexivity|].
    split; [|split; [exact Hacs|exact Hlast]].
    assert (Hl : lookup = []
                 \/ rpc_run "contacts/getselfinfo"
                      (client (optimistic env w)) lookup).
    { simpl in Hlookup.
      destruct (_email (client w)); [left; exact Hlookup|exact Hlookup]. }
    destruct (lookup_shape_counts _ _ Hl) as (_ & _ & _ & _ & Lseen).
    destruct (assertion_shape_counts _ _ Hassert) as (_ & _ & _ & _ & Aseen & _).
    apply Forall_app. split;
      (eapply Forall_impl; [eassumption|]);
      intros [| | |c seen|]; simpl; try tauto;
      intros (_ & _ & Hl' & Ha'); split; assumption.
  - intros n t0 Hact Hclock. exact (active_calls env t0 n Hclock w Hact).
  - intros e s Hact Hemail Hid.
    assert (En : needs_call env w = true).
    { destruct (needs_call env w) eqn:En; [reflexivity|].
      apply needs_call_false in En. destruct En as [En _]. contradiction. }
    rewrite set_active_unfold, En.
    destruct (set_active_requests_run env (optimistic env w))
      as (r & w' & lookup & assertion & Hrun & Htr & _ & _ & Hlookup
          & _ & Hrpc).
    rewrite Hrun. simpl snd. simpl in Hlookup, Hrpc.
    rewrite Hemail in Hlookup. subst lookup.
    specialize (Hrpc e s Hemail Hid).
    exists ([EvTime t1; EvTime t2] ++ assertion).
    split; [rewrite Htr; simpl; rewrite <- !app_assoc; reflexivity|].
    rewrite !count_app, !count_cons, !count_nil. simpl.
    rewrite (rpc_run_fetch_of _ _ _ Hrpc), !(rpc_run_rpc _ _ _ _ Hrpc).
    pose proof (rpc_run_fetch_le _ _ _ Hrpc). simpl.
    repeat split; try lia.
    intros Hc.
    exact (rpc_run_fetch_eq "clients/setactiveclient"
             (client (optimistic env w)) assertion Hc Hrpc).
Qed.

(** C6, amended.  Any number of calls of [set_active] without a client_id
    send no active-client assertion: every request is an identity lookup,
    and there is none once the email address is known; the client_id stays
    unset, and from the first call on the stored state is active. *)
Theorem set_active_without_client_id
    `{!Constants} `{!Pblite} (env : Externals) (n : nat) (w : World) :
  _client_id (client w) = JNull ->
  exists evs,
    trace (calls n (set_active env) w) = trace w ++ evs
    /\ count (is_rpc_of "clients/setactiveclient") evs = 0%nat
    /\ count (is_fetch_of (chat_url "contacts/getselfinfo")) evs
       = count is_fetch evs
    /\ (is_Some (_email (client w)) -> count is_fetch evs = 0%nat)
    /\ _client_id (client (calls n (set_active env) w)) = JNull
    /\ ((1 <= n)%nat ->
        _active_client_state (client (calls n (set_active env) w))
        = Some ACTIVE_CLIENT_STATE_IS_ACTIVE).
Proof. intros Hnull. exact (calls_without_client_id env n w Hnull). Qed.


Section HeartbeatExamples.
Import Double.

(** C3 as stated fails: the client is active, as a state update has
    reported it, its last activity is long ago and its email address is not
    known yet; one call of [set_active] sends two requests, the identity
    lookup and the active-client assertion. *)
Lemma active_call_sends_two_requests :
  let env := externals (λ _, 1000%Q) server_ok [] 0 in
  _active_client_state (client active_with_id)
  = Some ACTIVE_CLIENT_STATE_IS_ACTIVE
  /\ count is_fetch (trace (calls 1 (set_active env) active_with_id)) = 2%nat
  /\ ~ (count is_fetch (trace (calls 1 (set_active env) active_with_id))
        <= 1)%nat.
Proof.
  intros env.
  assert (E : count is_fetch
                (trace (calls 1 (set_active env) active_with_id)) = 2%nat)
    by (vm_compute; reflexivity).
  split; [reflexivity|]. split; [exact E|]. rewrite E. lia.
Qed.

(** C3, amended, on examples: one call with the state unset, the email
    address and a client_id; three calls of an active client. *)
Lemma set_active_requests_when_needed_witness :
  let env := externals (λ _, 1000%Q) server_ok [] 0 in
  (exists evs,
      trace (snd (set_active env with_id_and_email))
      = trace with_id_and_email ++ evs
      /\ count (is_rpc_of "clients/setactiveclient") evs = 1%nat
      /\ count is_fetch evs = 1%nat)
  /\ (exists evs,
        trace (calls 3 (set_active env) active_with_id)
        = trace active_with_id ++ evs
        /\ (count (is_rpc_of "clients/setactiveclient") evs <= 1)%nat
        /\ (count is_fetch evs <= 2)%nat).
Proof.
  intros env. split.
  - destruct (set_active_requests_when_needed env with_id_and_email)
      as (_ & _ & _ & _ & Hsingle).
    destruct (Hsingle "user@example.com" "sess-42")
      as (evs & Htr & Hs & _ & _ & _ & Hf).
    + simpl. discriminate.
    + reflexivity.
    + reflexivity.
    + exists evs. split; [exact Htr|]. split; [exact Hs|].
      apply Hf. apply all_cookies_present. reflexivity.
  - destruct (set_active_requests_when_needed env active_with_id)
      as (_ & _ & _ & Hcalls & _).
    destruct (Hcalls 3%nat 1000%Q) as (evs & Htr & Hs & _ & Hf & _).
    + reflexivity.
    + intros tr. change (time_time env tr) with 1000%Q. lra.
    + exists evs. auto.
Defined.

(** C6 as stated fails: without a client_id, two calls of [set_active] on a
    fresh client send the identity lookup, and the stored state is active
    afterwards. *)
Lemma no_client_id_still_looks_up :
  let env := externals (λ _, 1000%Q) server_ok [] 0 in
  _client_id (client fresh) = JNull
  /\ count is_fetch (trace (calls 2 (set_active env) fresh)) = 1%nat
  /\ _active_client_state (client (calls 2 (set_active env) fresh)) = Some 1
  /\ ~ (count is_fetch (trace (calls 2 (set_active env) fresh)) = 0%nat
        /\ _active_client_state (client (calls 2 (set_active env) fresh))
           = None).
Proof.
  intros env.
  assert (E : count is_fetch (trace (calls 2 (set_active env) fresh)) = 1%nat)
    by (vm_compute; reflexivity).
  split; [reflexivity|]. split; [exact E|].
  split; [vm_compute; reflexivity|].
  rewrite E. intros [Hzero _]. discriminate.
Qed.

(** C6, amended, on an example: two calls on a fresh client. *)
Lemma set_active_without_client_id_witness :
  let env := externals (λ _, 1000%Q) server_ok [] 0 in
  exists evs,
    trace (calls 2 (set_active env) fresh) = trace fresh ++ evs
    /\ count (is_rpc_of "clients/setactiveclient") evs = 0%nat
    /\ _active_client_state (client (calls 2 (set_active env) fresh))
       = Some ACTIVE_CLIENT_STATE_IS_ACTIVE.
Proof.
  intros env.
  destruct (set_active_without_client_id env 2 fresh eq_refl)
    as (evs & Htr & Hs & _ & _ & _ & Hact).
  exists evs. split; [exact Htr|]. split; [exact Hs|]. apply Hact. lia.
Defined.



End HeartbeatExamples.

(** * More properties of the client *)

(** ** Invariants of the client *)

Lemma keeps_same {A} (I : Client -> Prop) (m : M A) :
  (forall w, client (snd (m w)) = client w) -> keeps I m.
Proof. intros H w HI. rewrite H. exact HI. Qed.

Lemma keeps_bind {A B} (I : Client -> Prop) (m : M A) (f : A -> M B) :
  keeps I m -> (forall a, keeps I (f a)) -> keeps I (m ≫= f).
Proof.
  intros Hm Hf w HI. rewrite run_bind. specialize (Hm w HI).
  destruct (m w) as [[a|e] w1]; simpl in *; [apply Hf|]; exact Hm.
Qed.

Lemma keeps_assign (I : Client -> Prop) (f : Client -> Client) :
  (forall c, I c -> I (f c)) -> keeps I (assign f).
Proof. intros H w HI. rewrite run_assign. simpl. apply H, HI. Qed.

Lemma keeps_await {A} (I : Client -> Prop) (c : call)
    (answer : list Event -> Client -> outcome A * Client) :
  (forall tr cl, I cl -> I (snd (answer tr cl))) -> keeps I (await c answer).
Proof.
  intros H w HI. unfold await. run_monad.
  specialize (H (trace w ++ [EvCall c (client w)]) (client w) HI).
  destruct (answer _ _) as [[a|e] cl']; simpl in *; exact H.
Qed.

Lemma keeps_try {A B} (I : Client -> Prop)
    (body : M A) (handler : exn -> M B) (orelse : A -> M B) :
  keeps I body -> (forall e, keeps I (handler e)) ->
  (forall a, keeps I (orelse a)) ->
  keeps I (try_except_NetworkError body handler orelse).
Proof.
  intros Hb Hh Ho w HI. unfold try_except_NetworkError.
  specialize (Hb w HI).
  destruct (body w) as [[a|e] w1]; simpl in *; [apply Ho; exact Hb|].
  destruct e; try exact Hb. apply Hh; exact Hb.
Qed.

Lemma keeps_for_each {A} (I : Client -> Prop) (xs : list A)
    (body : A -> M unit) :
  (forall x, keeps I (body x)) -> keeps I (for_each xs body).
Proof.
  intros Hb. induction xs as [|x xs IH]; simpl.
  - apply keeps_same. reflexivity.
  - apply keeps_bind; [apply Hb|intros; exact IH].
Qed.

Lemma keeps_calls {A} (I : Client -> Prop) (m : M A) (n : nat) :
  keeps I m -> forall w, I (client w) -> I (client (calls n m w)).
Proof.
  intros Hm. induction n as [|n IH]; intros w HI; simpl; [exact HI|].
  apply IH, Hm, HI.
Qed.

Ltac keeps_step :=
  lazymatch goal with
  | |- keeps _ (mbind _ _) => apply keeps_bind; [|intros]
  | |- keeps _ (mret _) => apply keeps_same; reflexivity
  | |- keeps _ (raise _) => apply keeps_same; reflexivity
  | |- keeps _ (lift _) => apply keeps_same; reflexivity
  | |- keeps _ get_client => apply keeps_same; reflexivity
  | |- keeps _ get_trace => apply keeps_same; reflexivity
  | |- keeps _ (log _ _ _) => apply keeps_same; reflexivity
  | |- keeps _ (emit _) => apply keeps_same; reflexivity
  | |- keeps _ (assign _) => apply keeps_assign; intros ? ?
  | |- keeps _ (await _ (λ tr cl, (_, cl))) =>
      apply keeps_await; intros ? ? HI; exact HI
  | |- keeps _ (for_each _ _) => apply keeps_for_each; intros
  | |- keeps _ (try_except_NetworkError _ _ _) => apply keeps_try; intros
  | |- keeps _ (if ?b then _ else _) => destruct b
  | |- keeps _ (match ?x with _ => _ end) => destruct x
  end.

Section Keeps.
Context `{!Constants} `{!Pblite} (env : Externals).

Lemma get_cookies_keeps (I : Client -> Prop) (names : list string)
    (acc : gmap string string) :
  keeps I (get_cookies names acc).
Proof.
  revert acc. induction names as [|n names IH]; intros acc; simpl.
  - apply keeps_same. reflexivity.
  - unfold _get_cookie. repeat keeps_step. apply IH.
Qed.

Lemma _base_request_keeps (I : Client -> Prop)
    (url content_type response_type data : string) :
  keeps I (_base_request env url content_type response_type data).
Proof.
  unfold _base_request, _get_cookie. repeat keeps_step.
  apply get_cookies_keeps.
Qed.

Lemma _pb_request_keeps {Req Resp : Type}
    `{!PbMessage Req} `{!PbMessage Resp} `{!PbResponse Resp}
    (I : Client -> Prop) (endpoint : string) (request_pb : Req)
    (response_pb : Resp) :
  keeps I (_pb_request env endpoint request_pb response_pb).
Proof.
  unfold _pb_request. repeat keeps_step. apply _base_request_keeps.
Qed.

Lemma _get_request_header_pb_keeps (I : Client -> Prop) :
  (forall c s, I c ->
     I (set_request_header (set_resource s (_request_header c)) c)) ->
  keeps I _get_request_header_pb.
Proof.
  intros Hset w HI. unfold _get_request_header_pb. rewrite run_bind. simpl.
  destruct (_client_id (client w)); try exact HI.
  simpl. apply Hset, HI.
Qed.

Lemma loads_keeps (I : Client -> Prop) (v : json) : keeps I (loads env v).
Proof. apply keeps_same. intros w. destruct v; reflexivity. Qed.

Lemma fire_from_keeps (I : Client -> Prop) (obs : list _) :
  Forall (λ observer : list Event -> StateUpdate -> Client
                       -> outcome unit * Client,
            forall tr su cl, I cl -> I (snd (observer tr su cl))) obs ->
  forall i su, keeps I (fire_from i obs su).
Proof.
  induction 1 as [|o obs Ho _ IH]; intros i su; simpl.
  - apply keeps_same. reflexivity.
  - apply keeps_bind; [|intros; apply IH].
    apply keeps_await. intros tr cl. apply Ho.
Qed.

Lemma _on_receive_array_keeps (I : Client -> Prop) (array : json) :
  (forall c v, I c -> I (set_client_id v c)) ->
  (forall c v, I c -> I (set_active_client_state v c)) ->
  Forall (λ observer : list Event -> StateUpdate -> Client
                       -> outcome unit * Client,
            forall tr su cl, I cl -> I (snd (observer tr su cl)))
         (observers env) ->
  keeps I (_on_receive_array env array).
Proof.
  intros Hid Hstate Hobs.
  unfold _on_receive_array, new_client_id_part, state_update_part,
    _add_channel_services, on_state_update_record, fire.
  repeat keeps_step;
    first [apply loads_keeps | apply Hid; assumption | apply Hstate; assumption
          | apply fire_from_keeps; exact Hobs | idtac].
Qed.

Lemma set_active_keeps (I : Client -> Prop) :
  (forall c s, I c ->
     I (set_request_header (set_resource s (_request_header c)) c)) ->
  (forall c v, I c -> I (set_active_client_state v c)) ->
  (forall c v, I c -> I (set_last_active_secs v c)) ->
  (forall c v, I c -> I (set_email v c)) ->
  keeps I (set_active env).
Proof.
  intros Hh Hs Ht He.
  unfold set_active, set_active_requests, set_active_client_part,
    getselfinfo, setactiveclient, time_now.
  repeat keeps_step;
    first [ apply _get_request_header_pb_keeps; exact Hh
          | apply _pb_request_keeps
          | apply Hs; assumption | apply Ht; assumption
          | apply He; assumption | idtac].
Qed.

End Keeps.

(** ** Keep-alive frames *)

Section KeepAlive.
Context `{!Constants} `{!Pblite} (env : Externals).

Lemma _on_receive_array_keepalive (array : json) (w : World) :
  is_keepalive array = true -> _on_receive_array env array w = (Ok tt, w).
Proof.
  unfold is_keepalive, _on_receive_array. intros Hk.
  rewrite run_bind. unfold lift at 1.
  destruct (getitem_0 array) as [a0|e]; [|discriminate].
  cbv beta iota. rewrite Hk. reflexivity.
Qed.

Lemma payload_frames_cons (array : json) (frames : list json) :
  payload_frames (array :: frames)
  = if is_keepalive array then payload_frames frames
    else array :: payload_frames frames.
Proof.
  unfold payload_frames. rewrite filter_cons.
  destruct (is_keepalive array); destruct (decide _); congruence.
Qed.

End KeepAlive.

(** X1. Keep-alive frames change nothing: handing the dispatcher a list of
    frames gives the same result, the same client and the same trace as
    handing it the frames that are not keep-alives, in their order.  A frame
    is a keep-alive as soon as its first element is the string 'noop',
    whatever follows. *)
Theorem keepalive_frames_are_transparent
    `{!Constants} `{!Pblite} (env : Externals) (frames : list json)
    (w : World) :
  receive_frames env frames w = receive_frames env (payload_frames frames) w.
Proof.
  unfold receive_frames. revert w.
  induction frames as [|f frames IH]; intros w; [reflexivity|].
  rewrite payload_frames_cons.
  destruct (is_keepalive f) eqn:Hf; simpl for_each.
  - rewrite run_bind, (_on_receive_array_keepalive env f w Hf). apply IH.
  - rewrite !run_bind.
    destruct (_on_receive_array env f w) as [[[]|e] w1]; [apply IH|reflexivity].
Qed.

(** ** What the dispatcher does to the outside *)

Section DispatcherEffects.
Context `{!Constants} `{!Pblite} (env : Externals).

Lemma new_client_id_part_sends_once (wrapper : json) (w : World) :
  exists evs,
    trace (snd (new_client_id_part env wrapper w)) = trace w ++ evs
    /\ (count is_send_maps evs <= 1)%nat.
Proof.
  assert (Hnil : exists evs : list Event,
             trace w = trace w ++ evs /\ (count is_send_maps evs <= 1)%nat).
  { exists []. rewrite app_nil_r. split; [reflexivity|]. rewrite count_nil. lia. }
  unfold new_client_id_part. rewrite run_bind. unfold lift at 1.
  destruct (contains_str "3" wrapper) as [[|]|e]; try exact Hnil.
  cbv beta iota. rewrite run_bind. unfold lift at 1.
  destruct (getitem_str wrapper "3") as [w3|e]; [|exact Hnil].
  cbv beta iota. rewrite run_bind. unfold lift at 1.
  destruct (getitem_str w3 "2") as [cid|e]; [|exact Hnil].
  cbv beta iota.
  rewrite run_bind, run_assign. cbv beta iota.
  rewrite run_bind, run_log. cbv beta iota.
  unfold _add_channel_services.
  rewrite run_bind, run_log. cbv beta iota. cbv zeta.
  rewrite run_bind, await_pure. cbv zeta. simpl client. simpl trace.
  destruct (send_maps env _ _) as [[]|e].
  - rewrite run_log. simpl. eexists. rewrite <- !app_assoc. simpl.
    split; [reflexivity|]. rewrite !count_cons, count_nil. simpl. lia.
  - simpl. eexists. rewrite <- !app_assoc. simpl.
    split; [reflexivity|]. rewrite !count_cons, count_nil. simpl. lia.
Qed.

Lemma _on_receive_array_sends_once (array : json) (w : World) :
  exists evs,
    trace (snd (_on_receive_array env array w)) = trace w ++ evs
    /\ (count is_send_maps evs <= if is_keepalive array then 0 else 1)%nat.
Proof.
  destruct (is_keepalive array) eqn:Hk.
  { rewrite (_on_receive_array_keepalive env array w Hk).
    exists []. rewrite app_nil_r. split; [reflexivity|]. rewrite count_nil. lia. }
  assert (Hnil : exists evs : list Event,
             trace w = trace w ++ evs /\ (count is_send_maps evs <= 1)%nat).
  { exists []. rewrite app_nil_r. split; [reflexivity|]. rewrite count_nil. lia. }
  unfold _on_receive_array. rewrite run_bind. unfold lift at 1.
  destruct (getitem_0 array) as [a0|e]; [|exact Hnil].
  cbv beta iota. destruct (is_str "noop" a0); [exact Hnil|].
  rewrite run_bind. unfold lift at 1. cbv beta iota.
  rewrite run_bind. unfold lift at 1.
  destruct (getitem_str a0 "p") as [p|e]; [|exact Hnil].
  cbv beta iota. rewrite run_bind.
  assert (Hloads : forall v, trace (snd (loads env p v)) = trace v).
  { intros v. destruct p; reflexivity. }
  specialize (Hloads w).
  destruct (loads env p w) as [[wrapper|e] w0]; simpl in Hloads.
  2:{ exists []. simpl. rewrite Hloads, app_nil_r. split; [reflexivity|].
      rewrite count_nil. lia. }
  rewrite run_bind.
  destruct (new_client_id_part_sends_once wrapper w0) as (evs1 & H1 & Hc1).
  destruct (new_client_id_part env wrapper w0) as [[[]|e] w1]; simpl in H1.
  - destruct (state_update_part_emits env wrapper w1) as (evs2 & H2 & Hk2).
    exists (evs1 ++ evs2). rewrite H2, H1, Hloads, app_assoc.
    split; [reflexivity|]. rewrite count_app.
    rewrite (of_kinds_count_zero [KLog; KObserver] is_send_maps evs2);
      [lia| |exact Hk2].
    intros [| | |[]|[]] Hev; try discriminate; simpl; set_solver.
  - exists evs1. simpl. rewrite H1, Hloads. split; [reflexivity|exact Hc1].
Qed.

Lemma receive_frames_sends (frames : list json) :
  forall w, exists evs,
    trace (snd (receive_frames env frames w)) = trace w ++ evs
    /\ (count is_send_maps evs <= length (payload_frames frames))%nat.
Proof.
  unfold receive_frames.
  induction frames as [|f frames IH]; intros w.
  - exists []. simpl. rewrite app_nil_r. split; [reflexivity|].
    rewrite count_nil. lia.
  - simpl for_each. rewrite run_bind.
    destruct (_on_receive_array_sends_once f w) as (evs1 & H1 & Hc1).
    rewrite payload_frames_cons.
    destruct (_on_receive_array env f w) as [[[]|e] w1]; simpl in H1.
    + destruct (IH w1) as (evs2 & H2 & Hc2).
      exists (evs1 ++ evs2). rewrite H2, H1, app_assoc.
      split; [reflexivity|]. rewrite count_app.
      destruct (is_keepalive f); simpl; lia.
    + exists evs1. simpl. split; [exact H1|].
      destruct (is_keepalive f); simpl; lia.
Qed.

End DispatcherEffects.

(** X2. Whatever frames arrive, well formed or not, and however the
    dispatcher ends, it only logs, sends channel maps and calls the
    subscribers: it makes no HTTP request, does not read the clock and draws
    no random number, and it sends the channel services at most once per
    frame that is not a keep-alive. *)
Theorem dispatcher_makes_no_request
    `{!Constants} `{!Pblite} (env : Externals) (frames : list json)
    (w : World) :
  exists evs,
    trace (snd (receive_frames env frames w)) = trace w ++ evs
    /\ Forall (of_kinds [KLog; KSendMaps; KObserver]) evs
    /\ count is_fetch evs = 0%nat
    /\ count is_time evs = 0%nat
    /\ (count is_send_maps evs <= length (payload_frames frames))%nat.
Proof.
  destruct (receive_frames_emits env frames w) as (evs & Htr & Hk).
  destruct (receive_frames_sends env frames w) as (evs' & Htr' & Hc).
  assert (evs' = evs) as -> by (apply (app_inv_head (trace w)); congruence).
  exists evs. split; [exact Htr|]. split; [exact Hk|].
  split; [|split; [|exact Hc]].
  - apply (of_kinds_count_zero [KLog; KSendMaps; KObserver]); [|exact Hk].
    intros [| | |[]|[]] Hev; try discriminate; simpl; set_solver.
  - apply (of_kinds_count_zero [KLog; KSendMaps; KObserver]); [|exact Hk].
    intros [| | |[]|[]] Hev; try discriminate; simpl; set_solver.
Qed.

(** X3. The dispatcher assigns the client_id and the active state and
    nothing else: when no subscriber writes to the cookies, the header
    template, the email address or the time of the last activity, then after
    any list of frames, however the dispatcher ends, these four are as they
    were. *)
Theorem dispatcher_keeps_account
    `{!Constants} `{!Pblite} (env : Externals) (frames : list json)
    (w : World) :
  Forall (λ observer : list Event -> StateUpdate -> Client
                       -> outcome unit * Client,
            forall tr su cl, same_account cl (snd (observer tr su cl)))
         (observers env) ->
  same_account (client w) (client (snd (receive_frames env frames w))).
Proof.
  intros Hobs.
  assert (Hk : keeps (same_account (client w)) (receive_frames env frames)).
  { apply keeps_for_each. intros array. apply _on_receive_array_keeps.
    - intros c v Hc. exact Hc.
    - intros c v Hc. exact Hc.
    - eapply Forall_impl; [exact Hobs|]. intros o Ho tr su cl Hcl.
      specialize (Ho tr su cl).
      destruct Hcl as (H1 & H2 & H3 & H4), Ho as (K1 & K2 & K3 & K4).
      repeat split; congruence. }
  apply Hk. repeat split.
Qed.

Section DispatcherEffectsExamples.
Import Double.

(** X3 on an example: a frame with a new client_id and a batch, and two
    subscribers that leave the client alone. *)
Lemma dispatcher_keeps_account_witness :
  let env := externals (λ _, 0%Q) offline (replicate 2 quiet) 0 in
  let w' := snd (receive_frames env [frame (wrapper_both payload_cbu)] fresh) in
  same_account (client fresh) (client w')
  /\ _client_id (client w') = JStr "sess-42"
  /\ _active_client_state (client w') = Some 2.
Proof.
  intros env w'. split.
  - apply (dispatcher_keeps_account env [frame (wrapper_both payload_cbu)] fresh).
    repeat constructor.
  - vm_compute. split; reflexivity.
Defined.

End DispatcherEffectsExamples.

(** ** What the request engine sends *)

Section RequestWire.
Context `{!Constants} (env : Externals).

Lemma get_cookies_lookup (names : list string) :
  forall (acc d : gmap string string) (w w' : World),
    get_cookies names acc w = (Ok d, w') ->
    forall n,
      d !! n = if decide (n ∈ names) then _cookies (client w) !! n
               else acc !! n.
Proof.
  induction names as [|a names IH]; intros acc d w w' Hrun n.
  - injection Hrun as <- _. destruct (decide _) as [Hin|_]; [|reflexivity].
    apply elem_of_nil in Hin. destruct Hin.
  - simpl in Hrun. rewrite run_bind in Hrun.
    destruct (_cookies (client w) !! a) as [v|] eqn:E.
    + rewrite (_get_cookie_present a v w E) in Hrun.
      rewrite (IH _ _ _ _ Hrun n).
      destruct (decide (n = a)) as [->|Hne].
      * destruct (decide (a ∈ names)), (decide (a ∈ a :: names));
          try set_solver.
        rewrite lookup_insert_eq. congruence.
      * rewrite lookup_insert_ne by congruence.
        destruct (decide (n ∈ names)), (decide (n ∈ a :: names));
          try reflexivity; set_solver.
    + rewrite (_get_cookie_absent a w E) in Hrun. discriminate.
Qed.

(** With the cookies there, [_base_request] calls the fetch primitive once,
    with this request, and ends as the primitive does. *)
Lemma _base_request_sends (url content_type response_type data : string)
    (w : World) :
  Forall (λ n, is_Some (_cookies (client w) !! n)) required_cookies ->
  exists sapisid d,
    _cookies (client w) !! "SAPISID" = Some sapisid
    /\ (forall n, d !! n = if decide (n ∈ required_cookies)
                           then _cookies (client w) !! n else None)
    /\ let req :=
         {| fetch_method := "post"; fetch_url := url;
            fetch_headers :=
              <["content-type" := content_type]>
                (get_authorization_headers env (trace w) sapisid);
            fetch_cookies := d;
            fetch_params := {["alt" := response_type]};
            fetch_data := data |} in
       let called := trace w ++ [EvCall (CFetch req) (client w)] in
       _base_request env url content_type response_type data w =
       match http_fetch env called req with
       | Ok res =>
           (Ok res, {| client := client w;
                       trace := called ++ [EvDone (CFetch req)] |})
       | Raise e => (Raise e, {| client := client w; trace := called |})
       end.
Proof.
  intros Hall.
  assert (Hs : is_Some (_cookies (client w) !! "SAPISID")).
  { rewrite Forall_forall in Hall. apply Hall. left. }
  destruct Hs as [v E].
  destruct (get_cookies_cases required_cookies ∅ w)
    as [(m & Hin & Hm & _)|(_ & d & Hr)].
  { rewrite Forall_forall in Hall. destruct (Hall m Hin) as [x Hx]. congruence. }
  exists v, d. split; [exact E|]. split.
  { intros n. rewrite (get_cookies_lookup _ _ _ _ _ Hr n).
    destruct (decide _); [reflexivity|apply lookup_empty]. }
  cbv zeta. unfold _base_request.
  rewrite (run_bind_ok _ _ _ _ _ (_get_cookie_present "SAPISID" v w E)).
  rewrite run_bind. simpl.
  rewrite (run_bind_ok _ _ _ _ _ Hr).
  rewrite run_bind, await_pure. cbv zeta.
  destruct (http_fetch env _ _) as [res|e]; reflexivity.
Qed.

End RequestWire.

(** X4. With the five required cookies there, [_base_request] calls the
    fetch primitive exactly once and ends as the primitive does: it returns
    its response or raises its exception, and leaves the client as it is.
    The request is a POST to the URL with the data as given; its only query
    parameter is [alt], the response type; its content-type header is the
    one given, over whatever the authorization headers say, and the other
    headers are the authorization headers made from the SAPISID cookie; its
    cookies are the five required ones with the values of the client, and
    no other cookie of the client is sent. *)
Theorem base_request_sends_required_cookies
    (env : Externals) (url content_type response_type data : string)
    (w : World) :
  Forall (λ n, is_Some (_cookies (client w) !! n)) required_cookies ->
  let run := _base_request env url content_type response_type data w in
  exists req sapisid,
    trace (snd run)
    = trace w ++ EvCall (CFetch req) (client w)
                 :: match fst run with
                    | Ok _ => [EvDone (CFetch req)]
                    | Raise _ => []
                    end
    /\ fst run = http_fetch env (trace w ++ [EvCall (CFetch req) (client w)]) req
    /\ client (snd run) = client w
    /\ fetch_method req = "post"
    /\ fetch_url req = url
    /\ fetch_data req = data
    /\ fetch_params req = {["alt" := response_type]}
    /\ fetch_headers req !! "content-type" = Some content_type
    /\ _cookies (client w) !! "SAPISID" = Some sapisid
    /\ (forall k, k <> "content-type" ->
          fetch_headers req !! k
          = get_authorization_headers env (trace w) sapisid !! k)
    /\ (forall n, fetch_cookies req !! n
                  = if decide (n ∈ required_cookies)
                    then _cookies (client w) !! n else None).
Proof.
  intros Hall run.
  destruct (_base_request_sends env url content_type response_type data w Hall)
    as (sapisid & d & Hs & Hd & Hrun).
  cbv zeta in Hrun. subst run. rewrite Hrun. clear Hrun.
  exists {| fetch_method := "post"; fetch_url := url;
            fetch_headers :=
              <["content-type" := content_type]>
                (get_authorization_headers env (trace w) sapisid);
            fetch_cookies := d;
            fetch_params := {["alt" := response_type]};
            fetch_data := data |}, sapisid.
  split; [|split; [|split; [|split; [|split; [|split; [|split;
    [|split; [|split; [exact Hs|split; [|exact Hd]]]]]]]]]].
  - destruct (http_fetch env _ _) as [res|e]; simpl;
      rewrite <- ?app_assoc; reflexivity.
  - destruct (http_fetch env _ _) as [res|e]; reflexivity.
  - destruct (http_fetch env _ _) as [res|e]; reflexivity.
  - reflexivity.
  - reflexivity.
  - reflexivity.
  - reflexivity.
  - simpl. apply lookup_insert_eq.
  - intros k Hk. simpl. apply lookup_insert_ne. congruence.
Qed.

Section RequestWireExamples.
Import Double.

Lemma more_cookies_present :
  Forall (λ n, is_Some (<["EXTRA" := "x"]> all_cookies !! n)) required_cookies.
Proof.
  repeat (apply List.Forall_cons; [vm_compute; eauto|]). apply List.Forall_nil.
Qed.

(** X4 on an example: a client with a sixth cookie. *)
Lemma base_request_sends_required_cookies_witness :
  let env := externals (λ _, 0%Q) server_ok [] 0 in
  let w := start (__init__ (<["EXTRA" := "x"]> all_cookies)) in
  exists req,
    trace (snd (_base_request env "http://example.com/" "text/plain" "json"
                  "data" w))
    = [EvCall (CFetch req) (client w); EvDone (CFetch req)]
    /\ fetch_cookies req !! "SID" = Some "e"
    /\ fetch_cookies req !! "EXTRA" = None
    /\ fetch_headers req !! "content-type" = Some "text/plain".
Proof.
  intros env w.
  destruct (base_request_sends_required_cookies env "http://example.com/"
              "text/plain" "json" "data" w more_cookies_present)
    as (req & sapisid & Htr & Hres & _ & _ & _ & _ & _ & Hct & _ & _ & Hck).
  exists req. split; [|split; [|split; [|exact Hct]]].
  - rewrite Htr, Hres. reflexivity.
  - rewrite Hck. vm_compute. reflexivity.
  - rewrite Hck. vm_compute. reflexivity.
Defined.

End RequestWireExamples.

Section PbRequestWire.
Context `{!Constants} (env : Externals).

(** [_pb_request] after its first log entry and the call of the fetch
    primitive: what is left of the events. *)
Lemma _pb_request_sends {Req Resp : Type}
    `{!PbMessage Req} `{!PbMessage Resp} `{!PbResponse Resp}
    (endpoint : string) (request_pb : Req) (response_pb : Resp) (w : World) :
  Forall (λ n, is_Some (_cookies (client w) !! n)) required_cookies ->
  exists req rest,
    trace (snd (_pb_request env endpoint request_pb response_pb w))
    = trace w ++ sending endpoint (pblite_encode request_pb)
                 :: EvCall (CFetch req) (client w) :: rest
    /\ count is_fetch rest = 0%nat
    /\ fetch_method req = "post"
    /\ fetch_url req = chat_url endpoint
    /\ fetch_data req = json_dumps env (pblite_encode request_pb)
    /\ fetch_params req = {["alt" := "protojson"]}
    /\ fetch_headers req !! "content-type" = Some "application/json+protobuf".
Proof.
  intros Hall. unfold _pb_request.
  rewrite run_bind, run_log. cbv beta iota.
  change (EvLog Debug _ _) with (sending endpoint (pblite_encode request_pb)).
  set (w1 := {| client := client w; trace := trace w ++ _ |}).
  destruct (_base_request_sends env
              ("https://clients6.google.com/chat/v1/" +:+ endpoint)
              "application/json+protobuf" "protojson"
              (json_dumps env (pblite_encode request_pb)) w1 Hall)
    as (sapisid & d & _ & _ & Hr).
  cbv zeta in Hr. rewrite run_bind, Hr. clear Hr.
  change (trace w1)
    with (trace w ++ [sending endpoint (pblite_encode request_pb)]).
  change (client w1) with (client w).
  set (req := {| fetch_method := "post";
                 fetch_url := "https://clients6.google.com/chat/v1/" +:+ endpoint;
                 fetch_headers := _; fetch_cookies := d;
                 fetch_params := _; fetch_data := _ |}).
  assert (Hreq : fetch_method req = "post"
                 /\ fetch_url req = chat_url endpoint
                 /\ fetch_data req = json_dumps env (pblite_encode request_pb)
                 /\ fetch_params req = {["alt" := "protojson"]}
                 /\ fetch_headers req !! "content-type"
                    = Some "application/json+protobuf").
  { repeat split. simpl. apply lookup_insert_eq. }
  clearbody req.
  assert (Hdone : forall rest : list Event,
            count is_fetch rest = 0%nat ->
            count is_fetch (EvDone (CFetch req) :: rest) = 0%nat).
  { intros rest Hc. rewrite count_cons. simpl. exact Hc. }
  destruct (http_fetch env _ req) as [res|e].
  2:{ exists req, []. simpl. rewrite <- !app_assoc.
      split; [reflexivity|]. split; [apply count_nil|exact Hreq]. }
  destruct (bytes_decode env (body res)) as [text|e].
  2:{ exists req, [EvDone (CFetch req)]. simpl. rewrite <- !app_assoc.
      split; [reflexivity|]. split; [apply Hdone, count_nil|exact Hreq]. }
  run_monad.
  destruct (javascript_loads env text) as [pblite|e].
  2:{ exists req, [EvDone (CFetch req)]. simpl. rewrite <- !app_assoc.
      split; [reflexivity|]. split; [apply Hdone, count_nil|exact Hreq]. }
  simpl.
  destruct (pblite_decode response_pb pblite true) as [decoded|e].
  2:{ exists req, [EvDone (CFetch req)]. simpl. rewrite <- !app_assoc.
      split; [reflexivity|]. split; [apply Hdone, count_nil|exact Hreq]. }
  simpl.
  exists req, [EvDone (CFetch req); received (pblite_encode decoded)].
  split; [|split; [apply Hdone; rewrite count_cons, count_nil; reflexivity
                  |exact Hreq]].
  destruct (bool_decide _); simpl; rewrite <- !app_assoc; reflexivity.
Qed.

End PbRequestWire.

(** X5. With the cookies there, [_pb_request] logs the request and then
    calls the fetch primitive, exactly once and with the client as it is: a
    POST to the chat URL of the endpoint, whose data is the JSON text of the
    encoded request, with [alt=protojson] as its only parameter and
    [application/json+protobuf] as its content type.  The client is left as
    it is, however the request ends. *)
Theorem pb_request_wire_format
    `{!Constants} (env : Externals) {Req Resp : Type}
    `{!PbMessage Req} `{!PbMessage Resp} `{!PbResponse Resp}
    (endpoint : string) (request_pb : Req) (response_pb : Resp) (w : World) :
  Forall (λ n, is_Some (_cookies (client w) !! n)) required_cookies ->
  let run := _pb_request env endpoint request_pb response_pb w in
  client (snd run) = client w
  /\ exists req rest,
       trace (snd run)
       = trace w ++ sending endpoint (pblite_encode request_pb)
                    :: EvCall (CFetch req) (client w) :: rest
       /\ count is_fetch rest = 0%nat
       /\ fetch_method req = "post"
       /\ fetch_url req = "https://clients6.google.com/chat/v1/" +:+ endpoint
       /\ fetch_data req = json_dumps env (pblite_encode request_pb)
       /\ fetch_params req = {["alt" := "protojson"]}
       /\ fetch_headers req !! "content-type"
          = Some "application/json+protobuf".
Proof.
  intros Hall run. split.
  - exact (_pb_request_keeps env (λ c, c = client w) endpoint request_pb
             response_pb w eq_refl).
  - exact (_pb_request_sends env endpoint request_pb response_pb w Hall).
Qed.

(** X6. [_pb_request] turns nothing but a status that is not OK into a
    [NetworkError]: with the cookies there, an exception of the fetch
    primitive is raised as it is, after that one call; and when the body of
    the response cannot be decoded, parsed or read into the response
    message, the exception of the decoder is raised as it is, after the one
    call has returned, and no response is logged. *)
Theorem pb_request_passes_errors_on
    `{!Constants} (env : Externals) {Req Resp : Type}
    `{!PbMessage Req} `{!PbMessage Resp} `{!PbResponse Resp}
    (endpoint : string) (request_pb : Req) (response_pb : Resp) (e : exn)
    (w : World) :
  Forall (λ n, is_Some (_cookies (client w) !! n)) required_cookies ->
  let run := _pb_request env endpoint request_pb response_pb w in
  ((forall tr req, http_fetch env tr req = Raise e) ->
   fst run = Raise e
   /\ exists req,
        trace (snd run)
        = trace w ++ [ sending endpoint (pblite_encode request_pb);
                       EvCall (CFetch req) (client w) ])
  /\ (forall res,
        (forall tr req, http_fetch env tr req = Ok res) ->
        decode_response env response_pb res = Raise e ->
        fst run = Raise e
        /\ exists req,
             trace (snd run)
             = trace w ++ [ sending endpoint (pblite_encode request_pb);
                            EvCall (CFetch req) (client w);
                            EvDone (CFetch req) ]).
Proof.
  intros Hall run. subst run.
  destruct (_pb_request_cases env endpoint request_pb response_pb w)
    as [(m & Hin & Hm & _)|(_ & req & _ & Hr)].
  { rewrite Forall_forall in Hall. destruct (Hall m Hin) as [x Hx]. congruence. }
  cbv zeta in Hr. rewrite Hr. clear Hr. split.
  - intros Hfetch. rewrite Hfetch. simpl. split; [reflexivity|].
    exists req. rewrite <- app_assoc. reflexivity.
  - intros res Hfetch Hdec. rewrite Hfetch, Hdec. simpl.
    split; [reflexivity|]. exists req. rewrite <- !app_assoc. reflexivity.
Qed.

Section PbRequestExamples.
Import Double.

(** X5 on an example: an identity lookup of a fresh client. *)
Lemma pb_request_wire_format_witness :
  let env := externals (λ _, 0%Q) server_ok [] 0 in
  exists req rest,
    trace (snd (_pb_request env "contacts/getselfinfo"
                  (pb_new : GetSelfInfoRequest)
                  (pb_new : GetSelfInfoResponse) fresh))
    = sending "contacts/getselfinfo"
        (pblite_encode (pb_new : GetSelfInfoRequest))
      :: EvCall (CFetch req) (client fresh) :: rest
    /\ fetch_url req
       = "https://clients6.google.com/chat/v1/contacts/getselfinfo"
    /\ fetch_data req = "{}".
Proof.
  intros env.
  destruct (pb_request_wire_format env "contacts/getselfinfo"
              (pb_new : GetSelfInfoRequest) (pb_new : GetSelfInfoResponse)
              fresh (all_cookies_present fresh eq_refl))
    as (_ & req & rest & Htr & _ & _ & Hurl & Hdata & _).
  exists req, rest. split; [exact Htr|]. split; [exact Hurl|exact Hdata].
Defined.

(** X6 on an example: the server answers with a text that is no
    JavaScript value. *)
Lemma pb_request_passes_errors_on_witness :
  let env := externals (λ _, 0%Q) (λ _, Ok "<html>") [] 0 in
  fst (_pb_request env "contacts/getselfinfo"
         (pb_new : GetSelfInfoRequest) (pb_new : GetSelfInfoResponse) fresh)
  = Raise ValueError.
Proof.
  intros env.
  destruct (pb_request_passes_errors_on env "contacts/getselfinfo"
              (pb_new : GetSelfInfoRequest) (pb_new : GetSelfInfoResponse)
              ValueError fresh (all_cookies_present fresh eq_refl))
    as (_ & Hdec).
  apply (Hdec {| code := 200; cookies := ∅;
                 body := list_byte_of_string "<html>" |}).
  - intros tr req. reflexivity.
  - vm_compute. reflexivity.
Defined.

End PbRequestExamples.

(** ** More of the heartbeat *)

Section Heartbeat.
Context `{!Constants} `{!Pblite} (env : Externals).

Lemma calls_with_email (n : nat) :
  forall (w : World) (e : string),
    _email (client w) = Some e ->
    exists evs,
      trace (calls n (set_active env) w) = trace w ++ evs
      /\ count (is_rpc_of "contacts/getselfinfo") evs = 0%nat
      /\ (count is_fetch evs <= n)%nat
      /\ _email (client (calls n (set_active env) w)) = Some e.
Proof.
  induction n as [|n IH]; intros w e He.
  - exists []. simpl. rewrite app_nil_r, !count_nil. auto.
  - rewrite calls_S.
    destruct (set_active_call env w)
      as (evs1 & Htr1 & _ & _ & Hmail & _ & _ & _ & _ & _ & _ & Hknown & _).
    cbv zeta in Htr1, Hmail.
    destruct (Hknown (ex_intro _ e He)) as (Hf1 & Hg1).
    destruct (IH (snd (set_active env w)) e (Hmail e He))
      as (evs & Htr & Hg & Hf & Hm).
    exists (evs1 ++ evs). rewrite Htr, Htr1, app_assoc.
    split; [reflexivity|]. rewrite !count_app.
    split; [lia|]. split; [lia|exact Hm].
Qed.

End Heartbeat.

(** X7. The email address is looked up at most until it is known: from a
    client that has its email address, any number of calls of [set_active],
    at any times and whatever the server answers, start no identity lookup
    and leave the address as it is; each call makes at most one HTTP
    request. *)
Theorem email_is_not_looked_up_again
    `{!Constants} `{!Pblite} (env : Externals) (n : nat) (w : World)
    (e : string) :
  _email (client w) = Some e ->
  exists evs,
    trace (calls n (set_active env) w) = trace w ++ evs
    /\ count (is_rpc_of "contacts/getselfinfo") evs = 0%nat
    /\ (count is_fetch evs <= n)%nat
    /\ _email (client (calls n (set_active env) w)) = Some e.
Proof. apply calls_with_email. Qed.

(** X8. When [set_active] looks the identity up and the lookup returns, the
    first email address of the response is stored as the address of the
    account, whatever becomes of the active-client assertion that
    follows. *)
Theorem set_active_stores_first_address
    `{!Constants} `{!Pblite} (env : Externals) (w : World)
    (resp : GetSelfInfoResponse) (e0 : string) (others : list string) :
  needs_call env w = true ->
  _email (client w) = None ->
  fst (getselfinfo env (optimistic env w)) = Ok resp ->
  email (properties (self_entity resp)) = e0 :: others ->
  _email (client (snd (set_active env w))) = Some e0.
Proof.
  intros En Ee Hresp Hmail.
  rewrite set_active_unfold, En.
  rewrite (set_active_requests_unknown env (optimistic env w) Ee).
  unfold try_except_NetworkError.
  destruct (getselfinfo env (optimistic env w)) as [[resp'|e] w1];
    simpl in Hresp; [|discriminate].
  injection Hresp as ->. rewrite Hmail.
  rewrite run_bind, run_assign. cbv beta iota.
  destruct (set_active_client_part_run env
              {| client := set_email (Some e0) (client w1);
                 trace := trace w1 |})
    as (r & w' & evs & Hrun & _ & _ & He & _).
  rewrite Hrun. simpl. rewrite He. reflexivity.
Qed.

(** X9. A failed identity lookup is not tried again before the rate limit
    allows it: when the lookup of a call raises [NetworkError], the call
    returns with the email address still unknown and the state active,
    and it has sent no active-client assertion; any number of further calls
    while the clock stays within 60 seconds only read the clock: they make
    no request and leave the client as it is. *)
Theorem failed_lookup_is_not_retried
    `{!Constants} `{!Pblite} (env : Externals) (w : World) (t0 : Q)
    (msg : string) (n : nat) :
  (forall tr, t0 <= time_time env tr <= t0 + 60)%Q ->
  needs_call env w = true ->
  _email (client w) = None ->
  fst (getselfinfo env (optimistic env w)) = Raise (NetworkError msg) ->
  let w1 := snd (set_active env w) in
  fst (set_active env w) = Ok tt
  /\ _email (client w1) = None
  /\ _active_client_state (client w1) = Some ACTIVE_CLIENT_STATE_IS_ACTIVE
  /\ count (is_rpc_of "clients/setactiveclient") (trace w1)
     = count (is_rpc_of "clients/setactiveclient") (trace w)
  /\ exists evs,
       trace (calls n (set_active env) w1) = trace w1 ++ evs
       /\ Forall (λ ev, is_time ev = true) evs
       /\ count is_fetch evs = 0%nat
       /\ client (calls n (set_active env) w1) = client w1.
Proof.
  intros Hclock En Ee Hraise w1. subst w1.
  rewrite set_active_unfold, En.
  rewrite (set_active_requests_unknown env (optimistic env w) Ee).
  destruct (getselfinfo_run env (optimistic env w))
    as (r & wg & evs1 & Hrun & Htr & Hs & Hmail & Hshape).
  unfold try_except_NetworkError. rewrite Hrun in *. simpl in Hraise.
  subst r. rewrite run_log. simpl fst. simpl snd.
  destruct Hs as (_ & _ & Hlast & Hstate). simpl in Hlast, Hstate, Hmail.
  split; [reflexivity|]. split; [simpl; congruence|].
  split; [exact Hstate|]. split.
  { simpl trace. rewrite Htr. simpl trace.
    rewrite !count_app, !count_cons, !count_nil. simpl.
    assert (Hz : count (is_rpc_of "clients/setactiveclient") evs1 = 0%nat).
    { simpl in Hshape. destruct (_client_id (client w));
        try (destruct Hshape as [-> _]; apply count_nil);
        rewrite (rpc_run_rpc _ "clients/setactiveclient" _ _ Hshape);
        reflexivity. }
    rewrite Hz. lia. }
  destruct (idle_calls env t0 n Hclock
              {| client := client wg;
                 trace := trace wg
                          ++ [EvLog Warning "Failed to find email address: {}"
                                    [ArgExn (NetworkError msg)]] |})
    as (evs & Hcalls & Htimes & Hclient).
  - exact Hstate.
  - simpl. rewrite Hlast. apply Hclock.
  - exists evs. split; [exact Hcalls|]. split; [exact Htimes|].
    split; [|exact Hclient].
    apply time_events_count_zero; [reflexivity|exact Htimes].
Qed.

(** X10. [set_active] never touches the identity of the session: after any
    number of calls, however each of them ends, the cookies, the client_id
    and the version and the language of the header template are as they
    were. *)
Theorem set_active_keeps_identity
    `{!Constants} `{!Pblite} (env : Externals) (n : nat) (w : World) :
  same_identity (client w) (client (calls n (set_active env) w)).
Proof.
  apply (keeps_calls (same_identity (client w))); [|repeat split].
  apply set_active_keeps; intros c v Hc; exact Hc.
Qed.

(** X11. The assertion [set_active] sends: for a client that is not active
    and has its email address and the client_id [s], the call reads the
    clock twice and then sends to clients/setactiveclient the request that
    declares the client active for 120 seconds under the full address
    email/s, with [s] as the resource of its header; at most one HTTP
    request follows, and the header template of the client carries [s]
    afterwards. *)
Theorem set_active_assertion_content
    `{!Constants} `{!Pblite} (env : Externals) (w : World) (e s : string) :
  needs_call env w = true ->
  _email (client w) = Some e ->
  _client_id (client w) = JStr s ->
  let t1 := time_time env (trace w) in
  let t2 := time_time env (trace w ++ [EvTime t1]) in
  let request :=
    {| sac_request_header := set_resource s (_request_header (client w));
       is_active := true;
       full_jid := e +:+ "/" +:+ s;
       timeout_secs := 120 |} in
  exists tail,
    trace (snd (set_active env w))
    = trace w ++ [ EvTime t1; EvTime t2;
                   sending "clients/setactiveclient" (pblite_encode request) ]
              ++ tail
    /\ (count is_fetch tail <= 1)%nat
    /\ resource (client_identifier
                   (_request_header (client (snd (set_active env w)))))
       = Some s.
Proof.
  intros En Ee Hid t1 t2 request.
  rewrite set_active_unfold, En.
  rewrite (set_active_requests_known env e (optimistic env w) Ee).
  unfold set_active_client_part. rewrite run_bind. simpl.
  rewrite Hid. simpl.
  unfold try_except_NetworkError, setactiveclient.
  rewrite (run_bind_ok _ _ _ _ _
             (_get_request_header_pb_known s (optimistic env w) Hid)).
  rewrite run_bind. simpl. rewrite Ee, Hid. simpl.
  match goal with
  | |- context [_pb_request env ?ep ?rq ?rs ?w0] =>
      destruct (_pb_request_run env ep rq rs w0)
        as (r & tail & Hrun & Hle & _ & _)
  end.
  rewrite Hrun. clear Hrun. simpl.
  fold t1. fold t2. fold request.
  destruct r as [resp|[]]; simpl; rewrite ?run_log; simpl;
    eexists; (split; [rewrite <- !app_assoc; simpl; reflexivity|]);
    (split; [|reflexivity]); rewrite ?count_app, ?count_cons, ?count_nil;
    simpl; lia.
Qed.

Section MoreHeartbeatExamples.
Import Double.

(** X7 on an example: three calls, a minute and a half apart. *)
Lemma email_is_not_looked_up_again_witness :
  let env := externals (λ n, inject_Z (1000 + 45 * Z.of_nat n)) server_ok [] 0 in
  exists evs,
    trace (calls 3 (set_active env) with_id_and_email) = evs
    /\ count (is_rpc_of "contacts/getselfinfo") evs = 0%nat
    /\ _email (client (calls 3 (set_active env) with_id_and_email))
       = Some "user@example.com".
Proof.
  intros env.
  destruct (email_is_not_looked_up_again env 3 with_id_and_email
              "user@example.com" eq_refl) as (evs & Htr & Hg & _ & Hm).
  exists evs. split; [exact Htr|]. split; [exact Hg|exact Hm].
Defined.

(** X8 on an example. *)
Lemma set_active_stores_first_address_witness :
  let env := externals (λ _, 1000%Q) server_ok [] 0 in
  _email (client (snd (set_active env with_id))) = Some "user@example.com".
Proof.
  intros env.
  apply (set_active_stores_first_address env with_id
           {| gsi_response_header := {| status := 1; error_description := "" |};
              self_entity :=
                {| properties := {| email := ["user@example.com"] |} |} |}
           "user@example.com" []).
  - vm_compute. reflexivity.
  - reflexivity.
  - vm_compute. reflexivity.
  - reflexivity.
Defined.

(** X9 on an example: the server is not reached, and five more calls
    follow within the minute. *)
Lemma failed_lookup_is_not_retried_witness :
  let env := externals (λ _, 1000%Q) offline [] 0 in
  let w1 := snd (set_active env with_id) in
  _email (client w1) = None
  /\ _active_client_state (client w1) = Some 1
  /\ count is_fetch (trace w1) = 1%nat
  /\ count is_fetch (trace (calls 5 (set_active env) w1)) = 1%nat.
Proof.
  intros env. cbv zeta.
  destruct (failed_lookup_is_not_retried env with_id 1000 "offline" 5)
    as (_ & Hm & Hs & _ & evs & Htr & _ & Hc & _).
  - intros tr. simpl. lra.
  - vm_compute. reflexivity.
  - reflexivity.
  - vm_compute. reflexivity.
  - split; [exact Hm|]. split; [exact Hs|].
    assert (H1 : count is_fetch (trace (snd (set_active env with_id))) = 1%nat)
      by (vm_compute; reflexivity).
    split; [exact H1|].
    rewrite Htr, count_app, Hc, H1. reflexivity.
Defined.

(** X11 on an example. *)
Lemma set_active_assertion_content_witness :
  let env := externals (λ _, 1000%Q) server_ok [] 0 in
  exists tail,
    trace (snd (set_active env with_id_and_email))
    = [ EvTime 1000; EvTime 1000;
        sending "clients/setactiveclient"
          (JArr [ JArr [JStr "hangups-0"; JStr "en"; JStr "sess-42"];
                  JBool true; JStr "user@example.com/sess-42"; JInt 120 ]) ]
      ++ tail.
Proof.
  intros env.
  destruct (set_active_assertion_content env with_id_and_email
              "user@example.com" "sess-42") as (tail & Htr & _).
  - vm_compute. reflexivity.
  - reflexivity.
  - reflexivity.
  - exists tail. rewrite Htr. reflexivity.
Defined.

End MoreHeartbeatExamples.

(** ** Failures in the dispatcher *)

Section DispatcherFailures.
Context `{!Constants} `{!Pblite} (env : Externals).

Lemma fire_from_returns_on (su : StateUpdate) (obs : list _) :
  Forall (returns_on su) obs ->
  forall (i : nat) (w : World),
  exists w' evs,
    fire_from i obs su w = (Ok tt, w')
    /\ trace w' = trace w ++ evs
    /\ _active_client_state (client w') = _active_client_state (client w)
    /\ deliveries evs
       = flat_map (λ j, [ Called j su (_active_client_state (client w));
                          Finished j su ])
                  (seq i (length obs)).
Proof.
  induction 1 as [|o obs Ho _ IH]; intros i w.
  - exists w, []. rewrite app_nil_r. repeat split; reflexivity.
  - simpl. unfold await. run_monad.
    destruct (Ho (trace w ++ [EvCall (CObserver i su) (client w)]) (client w))
      as (cl' & Eo & Hstate).
    rewrite Eo. simpl.
    destruct (IH (S i)
                {| client := cl';
                   trace := (trace w ++ [EvCall (CObserver i su) (client w)])
                            ++ [EvDone (CObserver i su)] |})
      as (w' & evs & Hrun & Htr & Hst & Hdel).
    run_monad. simpl in Hrun. rewrite Hrun.
    exists w', ([EvCall (CObserver i su) (client w); EvDone (CObserver i su)]
                ++ evs).
    split; [reflexivity|]. simpl in Htr, Hst, Hdel.
    split; [rewrite Htr, <- !app_assoc; reflexivity|].
    split; [congruence|].
    rewrite deliveries_app, Hdel, Hstate. reflexivity.
Qed.

Lemma fire_from_raises (e : exn) (su : StateUpdate) (before : list _)
    (failing : list Event -> StateUpdate -> Client -> outcome unit * Client)
    (after : list _) :
  Forall (returns_on su) before ->
  raises_on e su failing ->
  forall (i : nat) (w : World),
  exists w' evs,
    fire_from i (before ++ failing :: after) su w = (Raise e, w')
    /\ trace w' = trace w ++ evs
    /\ _active_client_state (client w') = _active_client_state (client w)
    /\ deliveries evs
       = flat_map (λ j, [ Called j su (_active_client_state (client w));
                          Finished j su ])
                  (seq i (length before))
         ++ [ Called (i + length before) su (_active_client_state (client w)) ].
Proof.
  intros Hbefore Hfail.
  induction Hbefore as [|o before Ho _ IH]; intros i w.
  - simpl. unfold await. run_monad.
    destruct (Hfail (trace w ++ [EvCall (CObserver i su) (client w)]) (client w))
      as (cl' & Eo & Hstate).
    rewrite Eo. simpl.
    eexists _, [EvCall (CObserver i su) (client w)].
    split; [reflexivity|]. split; [reflexivity|]. split; [exact Hstate|].
    rewrite Nat.add_0_r. reflexivity.
  - simpl. unfold await. run_monad.
    destruct (Ho (trace w ++ [EvCall (CObserver i su) (client w)]) (client w))
      as (cl' & Eo & Hstate).
    rewrite Eo. simpl.
    destruct (IH (S i)
                {| client := cl';
                   trace := (trace w ++ [EvCall (CObserver i su) (client w)])
                            ++ [EvDone (CObserver i su)] |})
      as (w' & evs & Hrun & Htr & Hst & Hdel).
    run_monad. simpl in Hrun. rewrite Hrun.
    exists w', ([EvCall (CObserver i su) (client w); EvDone (CObserver i su)]
                ++ evs).
    split; [reflexivity|]. simpl in Htr, Hst, Hdel.
    split; [rewrite Htr, <- !app_assoc; reflexivity|].
    split; [congruence|].
    rewrite deliveries_app, Hdel, Hstate. simpl.
    rewrite ?Nat.add_succ_r. reflexivity.
Qed.

Lemma record_log (su : StateUpdate) (w : World) :
  on_state_update_record env su w
  = fire_from 0 (observers env) su
      {| client := set_active_client_state (Some (reported su)) (client w);
         trace := trace w ++ [EvLog Debug "Received StateUpdate:\n%s"
                                    [ArgStateUpdate su]] |}.
Proof.
  unfold on_state_update_record, fire.
  rewrite run_bind, run_log. cbv beta iota.
  rewrite run_bind, run_assign. reflexivity.
Qed.

Lemma on_state_update_record_returns_on (su : StateUpdate) (w : World) :
  Forall (returns_on su) (observers env) ->
  exists w' evs,
    on_state_update_record env su w = (Ok tt, w')
    /\ trace w' = trace w ++ evs
    /\ _active_client_state (client w') = Some (reported su)
    /\ deliveries evs = deliveries_of_record 0 (length (observers env)) su.
Proof.
  intros Hobs. rewrite record_log.
  destruct (fire_from_returns_on su (observers env) Hobs 0
              {| client := set_active_client_state (Some (reported su))
                             (client w);
                 trace := trace w ++ [EvLog Debug "Received StateUpdate:\n%s"
                                            [ArgStateUpdate su]] |})
    as (w' & evs & Hrun & Htr & Hst & Hdel).
  exists w', (EvLog Debug "Received StateUpdate:\n%s" [ArgStateUpdate su]
              :: evs).
  split; [exact Hrun|]. simpl in Htr, Hst, Hdel.
  split; [rewrite Htr, <- app_assoc; reflexivity|].
  split; [exact Hst|]. rewrite deliveries_cons. exact Hdel.
Qed.

Lemma on_state_update_record_raises (e : exn) (su : StateUpdate)
    (before : list _)
    (failing : list Event -> StateUpdate -> Client -> outcome unit * Client)
    (after : list _) (w : World) :
  observers env = before ++ failing :: after ->
  Forall (returns_on su) before ->
  raises_on e su failing ->
  exists w' evs,
    on_state_update_record env su w = (Raise e, w')
    /\ trace w' = trace w ++ evs
    /\ _active_client_state (client w') = Some (reported su)
    /\ deliveries evs
       = deliveries_of_record 0 (length before) su
         ++ [ Called (length before) su (Some (reported su)) ].
Proof.
  intros Hobs Hbefore Hfail. rewrite record_log, Hobs.
  destruct (fire_from_raises e su before failing after Hbefore Hfail 0
              {| client := set_active_client_state (Some (reported su))
                             (client w);
                 trace := trace w ++ [EvLog Debug "Received StateUpdate:\n%s"
                                            [ArgStateUpdate su]] |})
    as (w' & evs & Hrun & Htr & Hst & Hdel).
  exists w', (EvLog Debug "Received StateUpdate:\n%s" [ArgStateUpdate su]
              :: evs).
  split; [exact Hrun|]. simpl in Htr, Hst, Hdel.
  split; [rewrite Htr, <- app_assoc; reflexivity|].
  split; [exact Hst|]. rewrite deliveries_cons. exact Hdel.
Qed.

Lemma batch_raises (e : exn) (su : StateUpdate) (before : list _)
    (failing : list Event -> StateUpdate -> Client -> outcome unit * Client)
    (after : list _) (pre post : list StateUpdate) :
  observers env = before ++ failing :: after ->
  Forall (λ r, Forall (returns_on r) (observers env)) pre ->
  Forall (returns_on su) before ->
  raises_on e su failing ->
  forall w : World,
  exists w' evs,
    for_each (pre ++ su :: post) (on_state_update_record env) w = (Raise e, w')
    /\ trace w' = trace w ++ evs
    /\ _active_client_state (client w') = Some (reported su)
    /\ deliveries evs
       = deliveries_of_batch (length (observers env)) pre
         ++ deliveries_of_record 0 (length before) su
         ++ [ Called (length before) su (Some (reported su)) ].
Proof.
  intros Hobs Hpre Hbefore Hfail.
  induction Hpre as [|r pre Hr _ IH]; intros w.
  - simpl app. simpl for_each.
    destruct (on_state_update_record_raises e su before failing after w
                Hobs Hbefore Hfail) as (w' & evs & Hrun & Htr & Hst & Hdel).
    exists w', evs. rewrite (run_bind_raise _ _ _ _ _ Hrun).
    split; [reflexivity|]. split; [exact Htr|]. split; [exact Hst|].
    exact Hdel.
  - simpl app. simpl for_each.
    destruct (on_state_update_record_returns_on r w Hr)
      as (w1 & evs1 & Hrun1 & Htr1 & _ & Hdel1).
    destruct (IH w1) as (w' & evs & Hrun & Htr & Hst & Hdel).
    exists w', (evs1 ++ evs).
    rewrite (run_bind_ok _ _ _ _ _ Hrun1).
    split; [exact Hrun|].
    split; [rewrite Htr, Htr1, app_assoc; reflexivity|].
    split; [exact Hst|].
    rewrite deliveries_app, Hdel1, Hdel. unfold deliveries_of_batch. simpl.
    rewrite <- !app_assoc. reflexivity.
Qed.

End DispatcherFailures.

(** X12. A subscriber that raises ends the batch.  For a push frame whose
    batch is [pre ++ su :: post], the subscribers returning on the records
    of [pre], the subscribers before [failing] returning on [su] and
    [failing] raising [e] on it: the dispatcher raises [e]; the records of
    [pre] have been delivered to every subscriber, [su] to the subscribers
    before [failing] and to [failing] itself, and nothing else, so the
    subscribers after [failing] never see [su] and nobody sees a record of
    [post]; and the active state of the client is the one [su] reports. *)
Theorem subscriber_failure_ends_batch
    `{!Constants} `{!Pblite} (env : Externals) (array : json)
    (wrapper : gmap string json) (message m0 : json) (batch : BatchUpdate)
    (e : exn) (su : StateUpdate) (pre post : list StateUpdate)
    (before after : list _)
    (failing : list Event -> StateUpdate -> Client -> outcome unit * Client)
    (w : World) :
  push_frame env array wrapper ->
  event_payload env wrapper message ->
  getitem_0 message = Ok m0 ->
  is_str "cbu" m0 = true ->
  pblite_decode (pb_new : BatchUpdate) message true = Ok batch ->
  fst (new_client_id_part env (JObj wrapper) w) = Ok tt ->
  state_update batch = pre ++ su :: post ->
  observers env = before ++ failing :: after ->
  Forall (λ r, Forall (returns_on r) (observers env)) pre ->
  Forall (returns_on su) before ->
  raises_on e su failing ->
  exists w' evs,
    _on_receive_array env array w = (Raise e, w')
    /\ trace w' = trace w ++ evs
    /\ deliveries evs
       = deliveries_of_batch (length (observers env)) pre
         ++ deliveries_of_record 0 (length before) su
         ++ [ Called (length before) su (Some (reported su)) ]
    /\ _active_client_state (client w') = Some (reported su).
Proof.
  intros Hframe Hpay Hm0 Hcbu Hdec Hid Hbatch Hobs Hpre Hbefore Hfail.
  rewrite (_on_receive_array_push_frame env array wrapper w Hframe).
  rewrite run_bind.
  destruct (new_client_id_part_emits env (JObj wrapper) w)
    as (evs0 & Htr0 & Hall0).
  destruct (new_client_id_part env (JObj wrapper) w) as [[[]|e'] w1];
    simpl in Hid, Htr0; [|discriminate].
  rewrite (state_update_part_batch env wrapper message m0 batch w1
             Hpay Hm0 Hcbu Hdec).
  rewrite Hbatch.
  destruct (batch_raises env e su before failing after pre post
              Hobs Hpre Hbefore Hfail w1)
    as (w' & evs & Hrun & Htr & Hst & Hdel).
  exists w', (evs0 ++ evs). split; [exact Hrun|].
  split; [rewrite Htr, Htr0, app_assoc; reflexivity|].
  split; [|exact Hst].
  rewrite deliveries_app, Hdel.
  rewrite (of_kinds_deliveries_nil [KLog; KSendMaps] evs0);
    [reflexivity| |exact Hall0].
  set_solver.
Qed.

(** X13. A new-client_id facet that cannot be read costs the whole frame:
    when the wrapper of a push frame has a tag '3' whose value has no
    entry '2' (it is no dictionary, or a dictionary without that key), the
    dispatcher raises the error of that lookup, [TypeError] or [KeyError],
    and leaves the client and the trace as they were: no client_id is
    stored, the channel services are not added, and the state updates of
    the same frame are not delivered. *)
Theorem unreadable_client_id_drops_frame
    `{!Constants} `{!Pblite} (env : Externals) (array : json)
    (wrapper : gmap string json) (w3 : json) (e : exn) (w : World) :
  push_frame env array wrapper ->
  wrapper !! "3" = Some w3 ->
  getitem_str w3 "2" = Raise e ->
  _on_receive_array env array w = (Raise e, w)
  /\ (e = TypeError \/ e = KeyError "2").
Proof.
  intros Hframe H3 H2. split.
  - rewrite (_on_receive_array_push_frame env array wrapper w Hframe).
    rewrite run_bind. unfold new_client_id_part.
    rewrite run_bind. unfold lift at 1.
    rewrite (contains_str_obj _ _ _ H3). cbv beta iota.
    rewrite run_bind. unfold lift at 1.
    rewrite (getitem_str_obj _ _ _ H3). cbv beta iota.
    rewrite run_bind. unfold lift at 1. rewrite H2. reflexivity.
  - destruct w3; simpl in H2; try (left; congruence).
    destruct (m !! "2"); [discriminate|]. right. congruence.
Qed.

Section DispatcherFailuresExamples.
Import Double.

(** A subscriber that raises on every record. *)
Lemma raising_observer_raises_on (su : StateUpdate) :
  raises_on (OtherError "boom") su (λ _ _ cl, (Raise (OtherError "boom"), cl)).
Proof. intros tr cl. exists cl. split; reflexivity. Qed.

(** X12 on an example: a batch of two records and three subscribers, the
    second of which raises. *)
Lemma subscriber_failure_ends_batch_witness :
  let env := externals (λ _, 0%Q) offline
               [quiet; (λ _ _ cl, (Raise (OtherError "boom"), cl)); quiet] 0 in
  exists w',
    _on_receive_array env (frame (wrapper_events payload_cbu)) fresh
    = (Raise (OtherError "boom"), w')
    /\ deliveries (trace w')
       = [ Called 0 (record 1) (Some 1); Finished 0 (record 1);
           Called 1 (record 1) (Some 1) ]
    /\ _active_client_state (client w') = Some 1.
Proof.
  intros env.
  destruct (subscriber_failure_ends_batch env
              (frame (wrapper_events payload_cbu))
              {[ "2" := JObj {[ "2" := JStr payload_cbu ]} ]}
              message_cbu (JStr "cbu")
              {| state_update := [record 1; record 2] |}
              (OtherError "boom") (record 1) [] [record 2]
              [quiet] [quiet]
              (λ _ _ cl, (Raise (OtherError "boom"), cl)) fresh)
    as (w' & evs & Hrun & Htr & Hdel & Hst).
  - exists {[ "p" := JStr (wrapper_events payload_cbu) ]}, [],
           (wrapper_events payload_cbu).
    split; [reflexivity|]. split; vm_compute; reflexivity.
  - exists {[ "2" := JStr payload_cbu ]}, payload_cbu.
    split; [vm_compute; reflexivity|]. split; vm_compute; reflexivity.
  - reflexivity.
  - vm_compute. reflexivity.
  - vm_compute. reflexivity.
  - vm_compute. reflexivity.
  - reflexivity.
  - reflexivity.
  - constructor.
  - constructor; [|constructor]. intros tr cl. exists cl. split; reflexivity.
  - apply raising_observer_raises_on.
  - exists w'. split; [exact Hrun|]. simpl in Htr. subst evs.
    split; [rewrite Hdel; vm_compute; reflexivity|exact Hst].
Defined.

(** X13 on an example: the client_id facet is a string, not a
    dictionary. *)
Lemma unreadable_client_id_drops_frame_witness :
  let env := DoubleRequests.externals offline 0 in
  _on_receive_array env (frame DoubleRequests.wrapper_bad_id) fresh
  = (Raise TypeError, fresh).
Proof.
  intros env.
  apply (unreadable_client_id_drops_frame env
           (frame DoubleRequests.wrapper_bad_id)
           DoubleRequests.wrapper_bad_id_value (JStr "sess-42") TypeError fresh).
  - exists {[ "p" := JStr DoubleRequests.wrapper_bad_id ]}, [],
           DoubleRequests.wrapper_bad_id.
    split; [reflexivity|]. split; vm_compute; reflexivity.
  - vm_compute. reflexivity.
  - reflexivity.
Defined.

End DispatcherFailuresExamples.

(** ** More request methods *)

Lemma _get_request_header_pb_built (w : World) :
  header_ok (client w) = true ->
  _get_request_header_pb w
  = (Ok (_request_header (built (client w))),
     {| client := built (client w); trace := trace w |}).
Proof.
  unfold header_ok, built. intros Hok.
  destruct (_client_id (client w)) eqn:E; try discriminate.
  - rewrite (_get_request_header_pb_unset w E), world_eta. reflexivity.
  - rewrite (_get_request_header_pb_known s w E). reflexivity.
Qed.

Lemma _get_request_header_pb_fails (w : World) :
  header_ok (client w) = false ->
  _get_request_header_pb w = (Raise TypeError, w).
Proof.
  unfold header_ok, _get_request_header_pb. intros Hok.
  rewrite run_bind. simpl.
  destruct (_client_id (client w)); try discriminate; reflexivity.
Qed.

Lemma built_header_resource (c : Client) (s : string) :
  _client_id c = JStr s ->
  resource (client_identifier (_request_header (built c))) = Some s.
Proof. intros E. unfold built. rewrite E. reflexivity. Qed.

Section RequestMethodsProperties.
Context `{!Constants} `{!RequestConstants} `{!RequestMessages}
        (env : Externals).

(** A request method once its request is built: the first log entry of
    [_pb_request], then at most one call of the fetch primitive. *)
Lemma request_sent {Req Resp : Type}
    `{!PbMessage Req} `{!PbMessage Resp} `{!PbResponse Resp}
    (endpoint : string) (request_pb : Req) (response_pb : Resp)
    (c : Client) (tr : list Event) (evs : list Event) :
  exists r tail,
    _pb_request env endpoint request_pb response_pb
      {| client := c; trace := tr ++ evs |}
    = (r, {| client := c;
             trace := tr ++ evs
                      ++ sending endpoint (pblite_encode request_pb) :: tail |})
    /\ (count is_fetch tail <= 1)%nat
    /\ Forall (rpc_tail_event endpoint c) tail.
Proof.
  destruct (_pb_request_run env endpoint request_pb response_pb
              {| client := c; trace := tr ++ evs |})
    as (r & tail & Hrun & Hle & _ & Htail).
  exists r, tail. simpl in Hrun. rewrite <- app_assoc in Hrun.
  split; [exact Hrun|]. split; [exact Hle|exact Htail].
Qed.

Lemma decode_segments_ok (segments : list json) (segments_pb : list Segment)
    (w : World) :
  Forall2 (λ pblite segment_pb,
             pblite_decode (pb_new : Segment) pblite false = Ok segment_pb)
          segments segments_pb ->
  decode_segments segments w = (Ok segments_pb, w).
Proof.
  induction 1 as [|j s segments segments_pb Hj _ IH]; [reflexivity|].
  simpl. rewrite run_bind. unfold lift at 1. rewrite Hj. cbv beta iota.
  rewrite run_bind, IH. reflexivity.
Qed.

Lemma decode_segments_raises (good : list json) (bad : json)
    (others : list json) (e : exn) (w : World) :
  Forall (λ pblite, exists segment_pb,
            pblite_decode (pb_new : Segment) pblite false = Ok segment_pb)
         good ->
  pblite_decode (pb_new : Segment) bad false = Raise e ->
  decode_segments (good ++ bad :: others) w = (Raise e, w).
Proof.
  intros Hgood Hbad. induction Hgood as [|j good [s Hj] _ IH]; simpl.
  - rewrite run_bind. unfold lift at 1. rewrite Hbad. reflexivity.
  - rewrite run_bind. unfold lift at 1. rewrite Hj. cbv beta iota.
    rewrite run_bind, IH. reflexivity.
Qed.

End RequestMethodsProperties.

(** X14. [createconversation], for a client whose header can be built:
    the method draws one client-generated ID, logs and sends one request to
    conversations/createconversation, with at most one HTTP request, and
    changes nothing of the client but the resource of the header template.
    The request carries the header, the ID drawn, and one invitee per chat
    ID in the order of the list; its type is GROUP when there are two or
    more chat IDs or the group is forced, and ONE_TO_ONE otherwise, which
    includes the empty list. *)
Theorem createconversation_request
    `{!Constants} `{!RequestConstants} `{!RequestMessages} (env : Externals)
    (chat_id_list : list string) (force_group : bool) (w : World) :
  header_ok (client w) = true ->
  exists v request r tail,
    createconversation env chat_id_list force_group w
    = (r, {| client := built (client w);
             trace := trace w
                      ++ EvRandint 0 (2 ^ 32) v
                         :: sending "conversations/createconversation"
                              (pblite_encode request) :: tail |})
    /\ 0 <= v <= 2 ^ 32
    /\ (count is_fetch tail <= 1)%nat
    /\ cc_request_header request = _request_header (built (client w))
    /\ cc_client_generated_id request = v
    /\ map gaia_id (invitee_id request) = chat_id_list
    /\ ((2 <= length chat_id_list)%nat \/ force_group = true ->
        conversation_type request = CONVERSATION_TYPE_GROUP)
    /\ ((length chat_id_list <= 1)%nat -> force_group = false ->
        conversation_type request = CONVERSATION_TYPE_ONE_TO_ONE).
Proof.
  intros Hok. unfold createconversation.
  rewrite (run_bind_ok _ _ _ _ _ (_get_request_header_pb_built w Hok)).
  destruct (get_client_generated_id_range env
              {| client := built (client w); trace := trace w |})
    as (v & Hv & Hrange).
  rewrite (run_bind_ok _ _ _ _ _ Hv). simpl client. simpl trace.
  match goal with
  | |- context [_pb_request env ?ep ?rq ?rs _] =>
      destruct (request_sent env ep rq rs (built (client w)) (trace w)
                  [EvRandint 0 (2 ^ 32) v])
        as (r & tail & Hrun & Hle & _);
      exists v, rq, r, tail
  end.
  split; [exact Hrun|]. split; [exact Hrange|]. split; [exact Hle|].
  split; [reflexivity|]. split; [reflexivity|].
  split; [simpl; rewrite map_map; apply map_id|]. split.
  - intros [Hlen| ->]; simpl; [|rewrite orb_true_r; reflexivity].
    destruct (Nat.ltb_spec 1 (length chat_id_list)); [reflexivity|lia].
  - intros Hlen ->. simpl.
    destruct (Nat.ltb_spec 1 (length chat_id_list)); [lia|reflexivity].
Qed.

(** X15. [setpresence], for a client whose header can be built: the method
    logs and sends one request to presence/setpresence, with at most one
    HTTP request, and draws no random number.  The request asks for the
    state DESKTOP_ACTIVE when [online] holds and DESKTOP_IDLE otherwise,
    for 720 seconds; without a mood it has no mood setting, and with a mood,
    the empty string included, its mood message is one text segment with
    that mood. *)
Theorem setpresence_request
    `{!Constants} `{!RequestConstants} `{!RequestMessages} (env : Externals)
    (online : bool) (mood : option string) (w : World) :
  header_ok (client w) = true ->
  exists request r tail,
    setpresence env online mood w
    = (r, {| client := built (client w);
             trace := trace w
                      ++ sending "presence/setpresence" (pblite_encode request)
                         :: tail |})
    /\ (count is_fetch tail <= 1)%nat
    /\ Forall (rpc_tail_event "presence/setpresence" (built (client w))) tail
    /\ sp_request_header request = _request_header (built (client w))
    /\ pss_timeout_secs (presence_state_setting request) = 720
    /\ presence_type (presence_state_setting request)
       = (if online then CLIENT_PRESENCE_STATE_DESKTOP_ACTIVE
          else CLIENT_PRESENCE_STATE_DESKTOP_IDLE)
    /\ match mood with
       | None => mood_setting request = None
       | Some m =>
           exists segment_pb,
             option_map (λ s, mood_segment (mood_content (mood_message s)))
                        (mood_setting request)
             = Some [segment_pb]
             /\ segment_type segment_pb = SEGMENT_TYPE_TEXT
             /\ text segment_pb = m
       end.
Proof.
  intros Hok. unfold setpresence.
  rewrite (run_bind_ok _ _ _ _ _ (_get_request_header_pb_built w Hok)).
  match goal with
  | |- context [_pb_request env ?ep ?rq ?rs _] =>
      destruct (request_sent env ep rq rs (built (client w)) (trace w) [])
        as (r & tail & Hrun & Hle & Htail);
      exists rq, r, tail
  end.
  rewrite app_nil_r in Hrun. simpl in Hrun.
  split; [exact Hrun|]. split; [exact Hle|]. split; [exact Htail|].
  split; [reflexivity|]. split; [reflexivity|]. split; [reflexivity|].
  destruct mood as [m|]; [|reflexivity].
  eexists. split; [reflexivity|]. split; reflexivity.
Qed.

(** X16. [sendchatmessage], when every segment can be decoded and the
    header can be built, draws one client-generated ID.  Without an image
    ID it then logs and sends one request to conversations/sendchatmessage,
    with at most one HTTP request: the message of the request is made of the
    decoded segments in the order given; its event header names the
    conversation, carries the ID drawn and the OTR status given, the
    delivery medium given or BABEL when none is, and the type of a regular
    chat message; it has no media.  With an image ID the method raises
    [AttributeError] at the assignment to [request.existing_media], after
    the header is built and the ID drawn: nothing is logged and nothing is
    sent. *)
Theorem sendchatmessage_request
    `{!Constants} `{!RequestConstants} `{!RequestMessages} (env : Externals)
    (conversation : string) (segments : list json)
    (segments_pb : list Segment) (image_id : option string) (otr_status : Z)
    (medium : option DeliveryMedium) (w : World) :
  Forall2 (λ pblite segment_pb,
             pblite_decode (pb_new : Segment) pblite false = Ok segment_pb)
          segments segments_pb ->
  header_ok (client w) = true ->
  exists v,
    0 <= v <= 2 ^ 32
    /\ match image_id with
       | None =>
           exists request r tail,
             sendchatmessage env conversation segments None otr_status
               medium w
             = (r, {| client := built (client w);
                      trace := trace w
                               ++ EvRandint 0 (2 ^ 32) v
                                  :: sending "conversations/sendchatmessage"
                                       (pblite_encode request) :: tail |})
             /\ (count is_fetch tail <= 1)%nat
             /\ scm_request_header request
                = _request_header (built (client w))
             /\ segment (message_content request) = segments_pb
             /\ event_request_header request
                = {| conversation_id := {| conv_id := conversation |};
                     client_generated_id := v;
                     expected_otr := otr_status;
                     delivery_medium :=
                       Some (default {| medium_type := DELIVERY_MEDIUM_BABEL |}
                                     medium);
                     event_type := Some EVENT_TYPE_REGULAR_CHAT_MESSAGE |}
             /\ existing_media request = None
       | Some image =>
           sendchatmessage env conversation segments (Some image) otr_status
             medium w
           = (Raise (OtherError "AttributeError"),
              {| client := built (client w);
                 trace := trace w ++ [EvRandint 0 (2 ^ 32) v] |})
       end.
Proof.
  intros Hsegments Hok.
  destruct (get_client_generated_id_range env
              {| client := built (client w); trace := trace w |})
    as (v & Hv & Hrange).
  exists v. split; [exact Hrange|].
  destruct image_id as [image|]; unfold sendchatmessage;
    rewrite (run_bind_ok _ _ _ _ _
               (decode_segments_ok segments segments_pb w Hsegments));
    rewrite (run_bind_ok _ _ _ _ _ (_get_request_header_pb_built w Hok));
    rewrite (run_bind_ok _ _ _ _ _ Hv); simpl client; simpl trace.
  - reflexivity.
  - match goal with
    | |- context [_pb_request env ?ep ?rq ?rs _] =>
        destruct (request_sent env ep rq rs (built (client w)) (trace w)
                    [EvRandint 0 (2 ^ 32) v])
          as (r & tail & Hrun & Hle & _);
        exists rq, r, tail
    end.
    split; [exact Hrun|]. split; [exact Hle|].
    split; [reflexivity|]. split; [reflexivity|].
    split; [simpl; destruct medium; reflexivity|reflexivity].
Qed.

(** X17. [sendchatmessage] decodes every segment before it does anything
    else: when a segment cannot be decoded, the segments before it being
    decodable, the method raises the error of the decoder and leaves the
    client and the trace as they were; no header is built, no ID is drawn
    and nothing is sent. *)
Theorem sendchatmessage_bad_segment
    `{!Constants} `{!RequestConstants} `{!RequestMessages} (env : Externals)
    (conversation_id : string) (good : list json) (bad : json)
    (others : list json) (e : exn) (image_id : option string)
    (otr_status : Z) (delivery_medium : option DeliveryMedium) (w : World) :
  Forall (λ pblite, exists segment_pb,
            pblite_decode (pb_new : Segment) pblite false = Ok segment_pb)
         good ->
  pblite_decode (pb_new : Segment) bad false = Raise e ->
  sendchatmessage env conversation_id (good ++ bad :: others) image_id
    otr_status delivery_medium w
  = (Raise e, w).
Proof.
  intros Hgood Hbad. unfold sendchatmessage.
  apply run_bind_raise, decode_segments_raises; assumption.
Qed.

(** X18. A client_id that is neither unset nor a string stops every
    request method before anything is sent: the lookup of the identity, the
    active-client assertion, [setpresence] and [createconversation] raise
    [TypeError] and leave the client and the trace as they were, and a call
    of [set_active] that has a request to make raises [TypeError] without
    an HTTP request. *)
Theorem requests_need_a_string_client_id
    `{!Constants} `{!Pblite} `{!RequestConstants} `{!RequestMessages}
    (env : Externals) (w : World) :
  header_ok (client w) = false ->
  getselfinfo env w = (Raise TypeError, w)
  /\ (forall is_active timeout_secs,
        setactiveclient env is_active timeout_secs w = (Raise TypeError, w))
  /\ (forall online mood, setpresence env online mood w = (Raise TypeError, w))
  /\ (forall chat_id_list force_group,
        createconversation env chat_id_list force_group w
        = (Raise TypeError, w))
  /\ (needs_call env w = true ->
      fst (set_active env w) = Raise TypeError
      /\ count is_fetch (trace (snd (set_active env w)))
         = count is_fetch (trace w)).
Proof.
  intros Hok.
  assert (Hheader : forall w', header_ok (client w') = false ->
            _get_request_header_pb w' = (Raise TypeError, w'))
    by exact _get_request_header_pb_fails.
  split; [|split; [|split; [|split]]].
  - unfold getselfinfo. apply run_bind_raise, Hheader, Hok.
  - intros a t. unfold setactiveclient. apply run_bind_raise, Hheader, Hok.
  - intros o m. unfold setpresence. apply run_bind_raise, Hheader, Hok.
  - intros l f. unfold createconversation. apply run_bind_raise, Hheader, Hok.
  - intros En. rewrite set_active_unfold, En.
    assert (Hok' : header_ok (client (optimistic env w)) = false) by exact Hok.
    assert (Hid : is_none (_client_id (client (optimistic env w))) = false).
    { unfold header_ok in Hok'. destruct (_client_id _); try discriminate;
        reflexivity. }
    assert (Hpart : set_active_client_part env (optimistic env w)
                    = (Raise TypeError, optimistic env w)).
    { unfold set_active_client_part. rewrite run_bind.
      change (get_client (optimistic env w))
        with (Ok (client (optimistic env w)), optimistic env w).
      cbv beta iota. rewrite Hid. unfold try_except_NetworkError.
      unfold setactiveclient.
      rewrite (run_bind_raise _ _ _ _ _ (Hheader _ Hok')). reflexivity. }
    assert (Hcount : count is_fetch (trace (optimistic env w))
                     = count is_fetch (trace w)).
    { simpl. rewrite !count_app, !count_cons, !count_nil. simpl. lia. }
    destruct (_email (client w)) as [e|] eqn:Ee.
    + rewrite (set_active_requests_known env e (optimistic env w) Ee), Hpart.
      split; [reflexivity|exact Hcount].
    + rewrite (set_active_requests_unknown env (optimistic env w) Ee).
      unfold try_except_NetworkError, getselfinfo.
      rewrite (run_bind_raise _ _ _ _ _ (Hheader _ Hok')).
      split; [reflexivity|exact Hcount].
Qed.

Section RequestMethodsExamples.
Import Double DoubleRequests.

(** X14 on an example: one chat ID, the group not forced. *)
Lemma createconversation_request_witness :
  let env := DoubleRequests.externals server_ok 7 in
  exists v request r tail,
    createconversation env ["1234"] false with_id
    = (r, {| client := built (client with_id);
             trace := trace with_id
                      ++ EvRandint 0 (2 ^ 32) v
                         :: sending "conversations/createconversation"
                              (pblite_encode request) :: tail |})
    /\ conversation_type request = CONVERSATION_TYPE_ONE_TO_ONE
    /\ map gaia_id (invitee_id request) = ["1234"].
Proof.
  intros env.
  destruct (createconversation_request env ["1234"] false with_id eq_refl)
    as (v & request & r & tail & Hrun & _ & _ & _ & _ & Hinv & _ & Hone).
  exists v, request, r, tail. split; [exact Hrun|].
  split; [apply Hone; [simpl; lia|reflexivity]|exact Hinv].
Defined.

(** X15 on an example: going idle with an empty mood. *)
Lemma setpresence_request_witness :
  let env := DoubleRequests.externals server_ok 7 in
  exists request segment_pb,
    count (is_rpc_of "presence/setpresence")
      (trace (snd (setpresence env false (Some "") with_id))) = 1%nat
    /\ presence_type (presence_state_setting request)
       = CLIENT_PRESENCE_STATE_DESKTOP_IDLE
    /\ option_map (λ s, mood_segment (mood_content (mood_message s)))
                  (mood_setting request)
       = Some [segment_pb]
    /\ text segment_pb = "".
Proof.
  intros env.
  destruct (setpresence_request env false (Some "") with_id eq_refl)
    as (request & r & tail & Hrun & _ & Htail & _ & _ & Htype & seg & Hmood
        & _ & Htext).
  exists request, seg. split; [|split; [exact Htype|split; [exact Hmood|exact Htext]]].
  rewrite Hrun. simpl. rewrite count_cons, is_rpc_of_sending.
  rewrite (rpc_tail_event_count_zero "presence/setpresence"
             (built (client with_id)) _ tail); [reflexivity| |exact Htail].
  intros ev Hev. exact (rpc_tail_event_not_rpc _ _ _ _ Hev).
Defined.

(** X16 on an example: one text segment, without and with an image. *)
Lemma sendchatmessage_request_witness :
  let env := DoubleRequests.externals server_ok 7 in
  (exists v request r tail,
      sendchatmessage env "conv-1" [JArr [JInt 0; JStr "hi"]] None
        OFF_THE_RECORD_STATUS_ON_THE_RECORD None with_id
      = (r, {| client := built (client with_id);
               trace := trace with_id
                        ++ EvRandint 0 (2 ^ 32) v
                           :: sending "conversations/sendchatmessage"
                                (pblite_encode request) :: tail |})
      /\ map text (segment (message_content request)) = ["hi"])
  /\ fst (sendchatmessage env "conv-1" [JArr [JInt 0; JStr "hi"]]
            (Some "photo-7") OFF_THE_RECORD_STATUS_ON_THE_RECORD None with_id)
     = Raise (OtherError "AttributeError").
Proof.
  intros env.
  assert (Hsegments :
    Forall2 (λ pblite segment_pb,
               pblite_decode (pb_new : Segment) pblite false = Ok segment_pb)
            [JArr [JInt 0; JStr "hi"]]
            [ {| segment_type := 0; text := "hi"; segment_rest := JNull |} ])
    by (constructor; [reflexivity|constructor]).
  split.
  - destruct (sendchatmessage_request env "conv-1" [JArr [JInt 0; JStr "hi"]]
                _ None OFF_THE_RECORD_STATUS_ON_THE_RECORD None with_id
                Hsegments eq_refl)
      as (v & _ & request & r & tail & Hrun & _ & _ & Hseg & _).
    exists v, request, r, tail. split; [exact Hrun|].
    rewrite Hseg. reflexivity.
  - destruct (sendchatmessage_request env "conv-1" [JArr [JInt 0; JStr "hi"]]
                _ (Some "photo-7") OFF_THE_RECORD_STATUS_ON_THE_RECORD None
                with_id Hsegments eq_refl)
      as (v & _ & Hrun).
    rewrite Hrun. reflexivity.
Defined.

(** X17 on an example: the second segment is [None]. *)
Lemma sendchatmessage_bad_segment_witness :
  let env := DoubleRequests.externals server_ok 7 in
  sendchatmessage env "conv-1" [JArr [JInt 0; JStr "hi"]; JNull] None
    OFF_THE_RECORD_STATUS_ON_THE_RECORD None with_id
  = (Raise TypeError, with_id).
Proof.
  intros env.
  apply (sendchatmessage_bad_segment env "conv-1" [JArr [JInt 0; JStr "hi"]]
           JNull [] TypeError).
  - constructor; [|constructor]. eexists. reflexivity.
  - reflexivity.
Defined.

(** X18 on an example: a frame has brought the number 5 as client_id. *)
Lemma requests_need_a_string_client_id_witness :
  let env := DoubleRequests.externals server_ok 7 in
  let w := start (set_client_id (JInt 5) (__init__ all_cookies)) in
  getselfinfo env w = (Raise TypeError, w)
  /\ fst (set_active env w) = Raise TypeError.
Proof.
  intros env w.
  destruct (requests_need_a_string_client_id env w eq_refl)
    as (Hself & _ & _ & _ & Hactive).
  split; [exact Hself|]. apply Hactive. vm_compute. reflexivity.
Defined.

End RequestMethodsExamples.

(** ** Uploading an image *)

Section Upload.
Context (env : Externals) (files : FileExternals).

Lemma body_json_run (res : FetchResponse) (w : World) :
  body_json env res w = (body_value env res, w).
Proof.
  unfold body_json, body_value. rewrite run_bind. unfold lift.
  destruct (bytes_decode env (body res)); reflexivity.
Qed.

(** The five subscripts that lead to the upload URL. *)
Lemma upload_url_steps {A} (session : json) (k : json -> M A) (w : World) :
  (v ← lift (getitem_str session "sessionStatus");
   v ← lift (getitem_str v "externalFieldTransfers");
   v ← lift (getitem_0 v);
   v ← lift (getitem_str v "putInfo");
   upload_url ← lift (getitem_str v "url");
   k upload_url) w
  = match upload_url_of session with
    | Ok upload_url => k upload_url w
    | Raise e => (Raise e, w)
    end.
Proof.
  unfold upload_url_of. rewrite run_bind. unfold lift at 1.
  destruct (getitem_str session "sessionStatus") as [v1|e]; [|reflexivity].
  cbv beta iota. rewrite run_bind. unfold lift at 1.
  destruct (getitem_str v1 "externalFieldTransfers") as [v2|e]; [|reflexivity].
  cbv beta iota. rewrite run_bind. unfold lift at 1.
  destruct (getitem_0 v2) as [v3|e]; [|reflexivity].
  cbv beta iota. rewrite run_bind. unfold lift at 1.
  destruct (getitem_str v3 "putInfo") as [v4|e]; [|reflexivity].
  cbv beta iota. rewrite run_bind. unfold lift at 1.
  destruct (getitem_str v4 "url") as [v5|e]; reflexivity.
Qed.

(** The six subscripts that lead to the image ID. *)
Lemma photoid_steps (receipt : json) (w : World) :
  (v ← lift (getitem_str receipt "sessionStatus");
   v ← lift (getitem_str v "additionalInfo");
   v ← lift (getitem_str v "uploader_service.GoogleRupioAdditionalInfo");
   v ← lift (getitem_str v "completionInfo");
   v ← lift (getitem_str v "customerSpecificInfo");
   lift (getitem_str v "photoid")) w
  = (getitem_path receipt photoid_path, w).
Proof.
  unfold photoid_path, getitem_path. rewrite run_bind. unfold lift at 1.
  destruct (getitem_str receipt "sessionStatus") as [v1|e]; [|reflexivity].
  cbv beta iota. rewrite run_bind. unfold lift at 1.
  destruct (getitem_str v1 "additionalInfo") as [v2|e]; [|reflexivity].
  cbv beta iota. rewrite run_bind. unfold lift at 1.
  destruct (getitem_str v2 "uploader_service.GoogleRupioAdditionalInfo")
    as [v3|e]; [|reflexivity].
  cbv beta iota. rewrite run_bind. unfold lift at 1.
  destruct (getitem_str v3 "completionInfo") as [v4|e]; [|reflexivity].
  cbv beta iota. rewrite run_bind. unfold lift at 1.
  destruct (getitem_str v4 "customerSpecificInfo") as [v5|e]; [|reflexivity].
  cbv beta iota. unfold lift.
  destruct (getitem_str v5 "photoid"); reflexivity.
Qed.

(** [upload_image] up to the answer to its first request. *)
Lemma upload_image_first (image_file : ImageFile) (filename : option string)
    (w : World) :
  Forall (λ n, is_Some (_cookies (client w) !! n)) required_cookies ->
  let image_filename :=
    match filename with
    | Some (String a s) => String a s
    | _ => os_path_basename files (name image_file)
    end in
  exists req1,
    fetch_method req1 = "post"
    /\ fetch_url req1 = IMAGE_UPLOAD_URL
    /\ fetch_data req1
       = json_dumps env
           (create_session_request image_filename (length (content image_file)))
    /\ fetch_params req1 = {["alt" := "json"]}
    /\ fetch_headers req1 !! "content-type"
       = Some "application/x-www-form-urlencoded;charset=UTF-8"
    /\ let called := trace w ++ [EvCall (CFetch req1) (client w)] in
       upload_image env files image_file filename w
       = match http_fetch env called req1 with
         | Raise e => (Raise e, {| client := client w; trace := called |})
         | Ok res1 =>
             let w1 := {| client := client w;
                          trace := called ++ [EvDone (CFetch req1)] |} in
             match body_value env res1 with
             | Raise e => (Raise e, w1)
             | Ok session =>
                 match upload_url_of session with
                 | Raise e => (Raise e, w1)
                 | Ok upload_url =>
                     (res2 ← _base_request_to env files upload_url
                               "application/octet-stream" "json"
                               (string_of_list_byte (content image_file));
                      v ← body_json env res2;
                      lift (getitem_path v photoid_path)) w1
                 end
             end
         end.
Proof.
  intros Hall image_filename.
  destruct (_base_request_sends env IMAGE_UPLOAD_URL
              "application/x-www-form-urlencoded;charset=UTF-8" "json"
              (json_dumps env
                 (create_session_request image_filename
                    (length (content image_file)))) w Hall)
    as (sapisid & d & _ & _ & Hr).
  cbv zeta in Hr.
  exists {| fetch_method := "post"; fetch_url := IMAGE_UPLOAD_URL;
            fetch_headers :=
              <["content-type" :=
                  "application/x-www-form-urlencoded;charset=UTF-8"]>
                (get_authorization_headers env (trace w) sapisid);
            fetch_cookies := d;
            fetch_params := {["alt" := "json"]};
            fetch_data :=
              json_dumps env
                (create_session_request image_filename
                   (length (content image_file))) |}.
  split; [reflexivity|]. split; [reflexivity|]. split; [reflexivity|].
  split; [reflexivity|]. split; [simpl; apply lookup_insert_eq|].
  cbv zeta. unfold upload_image. fold image_filename.
  rewrite run_bind, Hr. clear Hr.
  destruct (http_fetch env _ _) as [res1|e]; [|reflexivity].
  rewrite run_bind, body_json_run.
  destruct (body_value env res1) as [session|e]; [|reflexivity].
  rewrite upload_url_steps.
  destruct (upload_url_of session) as [upload_url|e]; [|reflexivity].
  rewrite !run_bind.
  destruct (_base_request_to env files upload_url _ _ _ _)
    as [[res2|e] w2]; [|reflexivity].
  rewrite !run_bind, body_json_run.
  destruct (body_value env res2) as [receipt|e]; [|reflexivity].
  apply photoid_steps.
Qed.

End Upload.

(** X19. [upload_image] when both requests are answered as expected.  With
    the cookies there, the session request answered by a body that reads as
    a JSON document with the upload URL [u], a string, at
    ['sessionStatus']['externalFieldTransfers'][0]['putInfo']['url'], and
    the upload answered by a body with the image ID at the end of its path:
    the method makes exactly two HTTP requests, one after the other has
    returned, and returns the image ID.  The first is a POST to the image
    upload URL whose data is the JSON text of the session request, naming
    the file and giving the number of bytes of the image; the second is a
    POST to [u] whose data are the bytes of the image, as
    application/octet-stream.  The file name sent is the [filename] given,
    unless it is left out or empty: then it is the base name of the file.
    The client is left as it is. *)
Theorem upload_image_returns_photo_id
    (env : Externals) (files : FileExternals) (image_file : ImageFile)
    (filename : option string) (res1 res2 : FetchResponse)
    (session receipt photoid : json) (u : string) (w : World) :
  Forall (λ n, is_Some (_cookies (client w) !! n)) required_cookies ->
  (forall tr req, fetch_url req = IMAGE_UPLOAD_URL ->
                  http_fetch env tr req = Ok res1) ->
  body_value env res1 = Ok session ->
  upload_url_of session = Ok (JStr u) ->
  (forall tr req, fetch_url req = u -> http_fetch env tr req = Ok res2) ->
  body_value env res2 = Ok receipt ->
  getitem_path receipt photoid_path = Ok photoid ->
  exists req1 req2,
    upload_image env files image_file filename w
    = (Ok photoid,
       {| client := client w;
          trace := trace w ++ [ EvCall (CFetch req1) (client w);
                                EvDone (CFetch req1);
                                EvCall (CFetch req2) (client w);
                                EvDone (CFetch req2) ] |})
    /\ fetch_url req1 = IMAGE_UPLOAD_URL
    /\ fetch_headers req1 !! "content-type"
       = Some "application/x-www-form-urlencoded;charset=UTF-8"
    /\ (exists image_filename,
          fetch_data req1
          = json_dumps env
              (create_session_request image_filename
                 (length (content image_file)))
          /\ (forall f, filename = Some f -> f <> "" -> image_filename = f)
          /\ (filename = None \/ filename = Some "" ->
              image_filename = os_path_basename files (name image_file)))
    /\ fetch_url req2 = u
    /\ fetch_headers req2 !! "content-type" = Some "application/octet-stream"
    /\ fetch_data req2 = string_of_list_byte (content image_file)
    /\ fetch_params req1 = {["alt" := "json"]}
    /\ fetch_params req2 = {["alt" := "json"]}.
Proof.
  intros Hall Hfetch1 Hbody1 Hurl Hfetch2 Hbody2 Hpath.
  destruct (upload_image_first env files image_file filename w Hall)
    as (req1 & _ & Hu1 & Hd1 & Hp1 & Hc1 & Hrun).
  cbv zeta in Hrun. rewrite Hrun. clear Hrun.
  rewrite (Hfetch1 _ _ Hu1), Hbody1, Hurl.
  unfold _base_request_to.
  assert (Hall1 : Forall (λ n, is_Some (_cookies (client w) !! n))
                         required_cookies) by exact Hall.
  destruct (_base_request_sends env u "application/octet-stream" "json"
              (string_of_list_byte (content image_file))
              {| client := client w;
                 trace := (trace w ++ [EvCall (CFetch req1) (client w)])
                          ++ [EvDone (CFetch req1)] |} Hall1)
    as (sapisid & d & _ & _ & Hr2).
  cbv zeta in Hr2. rewrite run_bind, Hr2. clear Hr2.
  rewrite Hfetch2 by reflexivity.
  rewrite run_bind, body_json_run, Hbody2. unfold lift. rewrite Hpath.
  simpl client. simpl trace.
  exists req1,
    {| fetch_method := "post"; fetch_url := u;
       fetch_headers :=
         <["content-type" := "application/octet-stream"]>
           (get_authorization_headers env
              ((trace w ++ [EvCall (CFetch req1) (client w)])
               ++ [EvDone (CFetch req1)]) sapisid);
       fetch_cookies := d;
       fetch_params := {["alt" := "json"]};
       fetch_data := string_of_list_byte (content image_file) |}.
  split; [rewrite <- !app_assoc; reflexivity|].
  split; [exact Hu1|]. split; [exact Hc1|]. split.
  - eexists. split; [exact Hd1|]. split.
    + intros f -> Hf. destruct f; [contradiction|reflexivity].
    + intros [->| ->]; reflexivity.
  - split; [reflexivity|]. split; [simpl; apply lookup_insert_eq|].
    split; [reflexivity|]. split; [exact Hp1|reflexivity].
Qed.

(** X20. [upload_image] when the session request is answered but its body
    does not lead to an upload URL: the body is no text or no JSON, or one
    of the subscripts ['sessionStatus']['externalFieldTransfers'][0]
    ['putInfo']['url'] fails.  The method raises the error of that step, a
    [KeyError], [IndexError] or [TypeError] for a subscript, after exactly
    one HTTP request: the bytes of the image are not sent. *)
Theorem upload_image_without_upload_url
    (env : Externals) (files : FileExternals) (image_file : ImageFile)
    (filename : option string) (res1 : FetchResponse) (e : exn) (w : World) :
  Forall (λ n, is_Some (_cookies (client w) !! n)) required_cookies ->
  (forall tr req, fetch_url req = IMAGE_UPLOAD_URL ->
                  http_fetch env tr req = Ok res1) ->
  match body_value env res1 with
  | Ok session => upload_url_of session
  | Raise e' => Raise e'
  end = Raise e ->
  exists req1,
    upload_image env files image_file filename w
    = (Raise e,
       {| client := client w;
          trace := trace w ++ [ EvCall (CFetch req1) (client w);
                                EvDone (CFetch req1) ] |})
    /\ fetch_url req1 = IMAGE_UPLOAD_URL.
Proof.
  intros Hall Hfetch1 Hfail.
  destruct (upload_image_first env files image_file filename w Hall)
    as (req1 & _ & Hu1 & _ & _ & _ & Hrun).
  cbv zeta in Hrun. rewrite Hrun. clear Hrun.
  rewrite (Hfetch1 _ _ Hu1). exists req1. split; [|exact Hu1].
  rewrite <- !app_assoc. simpl.
  destruct (body_value env res1) as [session|e'].
  - rewrite Hfail. reflexivity.
  - injection Hfail as ->. reflexivity.
Qed.

Section UploadExamples.
Import Double DoubleRequests.

Lemma with_id_cookies :
  Forall (λ n, is_Some (_cookies (client with_id) !! n)) required_cookies.
Proof. apply all_cookies_present. reflexivity. Qed.

(** X19 on an example: the file /home/user/cat.png, no file name given. *)
Lemma upload_image_returns_photo_id_witness :
  let env := DoubleRequests.externals (upload_server session_text) 0 in
  exists req1 req2,
    upload_image env files cat_png None with_id
    = (Ok (JStr "photo-7"),
       {| client := client with_id;
          trace := [ EvCall (CFetch req1) (client with_id);
                     EvDone (CFetch req1);
                     EvCall (CFetch req2) (client with_id);
                     EvDone (CFetch req2) ] |})
    /\ fetch_url req2 = put_url
    /\ fetch_data req2 = "PNG"
    /\ fetch_data req1
       = json_dumps env (create_session_request "cat.png" 3).
Proof.
  intros env.
  destruct (upload_image_returns_photo_id env files cat_png None
              {| code := 200; cookies := ∅;
                 body := list_byte_of_string session_text |}
              {| code := 200; cookies := ∅;
                 body := list_byte_of_string receipt_text |}
              session_value receipt_value (JStr "photo-7") put_url with_id
              with_id_cookies)
    as (req1 & req2 & Hrun & _ & _ & (image_filename & Hd1 & _ & Hbase)
        & Hu2 & _ & Hd2 & _).
  - intros tr req Hurl. simpl. rewrite Hurl. reflexivity.
  - vm_compute. reflexivity.
  - vm_compute. reflexivity.
  - intros tr req Hurl. simpl. rewrite Hurl. reflexivity.
  - vm_compute. reflexivity.
  - vm_compute. reflexivity.
  - exists req1, req2. split; [exact Hrun|]. split; [exact Hu2|].
    split; [exact Hd2|].
    rewrite Hd1, (Hbase (or_introl eq_refl)). reflexivity.
Defined.

(** X20 on an example: the server opens no transfer. *)
Lemma upload_image_without_upload_url_witness :
  let env := DoubleRequests.externals (upload_server refused_text) 0 in
  fst (upload_image env files cat_png None with_id) = Raise IndexError
  /\ count is_fetch (trace (snd (upload_image env files cat_png None with_id)))
     = 1%nat.
Proof.
  intros env.
  destruct (upload_image_without_upload_url env files cat_png None
              {| code := 200; cookies := ∅;
                 body := list_byte_of_string refused_text |}
              IndexError with_id with_id_cookies)
    as (req1 & Hrun & _).
  - intros tr req Hurl. simpl. rewrite Hurl. reflexivity.
  - vm_compute. reflexivity.
  - rewrite Hrun. split; [reflexivity|].
    simpl. rewrite !count_cons, count_nil. reflexivity.
Defined.

End UploadExamples.
